(** * Verification of the news-feed pipeline (news_utils.py, news_search.py,
      openrouter_client.py, news_search_lambda.py)

    The development is a shallow embedding of the Python sources.  Python
    [str] values are modelled as [string] (one [ascii] per character: the
    model is exact on ASCII text), Python [int] as [Z], Python [float] as the
    kernel's IEEE-754 binary64 [float], Python [set] as stdpp's [gset], and
    exceptions as an explicit [outcome] type.  Everything that crosses the
    network is an oracle field of a [World] record. *)

From Stdlib Require Import ZArith List String Ascii Bool Lia Permutation Sorted.
From Stdlib Require Import Floats.
From stdpp Require Import base gmap strings list.

Set Warnings "-clear-no-such-hyp,-register-all".

Local Open Scope string_scope.
Local Open Scope Z_scope.

(* ===================================================================== *)
(** * Python string primitives                                            *)
(* ===================================================================== *)

Module Py.

(** [c.lower()] on one ASCII character. *)
Definition lower_ascii (c : ascii) : ascii :=
  let n := nat_of_ascii c in
  if andb (Nat.leb 65 n) (Nat.leb n 90) then ascii_of_nat (n + 32) else c.

(** [s.lower()]. *)
Fixpoint lower (s : string) : string :=
  match s with
  | EmptyString => EmptyString
  | String c s' => String (lower_ascii c) (lower s')
  end.

Definition is_upper_ascii (c : ascii) : bool :=
  let n := nat_of_ascii c in andb (Nat.leb 65 n) (Nat.leb n 90).

Definition is_lower_ascii (c : ascii) : bool :=
  let n := nat_of_ascii c in andb (Nat.leb 97 n) (Nat.leb n 122).

Definition is_digit (c : ascii) : bool :=
  let n := nat_of_ascii c in andb (Nat.leb 48 n) (Nat.leb n 57).

Definition is_alpha (c : ascii) : bool := orb (is_upper_ascii c) (is_lower_ascii c).

(** The characters [str.strip()], [str.split()] and the regex class [\s]
    treat as white space (ASCII part): TAB, LF, VT, FF, CR, FS, GS, RS, US
    and the blank. *)
Definition is_space (c : ascii) : bool :=
  let n := nat_of_ascii c in
  orb (andb (Nat.leb 9 n) (Nat.leb n 13))
      (orb (andb (Nat.leb 28 n) (Nat.leb n 31)) (Nat.eqb n 32)).

(** The regex class [\w] (ASCII part): letters, digits and the underscore. *)
Definition is_word (c : ascii) : bool :=
  orb (is_alpha c) (orb (is_digit c) (Nat.eqb (nat_of_ascii c) 95)).

(** [any(is_cased)] and [s.isupper()]: at least one cased character and no
    lower-case one. *)
Fixpoint has_upper (s : string) : bool :=
  match s with
  | EmptyString => false
  | String c s' => orb (is_upper_ascii c) (has_upper s')
  end.

Fixpoint has_lower (s : string) : bool :=
  match s with
  | EmptyString => false
  | String c s' => orb (is_lower_ascii c) (has_lower s')
  end.

Definition isupper (s : string) : bool := andb (has_upper s) (negb (has_lower s)).

(** [s.startswith(p)]. *)
Fixpoint startswith (p s : string) : bool :=
  match p, s with
  | EmptyString, _ => true
  | String a p', String b s' => andb (Ascii.eqb a b) (startswith p' s')
  | String _ _, EmptyString => false
  end.

(** [needle in hay] for strings. *)
Fixpoint contains (needle hay : string) : bool :=
  orb (startswith needle hay)
      (match hay with
       | EmptyString => false
       | String _ hay' => contains needle hay'
       end).

(** [s[:n]] for a non-negative [n]. *)
Fixpoint take (n : nat) (s : string) : string :=
  match n, s with
  | O, _ => EmptyString
  | S n', String c s' => String c (take n' s')
  | S _, EmptyString => EmptyString
  end.

(** [s[n:]] for a non-negative [n]. *)
Fixpoint drop (n : nat) (s : string) : string :=
  match n, s with
  | O, _ => s
  | S n', String _ s' => drop n' s'
  | S _, EmptyString => EmptyString
  end.

(** [len(s)] as a Python int. *)
Definition len (s : string) : Z := Z.of_nat (String.length s).

(** [s.endswith(p)]. *)
Definition endswith (p s : string) : bool :=
  andb (Nat.leb (String.length p) (String.length s))
       (String.eqb (drop (String.length s - String.length p) s) p).

Fixpoint lstrip_with (f : ascii -> bool) (s : string) : string :=
  match s with
  | EmptyString => EmptyString
  | String c s' => if f c then lstrip_with f s' else s
  end.

Fixpoint rev_string (acc s : string) : string :=
  match s with
  | EmptyString => acc
  | String c s' => rev_string (String c acc) s'
  end.

Definition rstrip_with (f : ascii -> bool) (s : string) : string :=
  rev_string EmptyString (lstrip_with f (rev_string EmptyString s)).

(** [s.strip()]. *)
Definition strip (s : string) : string := rstrip_with is_space (lstrip_with is_space s).

(** [s.rstrip(c)] for a one-character argument. *)
Definition rstrip_char (c : ascii) (s : string) : string := rstrip_with (Ascii.eqb c) s.

(** [s.split()]: the maximal runs of non-blank characters, in order. *)
Fixpoint split_ws_aux (cur : string) (s : string) : list string :=
  match s with
  | EmptyString =>
      match cur with EmptyString => [] | _ => [rev_string EmptyString cur] end
  | String c s' =>
      if is_space c
      then match cur with
           | EmptyString => split_ws_aux EmptyString s'
           | _ => rev_string EmptyString cur :: split_ws_aux EmptyString s'
           end
      else split_ws_aux (String c cur) s'
  end.

Definition split_ws (s : string) : list string := split_ws_aux EmptyString s.

(** [sep.join(l)]. *)
Fixpoint join (sep : string) (l : list string) : string :=
  match l with
  | [] => EmptyString
  | [x] => x
  | x :: l' => x ++ sep ++ join sep l'
  end.

(** Decimal digits of a non-negative number, most significant first, with
    fuel (one more than the binary logarithm is always enough). *)
Fixpoint digits_fuel (fuel : nat) (z : Z) (acc : string) : string :=
  match fuel with
  | O => acc
  | S fuel' =>
      let acc' := String (ascii_of_nat (48 + Z.to_nat (z mod 10))) acc in
      if z <? 10 then acc' else digits_fuel fuel' (z / 10) acc'
  end.

(** [str(n)] for an int. *)
Definition str_of_Z (z : Z) : string :=
  let d := digits_fuel (S (Z.to_nat (Z.log2 (Z.abs z)))) (Z.abs z) EmptyString in
  if z <? 0 then String "-" d else d.

(** ["%0kd" % n] for a non-negative [n]: zero padding on the left. *)
Fixpoint zeros (k : nat) : string :=
  match k with O => EmptyString | S k' => String "0" (zeros k') end.

Definition pad0 (k : nat) (z : Z) : string :=
  let d := str_of_Z z in zeros (k - String.length d) ++ d.

(** [any(kw in s for kw in kws)]. *)
Definition any_contains (kws : list string) (s : string) : bool :=
  existsb (fun kw => contains kw s) kws.

End Py.

(* ===================================================================== *)
(** * Regular expressions (the fragment the sources use with [re.search]) *)
(* ===================================================================== *)

Module Re.

Inductive regex : Type :=
| Void
| Eps
| Class (p : ascii -> bool)
| Cat (r1 r2 : regex)
| Alt (r1 r2 : regex)
| Star (r : regex).

Fixpoint nullable (r : regex) : bool :=
  match r with
  | Void => false
  | Eps => true
  | Class _ => false
  | Cat r1 r2 => andb (nullable r1) (nullable r2)
  | Alt r1 r2 => orb (nullable r1) (nullable r2)
  | Star _ => true
  end.

(** Brzozowski derivative. *)
Fixpoint deriv (c : ascii) (r : regex) : regex :=
  match r with
  | Void => Void
  | Eps => Void
  | Class p => if p c then Eps else Void
  | Cat r1 r2 =>
      if nullable r1
      then Alt (Cat (deriv c r1) r2) (deriv c r2)
      else Cat (deriv c r1) r2
  | Alt r1 r2 => Alt (deriv c r1) (deriv c r2)
  | Star r1 => Cat (deriv c r1) (Star r1)
  end.

(** Some prefix of [s] matches [r]. *)
Fixpoint match_prefix (r : regex) (s : string) : bool :=
  orb (nullable r)
      (match s with
       | EmptyString => false
       | String c s' => match_prefix (deriv c r) s'
       end).

(** [bool(re.search(r, s))]: some substring of [s] matches [r]. *)
Fixpoint search (r : regex) (s : string) : bool :=
  orb (match_prefix r s)
      (match s with
       | EmptyString => false
       | String _ s' => search r s'
       end).

Fixpoint lit (s : string) : regex :=
  match s with
  | EmptyString => Eps
  | String c s' => Cat (Class (Ascii.eqb c)) (lit s')
  end.

Definition opt (r : regex) : regex := Alt r Eps.
Definition plus (r : regex) : regex := Cat r (Star r).
Definition alts (l : list regex) : regex := fold_right Alt Void l.
Definition seq (l : list regex) : regex := fold_right Cat Eps l.
Definition digit : regex := Class Py.is_digit.
Definition space : regex := Class Py.is_space.
Definition one_of (s : string) : regex :=
  Class (fun c => existsb (Ascii.eqb c) (list_ascii_of_string s)).

End Re.

(* ===================================================================== *)
(** * Calendar dates ([datetime.date])                                    *)
(* ===================================================================== *)

Module Date.

Record date : Type := mkdate { year : Z; month : Z; day : Z }.

Definition is_leap (y : Z) : bool :=
  andb (y mod 4 =? 0) (orb (negb (y mod 100 =? 0)) (y mod 400 =? 0)).

Definition days_in_month (y m : Z) : Z :=
  if m =? 2 then (if is_leap y then 29 else 28)
  else if orb (orb (m =? 4) (m =? 6)) (orb (m =? 9) (m =? 11)) then 30
  else 31.

(** Days in the months before month [m] of year [y]. *)
Fixpoint days_before_month_aux (y : Z) (k : nat) : Z :=
  match k with
  | O => 0
  | S k' => days_before_month_aux y k' + days_in_month y (Z.of_nat k)
  end.

Definition days_before_month (y m : Z) : Z :=
  days_before_month_aux y (Z.to_nat (m - 1)).

Definition days_before_year (y : Z) : Z :=
  let y1 := y - 1 in y1 * 365 + y1 / 4 - y1 / 100 + y1 / 400.

(** [d.toordinal()]. *)
Definition toordinal (d : date) : Z :=
  days_before_year (year d) + days_before_month (year d) (month d) + day d.

(** The constructor [date(y, m, d)] raises [ValueError] outside this range. *)
Definition valid (y m d : Z) : bool :=
  andb (andb (1 <=? y) (y <=? 9999))
       (andb (andb (1 <=? m) (m <=? 12))
             (andb (1 <=? d) (d <=? days_in_month y m))).

(** [d.isoformat()], also [str(d)]. *)
Definition isoformat (d : date) : string :=
  Py.pad0 4 (year d) ++ "-" ++ Py.pad0 2 (month d) ++ "-" ++ Py.pad0 2 (day d).

(** [(a - b).days]. *)
Definition days_between (a b : date) : Z := toordinal a - toordinal b.

(** ** [datetime.strptime(s, fmt).date()] for the directives %Y, %m, %d

    [strptime] compiles the format into a regular expression, takes its
    first match at the start of the string (alternatives tried in the
    order written, with backtracking), raises [ValueError] when there is
    none or when it leaves characters unconverted, and then builds the
    date, which raises [ValueError] for an impossible day. *)

Inductive directive : Type :=
| DY                 (* %Y : \d\d\d\d *)
| Dm                 (* %m : 1[0-2]|0[1-9]|[1-9] *)
| Dd                 (* %d : 3[01]|[12]\d|0[1-9]|[1-9]| [1-9] *)
| Dlit (c : ascii).

Definition digit_val (c : ascii) : Z := Z.of_nat (nat_of_ascii c) - 48.

Definition in_range (lo hi : string) (c : ascii) : bool :=
  match lo, hi with
  | String a _, String b _ =>
      andb (Nat.leb (nat_of_ascii a) (nat_of_ascii c))
           (Nat.leb (nat_of_ascii c) (nat_of_ascii b))
  | _, _ => false
  end.

(** Two characters [c1 c2] with [c1] in [l1..h1] and [c2] in [l2..h2]. *)
Definition two (l1 h1 l2 h2 : string) (s : string) : list (Z * string) :=
  match s with
  | String c1 (String c2 rest) =>
      if andb (in_range l1 h1 c1) (in_range l2 h2 c2)
      then [(10 * digit_val c1 + digit_val c2, rest)] else []
  | _ => []
  end.

(** One character in [l..h]. *)
Definition one (l h : string) (s : string) : list (Z * string) :=
  match s with
  | String c rest => if in_range l h c then [(digit_val c, rest)] else []
  | _ => []
  end.

(** A blank followed by one character in [1..9]. *)
Definition blank_one (s : string) : list (Z * string) :=
  match s with
  | String " " (String c rest) =>
      if in_range "1" "9" c then [(digit_val c, rest)] else []
  | _ => []
  end.

Definition four_digits (s : string) : list (Z * string) :=
  match s with
  | String a (String b (String c (String d rest))) =>
      if andb (andb (Py.is_digit a) (Py.is_digit b)) (andb (Py.is_digit c) (Py.is_digit d))
      then [(1000 * digit_val a + 100 * digit_val b + 10 * digit_val c + digit_val d, rest)]
      else []
  | _ => []
  end.

Definition month_field (s : string) : list (Z * string) :=
  two "1" "1" "0" "2" s ++ two "0" "0" "1" "9" s ++ one "1" "9" s.

Definition day_field (s : string) : list (Z * string) :=
  two "3" "3" "0" "1" s ++ two "1" "2" "0" "9" s ++ two "0" "0" "1" "9" s
  ++ one "1" "9" s ++ blank_one s.

(** Fields found so far: year, month, day (1900-01-01 by default, as in
    [_strptime]). *)
Definition fields : Type := (Z * Z * Z)%type.

(** All the matches of the format at the start of [s], in the order the
    backtracking matcher finds them, each with the unconverted rest. *)
Fixpoint matches (fmt : list directive) (f : fields) (s : string)
  : list (fields * string) :=
  match fmt with
  | [] => [(f, s)]
  | DY :: fmt' =>
      flat_map (fun '(v, rest) => let '(_, m, d) := f in matches fmt' (v, m, d) rest)
               (four_digits s)
  | Dm :: fmt' =>
      flat_map (fun '(v, rest) => let '(y, _, d) := f in matches fmt' (y, v, d) rest)
               (month_field s)
  | Dd :: fmt' =>
      flat_map (fun '(v, rest) => let '(y, m, _) := f in matches fmt' (y, m, v) rest)
               (day_field s)
  | Dlit c :: fmt' =>
      match s with
      | String c' rest => if Ascii.eqb c c' then matches fmt' f rest else []
      | EmptyString => []
      end
  end.

(** [Some d] for the parsed date, [None] for [ValueError]. *)
Definition strptime (s : string) (fmt : list directive) : option date :=
  match matches fmt (1900, 1, 1) s with
  | ((y, m, d), EmptyString) :: _ =>
      if valid y m d then Some (mkdate y m d) else None
  | _ => None
  end.

End Date.

(* ===================================================================== *)
(** * JSON values, exceptions, outcomes                                   *)
(* ===================================================================== *)

(** A decoded JSON document ([json.loads]); objects keep their members in
    order. *)
Local Unset Elimination Schemes.

Inductive Json : Type :=
| JNull
| JBool (b : bool)
| JNum (z : Z)
| JStr (s : string)
| JArr (l : list Json)
| JObj (members : list (string * Json)).

Local Set Elimination Schemes.

(** Python truth value of a decoded JSON document. *)
Definition truthy (j : Json) : bool :=
  match j with
  | JNull => false
  | JBool b => b
  | JNum z => negb (z =? 0)
  | JStr s => negb (String.eqb s "")
  | JArr l => match l with [] => false | _ => true end
  | JObj m => match m with [] => false | _ => true end
  end.

(** [d.get(key)] on a member list; [None] when the key is absent. *)
Fixpoint members_get (key : string) (m : list (string * Json)) : option Json :=
  match m with
  | [] => None
  | (k, v) :: m' => if String.eqb k key then Some v else members_get key m'
  end.

(** The exceptions the modelled code raises or lets through. *)
Inductive exn : Type :=
| OpenRouterError (message : Json) (status : option Z) (payload : Json)
| AttributeError
| JSONDecodeError
| ValueError (msg : string)
| OtherException (name : string).

(** The result of a call that may raise. *)
Inductive outcome (A : Type) : Type :=
| Ok (a : A)
| Raise (e : exn).

Arguments Ok {A} a.
Arguments Raise {A} e.

(* ===================================================================== *)
(** * [urllib.parse.urlparse], as far as the sources read its result      *)
(* ===================================================================== *)

Module Url.

Record ParseResult : Type :=
  mkParseResult { scheme : string; netloc : string; path : string }.

(** Split at the first character satisfying [f]: the part before it, and
    the rest starting with that character. *)
Fixpoint break_at (f : ascii -> bool) (s : string) : string * string :=
  match s with
  | EmptyString => (EmptyString, EmptyString)
  | String c s' =>
      if f c then (EmptyString, s)
      else let '(a, b) := break_at f s' in (String c a, b)
  end.

Fixpoint remove_chars (f : ascii -> bool) (s : string) : string :=
  match s with
  | EmptyString => EmptyString
  | String c s' => if f c then remove_chars f s' else String c (remove_chars f s')
  end.

Fixpoint all_chars (f : ascii -> bool) (s : string) : bool :=
  match s with
  | EmptyString => true
  | String c s' => andb (f c) (all_chars f s')
  end.

Definition has_char (c : ascii) (s : string) : bool :=
  negb (all_chars (fun d => negb (Ascii.eqb c d)) s).

Definition is_one_of (cs : string) (c : ascii) : bool :=
  existsb (Ascii.eqb c) (list_ascii_of_string cs).

Definition scheme_char (c : ascii) : bool :=
  orb (orb (Py.is_alpha c) (Py.is_digit c)) (is_one_of "+-." c).

(** Schemes for which [urlparse] splits [;params] off the path. *)
Definition uses_params : list string :=
  [""; "ftp"; "hdl"; "prospero"; "http"; "imap"; "https"; "shttp"; "rtsp";
   "rtspu"; "sip"; "sips"; "mms"; "sftp"; "tel"].

(** [s.split(c)]. *)
Fixpoint split_char_aux (c : ascii) (cur : string) (s : string) : list string :=
  match s with
  | EmptyString => [Py.rev_string EmptyString cur]
  | String d s' =>
      if Ascii.eqb c d
      then Py.rev_string EmptyString cur :: split_char_aux c EmptyString s'
      else split_char_aux c (String d cur) s'
  end.

Definition split_char (c : ascii) (s : string) : list string :=
  split_char_aux c EmptyString s.

(** The path without the [;params] of its last segment. *)
Definition strip_params (p : string) : string :=
  let segs := split_char "/" p in
  match rev segs with
  | [] => p
  | last_seg :: before =>
      Py.join "/" (rev (fst (break_at (Ascii.eqb ";") last_seg) :: before))
  end.

(** [urlparse(url)]; [None] stands for the [ValueError] of an unbalanced
    bracket in the network location. *)
Definition urlparse (url : string) : option ParseResult :=
  let url := Py.lstrip_with (fun c => Nat.leb (nat_of_ascii c) 32) url in
  let unsafe := String "009" (String "010" (String "013" EmptyString)) in
  let url := remove_chars (is_one_of unsafe) url in
  let '(sch, rest) :=
    let '(before, from_colon) := break_at (Ascii.eqb ":") url in
    match before, from_colon with
    | String c0 _, String _ after =>
        if andb (Py.is_alpha c0) (all_chars scheme_char before)
        then (Py.lower before, after) else (EmptyString, url)
    | _, _ => (EmptyString, url)
    end in
  let '(loc, rest) :=
    if Py.startswith "//" rest
    then break_at (is_one_of "/?#") (Py.drop 2 rest)
    else (EmptyString, rest) in
  if negb (Bool.eqb (has_char "[" loc) (has_char "]" loc)) then None
  else
    let rest := fst (break_at (Ascii.eqb "#") rest) in
    let rest := fst (break_at (Ascii.eqb "?") rest) in
    let p := if existsb (String.eqb sch) uses_params then strip_params rest else rest in
    Some (mkParseResult sch loc p).

End Url.

(* ===================================================================== *)
(** * news_utils.py                                                       *)
(* ===================================================================== *)

Module NewsUtils.

Import Date.

(** [get_domain(url)]: the network location without a leading [www.];
    the empty string when parsing raises. *)
Definition get_domain (url : string) : string :=
  match Url.urlparse url with
  | Some parsed =>
      let domain := Url.netloc parsed in
      if Py.startswith "www." domain then Py.drop 4 domain else domain
  | None => EmptyString
  end.

(** [get_parent_url(url)]: [None] at root level or when parsing raises. *)
Definition get_parent_url (url : string) : option string :=
  match Url.urlparse url with
  | Some parsed =>
      let path := Py.rstrip_char "/" (Url.path parsed) in
      if orb (String.eqb path "") (String.eqb path "/") then None
      else
        let parent_path := Py.join "/" (removelast (Url.split_char "/" path)) in
        let parent_path :=
          if String.eqb parent_path "" then "/" else parent_path ++ "/" in
        Some (Url.scheme parsed ++ "://" ++ Url.netloc parsed ++ parent_path)
  | None => None
  end.

Definition today_keywords : list string :=
  ["oggi"; "today"; "adesso"; "now"; "just now"; "appena";
   "hoy"; "ahora"; "actualmente";
   "aujourd'hui"; "maintenant"; "actuellement"].

(** The optional suffix [(fa|ago|antes|il y a)?] the three patterns share. *)
Definition ago_suffix : Re.regex :=
  Re.opt (Re.alts [Re.lit "fa"; Re.lit "ago"; Re.lit "antes"; Re.lit "il y a"]).

Definition time_pattern (unit_words : Re.regex) : Re.regex :=
  Re.seq [Re.plus Re.digit; Re.Star Re.space; unit_words; Re.Star Re.space; ago_suffix].

Definition time_patterns : list Re.regex :=
  [ (* (\d+)\s*(ore?|hour|hours|horas?|heures?)\s*(fa|ago|antes|il y a)? *)
    time_pattern (Re.alts [Re.Cat (Re.lit "or") (Re.opt (Re.lit "e")); Re.lit "hour";
                           Re.lit "hours"; Re.Cat (Re.lit "hora") (Re.opt (Re.lit "s"));
                           Re.Cat (Re.lit "heure") (Re.opt (Re.lit "s"))]);
    (* (\d+)\s*(minut[io]?|min|minutes?)\s*(fa|ago|antes|il y a)? *)
    time_pattern (Re.alts [Re.Cat (Re.lit "minut") (Re.opt (Re.one_of "io")); Re.lit "min";
                           Re.Cat (Re.lit "minute") (Re.opt (Re.lit "s"))]);
    (* (\d+)\s*(second[io]?|sec|seconds?|segundos?|secondes?)\s*(fa|ago|antes|il y a)? *)
    time_pattern (Re.alts [Re.Cat (Re.lit "second") (Re.opt (Re.one_of "io")); Re.lit "sec";
                           Re.Cat (Re.lit "second") (Re.opt (Re.lit "s"));
                           Re.Cat (Re.lit "segundo") (Re.opt (Re.lit "s"));
                           Re.Cat (Re.lit "seconde") (Re.opt (Re.lit "s"))]) ].

Definition date_formats : list (list directive) :=
  [ [DY; Dlit "-"%char; Dm; Dlit "-"%char; Dd];     (* %Y-%m-%d *)
    [Dd; Dlit "/"%char; Dm; Dlit "/"%char; DY];     (* %d/%m/%Y *)
    [Dm; Dlit "/"%char; Dd; Dlit "/"%char; DY];     (* %m/%d/%Y *)
    [Dd; Dlit "-"%char; Dm; Dlit "-"%char; DY];     (* %d-%m-%Y *)
    [DY; Dlit "/"%char; Dm; Dlit "/"%char; Dd] ].   (* %Y/%m/%d *)

(** The loop over [date_formats]: the first format that parses wins. *)
Fixpoint first_parse (s : string) (fmts : list (list directive)) : option date :=
  match fmts with
  | [] => None
  | fmt :: fmts' =>
      match strptime s fmt with
      | Some d => Some d
      | None => first_parse s fmts'
      end
  end.

(** [is_date_recent(date_str, max_days)], with [date.today()] as the
    parameter [today].  Returns the pair [(is_recent, reason)]. *)
Definition is_date_recent (today : date) (date_str : string) (max_days : Z)
  : bool * string :=
  if String.eqb date_str "" then (false, "no date")
  else
    let date_str_lower := Py.strip (Py.lower date_str) in
    let today_str := isoformat today in
    if String.eqb (Py.take 10 date_str) today_str
    then (true, "exact match (" ++ today_str ++ ")")
    else if Py.any_contains today_keywords date_str_lower
    then (true, "keyword match (" ++ date_str ++ ")")
    else if existsb (fun pattern => Re.search pattern date_str_lower) time_patterns
    then (true, "recent time (" ++ date_str ++ ")")
    else
      match first_parse (Py.take 10 date_str) date_formats with
      | Some parsed_date =>
          let days_diff := days_between today parsed_date in
          if days_diff <=? max_days
          then (true, "within " ++ Py.str_of_Z max_days ++ " days ("
                      ++ isoformat parsed_date ++ ", " ++ Py.str_of_Z days_diff
                      ++ " days ago)")
          else (false, "too old (" ++ isoformat parsed_date ++ ", "
                       ++ Py.str_of_Z days_diff ++ " days ago > "
                       ++ Py.str_of_Z max_days ++ ")")
      | None =>
          if andb (Py.contains (Py.str_of_Z (day today)) date_str)
                  (Py.contains (Py.str_of_Z (year today)) date_str)
          then (true, "date components match (" ++ date_str ++ ")")
          else (false, "not recent (" ++ date_str ++ ")")
      end.

(** [normalize_text(text)]: lower case, every character outside [\w\s]
    replaced by a blank, runs of white space collapsed, ends stripped. *)
Fixpoint map_chars (f : ascii -> ascii) (s : string) : string :=
  match s with
  | EmptyString => EmptyString
  | String c s' => String (f c) (map_chars f s')
  end.

(** [re.sub(r'\s+', ' ', s)]: each maximal run of white space becomes one
    blank; [in_run] says that the previous character was white space. *)
Fixpoint collapse_ws_aux (in_run : bool) (s : string) : string :=
  match s with
  | EmptyString => EmptyString
  | String c s' =>
      if Py.is_space c
      then (if in_run then collapse_ws_aux true s'
            else String " " (collapse_ws_aux true s'))
      else String c (collapse_ws_aux false s')
  end.

Definition collapse_ws (s : string) : string := collapse_ws_aux false s.

Definition normalize_text (text : string) : string :=
  if String.eqb text "" then ""
  else
    let text := Py.lower text in
    let text :=
      map_chars (fun c => if orb (Py.is_word c) (Py.is_space c) then c else " "%char)
                text in
    let text := collapse_ws text in
    Py.strip text.

(** The alternatives of the prefix pattern
    [^(video|foto|gallery|ultim'ora|live|diretta|esclusiva):\s*]. *)
Definition news_prefixes : list string :=
  ["video"; "foto"; "gallery"; "ultim'ora"; "live"; "diretta"; "esclusiva"].

(** [re.sub(prefix_pattern, '', text, flags=re.I)]: the pattern is anchored
    at the start, so at most one match is removed, together with the white
    space that follows the colon. *)
Definition strip_news_prefix (text : string) : string :=
  match List.find (fun p => Py.startswith (p ++ ":") (Py.lower text)) news_prefixes with
  | Some p => Py.lstrip_with Py.is_space (Py.drop (String.length p + 1) text)
  | None => text
  end.

(** Combined stop words for IT, EN, ES, FR. *)
Definition stop_words : gset string :=
  list_to_set
    [ "della"; "delle"; "dello"; "degli"; "nella"; "nelle"; "nello";
      "negli"; "come"; "cosa"; "dove"; "quando"; "perché"; "quale";
      "quali"; "sono"; "essere"; "stato"; "stata"; "stati"; "state";
      "hanno"; "avere"; "fatto"; "fare"; "dopo"; "prima"; "anche";
      "solo"; "tutto"; "tutti"; "tutte"; "ogni"; "altro"; "altra";
      "altri"; "altre"; "questo"; "questa"; "questi"; "queste";
      "quello"; "quella"; "quelli"; "quelle"; "aveva"; "avevano";
      "with"; "from"; "that"; "this"; "have"; "been"; "will"; "would";
      "could"; "should"; "there"; "their"; "which"; "about"; "other";
      "after"; "before"; "could"; "would"; "should";
      "está"; "este"; "esta"; "estos"; "estas"; "como"; "cuando";
      "donde"; "pero"; "todo"; "todos"; "sobre"; "entre"; "también";
      "dans"; "avec"; "pour"; "plus"; "cette"; "ceux"; "elles"; "entre";
      "tout"; "tous"; "faire"; "fait"; "mais"; "aussi" ].

(** [extract_keywords(text, min_length)]. *)
Definition extract_keywords (text : string) (min_length : Z) : gset string :=
  if String.eqb text "" then ∅
  else
    let text := strip_news_prefix text in
    let words := Py.split_ws (normalize_text text) in
    list_to_set
      (List.filter (fun w => andb (min_length <=? Py.len w)
                                  (negb (bool_decide (w ∈ stop_words)))) words).

(** [int / int] in Python: both operands converted to binary64, then the
    IEEE division (exact for the set sizes that occur here). *)
Definition float_of_nat (n : nat) : float :=
  PrimFloat.of_uint63 (Uint63.of_Z (Z.of_nat n)).

Definition true_div (a b : nat) : float :=
  PrimFloat.div (float_of_nat a) (float_of_nat b).

(** [min(1.0, x)]: the second argument only when it is smaller. *)
Definition min_one (x : float) : float :=
  if PrimFloat.ltb x 1%float then x else 1%float.

(** The keywords of [text] that occur in it as an upper-case token:
    [{w for w in keywords if any(c.isupper() for c in text.split()
                                 if normalize_text(c) == w)}]. *)
Definition is_entity (text : string) (w : string) : bool :=
  existsb (fun c => andb (String.eqb (normalize_text c) w) (Py.isupper c))
          (Py.split_ws text).

Definition entities (text : string) (keywords : gset string) : gset string :=
  filter (fun w => is_entity text w = true) keywords.

(** [calculate_similarity(text1, text2, use_weighted)]. *)
Definition calculate_similarity (text1 text2 : string) (use_weighted : bool) : float :=
  let keywords1 := extract_keywords text1 4 in
  let keywords2 := extract_keywords text2 4 in
  if orb (bool_decide (keywords1 = ∅)) (bool_decide (keywords2 = ∅)) then 0%float
  else
    let intersection := keywords1 ∩ keywords2 in
    let union := keywords1 ∪ keywords2 in
    if bool_decide (union = ∅) then 0%float
    else
      let base_jaccard := true_div (size intersection) (size union) in
      if negb use_weighted then base_jaccard
      else
        let entities1 := entities text1 keywords1 in
        let entities2 := entities text2 keywords2 in
        let shared_entities := entities1 ∩ entities2 in
        if negb (bool_decide (shared_entities = ∅))
        then
          let boost := true_div (size shared_entities) (size union) in
          min_one (PrimFloat.add base_jaccard boost)
        else base_jaccard.

(** ** [fetch_article_content]

    The article is a dict the function fills in place inside a [try]
    block; [content_text_length] is a key that exists only once the last
    assignment has run, hence an [option]. *)
Record Article : Type := mkArticle {
  title : string;
  subtitle : string;
  content : string;
  image : string;
  link : string;
  published_date : string;
  source_domain : string;
  author : string;
  content_text_length : option Z
}.

Definition placeholder_image : string :=
  "https://via.placeholder.com/300x200?text=No+Image".

(** The dict the function starts from. *)
Definition default_article (url : string) : Article :=
  mkArticle "" "" "" placeholder_image url "" (get_domain url) "" None.

(** What the parsed document answers to the queries the function makes.
    Each query is a library call that may raise; the texts are the values
    the calls return. *)
Record Soup : Type := mkSoup {
  title_elem : outcome (option string);
    (* the og:title meta content, else the first h1 text; None when the
       page has neither *)
  og_image : outcome (option string);
    (* the og:image meta content, None when absent or empty *)
  date_vals : outcome (list string);
    (* for the article:published_time meta and the time element, in this
       order, the content / datetime / text of those that exist *)
  og_description : outcome (option string);
  body_blocks : outcome (list string)
    (* extract_text_with_formatting of the p and div blocks of the content
       container that are not skipped as wrappers; empty without container *)
}.

(** What [requests.get(url, ...)] yields. *)
Record HttpResponse : Type := mkHttpResponse {
  status_code : Z;
  soup : outcome Soup      (* BeautifulSoup(response.content, 'html.parser') *)
}.

(** A computation inside the [try] block: it reads and updates the article
    dict and may raise; the updates made before a raise stay. *)
Definition Try (A : Type) : Type := Article -> Article * outcome A.

Definition ret {A : Type} (a : A) : Try A := fun art => (art, Ok a).

Definition bind {A B : Type} (m : Try A) (k : A -> Try B) : Try B :=
  fun art =>
    match m art with
    | (art', Ok a) => k a art'
    | (art', Raise e) => (art', Raise e)
    end.

Definition call {A : Type} (o : outcome A) : Try A := fun art => (art, o).

Definition update (f : Article -> Article) : Try unit := fun art => (f art, Ok tt).

Definition current : Try Article := fun art => (art, Ok art).

Notation "x <- m ;; k" := (bind m (fun x => k))
  (at level 100, m at next level, right associativity).
Notation "m ;;; k" := (bind m (fun _ => k))
  (at level 100, right associativity).

Definition set_title (v : string) (a : Article) : Article :=
  mkArticle v (subtitle a) (content a) (image a) (link a) (published_date a)
            (source_domain a) (author a) (content_text_length a).
Definition set_subtitle (v : string) (a : Article) : Article :=
  mkArticle (title a) v (content a) (image a) (link a) (published_date a)
            (source_domain a) (author a) (content_text_length a).
Definition set_content (v : string) (a : Article) : Article :=
  mkArticle (title a) (subtitle a) v (image a) (link a) (published_date a)
            (source_domain a) (author a) (content_text_length a).
Definition set_image (v : string) (a : Article) : Article :=
  mkArticle (title a) (subtitle a) (content a) v (link a) (published_date a)
            (source_domain a) (author a) (content_text_length a).
Definition set_published_date (v : string) (a : Article) : Article :=
  mkArticle (title a) (subtitle a) (content a) (image a) (link a) v
            (source_domain a) (author a) (content_text_length a).
Definition set_content_text_length (v : Z) (a : Article) : Article :=
  mkArticle (title a) (subtitle a) (content a) (image a) (link a) (published_date a)
            (source_domain a) (author a) (Some v).

(** The date loop: the first value of at least 10 characters wins. *)
Definition first_date (vals : list string) : option string :=
  match List.find (fun v => andb (negb (String.eqb v "")) (10 <=? Py.len v)) vals with
  | Some v => Some (Py.take 10 v)
  | None => None
  end.

(** The loop over the blocks of the content container: texts longer than 40
    characters are appended, and the loop stops once 15 parts are held. *)
Fixpoint collect_blocks (parts : list string) (blocks : list string) : list string :=
  match blocks with
  | [] => parts
  | text :: blocks' =>
      let parts' :=
        if andb (negb (String.eqb text "")) (40 <? Py.len text)
        then (parts ++ [text])%list else parts in
      if 15 <=? Z.of_nat (length parts') then parts'
      else collect_blocks parts' blocks'
  end.

(** [s.replace('"', '\\"')]. *)
Fixpoint escape_quotes (s : string) : string :=
  match s with
  | EmptyString => EmptyString
  | String c s' =>
      if Ascii.eqb c "034"%char
      then String "\"%char (String "034"%char (escape_quotes s'))
      else String c (escape_quotes s')
  end.

Section Fetch.

(** [format_content_as_html], a pure text formatter that no property below
    looks into. *)
Variable format_content_as_html : string -> string.

(** [requests.get]: the response, or the exception it raises. *)
Variable http_get : string -> outcome HttpResponse.

(** The statements of the [try] block after the status check. *)
Definition parse_into_article (resp : HttpResponse) : Try unit :=
  sp <- call (soup resp) ;;
  (* Title *)
  t <- call (title_elem sp) ;;
  match t with Some v => update (set_title v) | None => ret tt end ;;;
  a <- current ;;
  update (set_subtitle (title a)) ;;;
  (* Image *)
  img <- call (og_image sp) ;;
  match img with Some v => update (set_image v) | None => ret tt end ;;;
  (* Date *)
  dv <- call (date_vals sp) ;;
  match first_date dv with
  | Some v => update (set_published_date v)
  | None => ret tt
  end ;;;
  (* Content *)
  desc <- call (og_description sp) ;;
  blocks <- call (body_blocks sp) ;;
  let content_parts :=
    collect_blocks (match desc with Some v => [v] | None => [] end) blocks in
  let blank_line := String "010" (String "010" EmptyString) in
  let raw_content :=
    escape_quotes (Py.take (Z.to_nat 3000) (Py.join blank_line content_parts)) in
  update (set_content (format_content_as_html raw_content)) ;;;
  update (set_content_text_length (Py.len raw_content)).

(** [fetch_article_content(url)]. *)
Definition fetch_article_content (url : string) : Article :=
  let article := default_article url in
  match http_get url with
  | Raise _ => article
  | Ok response =>
      if negb (status_code response =? 200) then article
      else fst (parse_into_article response article)
  end.

End Fetch.

End NewsUtils.

(* ===================================================================== *)
(** * openrouter_client.py                                                *)
(* ===================================================================== *)

Module OpenRouter.

(** What [resp.read()] yields and how [json.loads] fares on it. *)
Inductive RawBody : Type :=
| EmptyBody                 (* b'' : data = {} *)
| Decoded (data : Json)     (* well-formed JSON text *)
| Malformed.                (* json.loads raises *)

(** What one [urllib.request.urlopen] call does. *)
Inductive Response : Type :=
| HttpSuccess (status : option Z) (raw : RawBody)
    (* the call returned a response object; [status] is
       [getattr(resp, "status", None)] *)
| HTTPError (code : Z) (err_payload : Json) (text : string)
    (* urllib.error.HTTPError; [err_payload] is [_try_read_json(e)],
       [text] is [str(e)] *)
| URLError (text : string)
    (* urllib.error.URLError that is not an HTTPError *)
| Uncaught (e : exn).
    (* any exception the two handlers do not catch *)

(** A backend: its answer to the request number [attempt]. *)
Definition Backend : Type := Z -> Response.

(** What the client does, in order. *)
Inductive Event : Type :=
| Request (attempt : Z)
| Sleep (attempt : Z).



(** [OpenRouterError(message, status=..., payload=...)]: the constructor
    stores [payload or {}]. *)
Definition mkOpenRouterError (message : Json) (status : option Z) (payload : Json) : exn :=
  OpenRouterError message status (if truthy payload then payload else JObj []).

(** [_error_message(payload, fallback=...)]. *)
Definition _error_message (payload : Json) (fallback : string) : Json :=
  match payload with
  | JObj m =>
      match members_get "error" m with
      | Some (JObj e) =>
          match members_get "message" e with
          | Some msg => if truthy msg then msg else JStr fallback
          | None => JStr fallback
          end
      | _ =>
          match members_get "message" m with
          | Some msg => if truthy msg then msg else JStr fallback
          | None => JStr fallback
          end
      end
  | _ => JStr fallback
  end.

(** The body of the [with urlopen(...) as resp] block. *)
Definition read_response (status : option Z) (raw : RawBody) : outcome Json :=
  match raw with
  | Malformed => Raise JSONDecodeError
  | EmptyBody => Ok (JObj [])
  | Decoded data =>
      match data with
      | JObj m =>
          match members_get "error" m with
          | Some err =>
              if truthy err
              then match err with
                   | JObj e =>
                       Raise (mkOpenRouterError
                                (match members_get "message" e with
                                 | Some msg => msg
                                 | None => JStr "OpenRouter error"
                                 end)
                                status data)
                   | _ => Raise AttributeError
                   end
              else Ok data
          | None => Ok data
          end
      | _ => Ok data
      end
  end.

Definition retryable_status (status : Z) : bool :=
  existsb (Z.eqb status) [429; 500; 502; 503; 504].

(** The [for attempt in range(self.max_retries + 1)] loop, from iteration
    [attempt] with [remaining] iterations to go.  Returns the events and
    the result. *)
Fixpoint attempts_from (backend : Backend) (max_retries : Z)
    (remaining : nat) (attempt : Z) (last_err : option exn)
  : list Event * outcome Json :=
  match remaining with
  | O =>
      ([], Raise (match last_err with
                  | Some e => e
                  | None => mkOpenRouterError (JStr "Unknown error") None JNull
                  end))
  | S remaining' =>
      match backend attempt with
      | HttpSuccess status raw => ([Request attempt], read_response status raw)
      | HTTPError code err_payload text =>
          let err := mkOpenRouterError (_error_message err_payload text)
                                       (Some code) err_payload in
          if andb (attempt <? max_retries) (retryable_status code)
          then
            let '(evs, r) := attempts_from backend max_retries remaining'
                                           (attempt + 1) (Some err) in
            (Request attempt :: Sleep attempt :: evs, r)
          else ([Request attempt], Raise err)
      | URLError text =>
          let err := mkOpenRouterError (JStr ("Network error: " ++ text)) None JNull in
          if attempt <? max_retries
          then
            let '(evs, r) := attempts_from backend max_retries remaining'
                                           (attempt + 1) (Some err) in
            (Request attempt :: Sleep attempt :: evs, r)
          else ([Request attempt], Raise err)
      | Uncaught e => ([Request attempt], Raise e)
      end
  end.

(** [OpenRouterClient._post_json(path, body)] against [backend]. *)
Definition _post_json (backend : Backend) (max_retries : Z)
  : list Event * outcome Json :=
  attempts_from backend max_retries (Z.to_nat (max_retries + 1)) 0 None.


(** ** [_url] and the constructor's [base_url.rstrip("/")] *)

(** [OpenRouterClient._url(path)] for a client built with [base_url]. *)
Definition _url (base_url path : string) : string :=
  Py.rstrip_char "/" base_url
  ++ (if Py.startswith "/" path then path else "/" ++ path).

(** ** [_post_sse]: the streaming variant *)


Section Stream.

(** [json.loads] on a frame: [None] stands for [JSONDecodeError]. *)
Variable json_loads : string -> option Json.

(** The [while True] loop that reads the stream: the objects it yields, in
    order, and how it ends ([Ok tt] for [return], an exception for
    [raise]).  [data_lines] is the pending frame. *)
Fixpoint read_stream (status : option Z) (lines : list string) (data_lines : list string)
  : list Json * outcome unit :=
  match lines with
  | [] => ([], Ok tt)
  | bline :: rest =>
      if String.eqb bline "" then ([], Ok tt)
      else
        let line := Py.rstrip_char (ascii_of_nat 10) bline in
        if String.eqb line ""
        then
          match data_lines with
          | [] => read_stream status rest []
          | _ =>
              let chunk := Py.strip (Py.join (String (ascii_of_nat 10) EmptyString) data_lines) in
              if String.eqb chunk "[DONE]" then ([], Ok tt)
              else
                match json_loads chunk with
                | None => read_stream status rest []
                | Some obj =>
                    let err :=
                      match obj with
                      | JObj m => match members_get "error" m with
                                  | Some e => if truthy e then Some e else None
                                  | None => None
                                  end
                      | _ => None
                      end in
                    match err with
                    | Some (JObj e) =>
                        ([], Raise (mkOpenRouterError
                                      (match members_get "message" e with
                                       | Some msg => msg
                                       | None => JStr "OpenRouter stream error"
                                       end)
                                      status obj))
                    | Some _ => ([], Raise AttributeError)
                    | None =>
                        let '(objs, r) := read_stream status rest [] in
                        (obj :: objs, r)
                    end
                end
          end
        else if Py.startswith "data:" line
        then read_stream status rest (data_lines ++ [Py.strip (Py.drop 5 line)])%list
        else read_stream status rest data_lines
  end.



End Stream.

End OpenRouter.

(* ===================================================================== *)
(** * news_search.py: clustering and citation filtering                   *)
(* ===================================================================== *)

Module NewsSearch.

Import NewsUtils.

(** A news item, the dict [{title, link, snippet, source_domain}]; a
    missing key reads as the empty string, as [item.get(key, '')] does. *)
Record NewsItem : Type := mkNewsItem {
  item_title : string;
  item_link : string;
  item_snippet : string;
  item_source_domain : string
}.

(** Patterns that indicate non-news content. *)
Definition skip_patterns : list string :=
  [ "password"; "login"; "registra"; "accedi"; "iscriviti";
    "cookie"; "privacy"; "termini"; "condizioni";
    "contatti"; "about"; "chi siamo"; "redazione";
    "pubblicità"; "advertising"; "newsletter";
    "archivio"; "categori";
    "cerca"; "search"; "risultati ricerca";
    "home page"; "homepage"; "menu";
    "seguici"; "social"; "facebook"; "twitter"; "instagram";
    "copyright"; "tutti i diritti"; "all rights";
    "scopri di più"; "leggi tutto"; "read more"; "continua a leggere";
    "vedi tutti"; "mostra tutto"; "visualizza";
    "comunicati"; "press release";
    "offerta"; "promo"; "sconto"; "gratis"; "abbonamento"; "abbonati";
    "prova gratuita"; "trial"; "decoder"; "smart tv"; "sky glass"; "sky stream";
    "lotto"; "superenalotto"; "estrazion"; "jackpot";
    "oroscopo"; "meteo"; "previsioni tempo";
    "ricetta"; "ricette" ].

(** [is_valid_news_title(title)]. *)
Definition is_valid_news_title (title : string) : bool :=
  if String.eqb title "" then false
  else
    let title_lower := Py.lower title in
    if Py.any_contains skip_patterns title_lower then false
    else
      let words := List.filter (fun w => 2 <? Py.len w) (Py.split_ws title) in
      if Z.of_nat (length words) <? 3 then false else true.

(** [enumerate(l)] from index [i]. *)
Fixpoint enumerate_from {A : Type} (i : nat) (l : list A) : list (nat * A) :=
  match l with
  | [] => []
  | x :: l' => (i, x) :: enumerate_from (S i) l'
  end.

Definition enumerate {A : Type} (l : list A) : list (nat * A) := enumerate_from 0 l.

(** The text two items are compared on. *)
Definition item_text (item : NewsItem) : string :=
  item_title item ++ " " ++ item_snippet item.

(** One iteration of the inner loop [for j, other in enumerate(valid_items)]:
    the state is the cluster under construction and the set [used]. *)
Definition absorb_step (similarity_threshold : float) (item : NewsItem)
    (st : list NewsItem * gset nat) (jo : nat * NewsItem)
  : list NewsItem * gset nat :=
  let '(cluster, used) := st in
  let '(j, other) := jo in
  if bool_decide (j ∈ used) then st
  else
    let similarity := calculate_similarity (item_text item) (item_text other) true in
    if PrimFloat.leb similarity_threshold similarity
    then ((cluster ++ [other])%list, used ∪ {[ j ]})
    else st.

(** One iteration of the outer loop [for i, item in enumerate(valid_items)]:
    the state is the list of clusters and the set [used]. *)
Definition seed_step (similarity_threshold : float) (valid_items : list NewsItem)
    (st : list (list NewsItem) * gset nat) (ii : nat * NewsItem)
  : list (list NewsItem) * gset nat :=
  let '(clusters, used) := st in
  let '(i, item) := ii in
  if bool_decide (i ∈ used) then st
  else
    let '(cluster, used') :=
      fold_left (absorb_step similarity_threshold item) (enumerate valid_items)
                ([item], used ∪ {[ i ]}) in
    ((clusters ++ [cluster])%list, used').

(** [clusters.sort(key=len, reverse=True)]: a stable sort, larger clusters
    first, clusters of equal size in their order of creation. *)
Fixpoint insert_by_len {A : Type} (c : list A) (l : list (list A)) : list (list A) :=
  match l with
  | [] => [c]
  | d :: l' =>
      if Nat.ltb (length c) (length d) then d :: insert_by_len c l'
      else c :: d :: l'
  end.

Definition sort_by_len_desc {A : Type} (l : list (list A)) : list (list A) :=
  fold_right insert_by_len [] l.

(** [cluster_news_by_similarity(news_items, similarity_threshold=...)]; the
    parameters [iab_code] and [iab_keywords] are not read by the body. *)
Definition cluster_news_by_similarity (news_items : list NewsItem)
    (similarity_threshold : float) : list (list NewsItem) :=
  match news_items with
  | [] => []
  | _ =>
      let valid_items := List.filter (fun item => is_valid_news_title (item_title item)) news_items in
      match valid_items with
      | [] => []
      | _ =>
          let '(clusters, _) :=
            fold_left (seed_step similarity_threshold valid_items)
                      (enumerate valid_items) ([], ∅) in
          sort_by_len_desc clusters
      end
  end.

(** ** [filter_citations] *)

Definition video_patterns : list string :=
  [ "/video/"; "/video-"; "-video"; "video.";
    "youtube.com"; "youtu.be"; "vimeo.com";
    "dailymotion.com"; "/watch/"; "/embed/" ].

Definition live_patterns : list string :=
  [ "/diretta/"; "-diretta"; "diretta-"; "/live/";
    "-live"; "live-"; "/tempo-reale/"; "real-time";
    "/liveblog/"; "live-blog"; "/minuto-per-minuto/" ].

Definition all_patterns : list string := (video_patterns ++ live_patterns)%list.

(** [any(pattern in url_lower for pattern in all_patterns)]. *)
Definition is_video_or_live (url : string) : bool :=
  Py.any_contains all_patterns (Py.lower url).

(** The test one blocked domain is put to: equal to the domain, a parent
    of it, or contained in it. *)
Definition blocked_matches (domain blocked : string) : bool :=
  let blocked_lower := Py.lower blocked in
  orb (String.eqb domain blocked_lower)
      (orb (Py.endswith ("." ++ blocked_lower) domain)
           (Py.contains blocked_lower domain)).

(** The loop over [blocked_domains]: the first configured entry that
    matches, [None] when [is_blocked_domain] stays false. *)
Definition matched_blocked (url : string) (blocked_domains : list string) : option string :=
  let domain := Py.lower (get_domain url) in
  List.find (blocked_matches domain) blocked_domains.

(** One iteration of [for url in citations]. *)
Definition filter_step (blocked_domains : list string)
    (st : list string * list (string * string)) (url : string)
  : list string * list (string * string) :=
  let '(filtered, removed) := st in
  let video_or_live := is_video_or_live url in
  match video_or_live, matched_blocked url blocked_domains with
  | true, _ => (filtered, (removed ++ [(url, "video/live")])%list)
  | false, Some blocked =>
      (filtered, (removed ++ [(url, ("blocked domain (" ++ blocked ++ ")")%string)])%list)
  | false, None => ((filtered ++ [url])%list, removed)
  end.

(** [filter_citations(citations, blocked_domains)]: the pair
    [(filtered, removed)]. *)
Definition filter_citations (citations : list string) (blocked_domains : list string)
  : list string * list (string * string) :=
  fold_left (filter_step blocked_domains) citations ([], []).

(** ** Deduplication of the citations in [generate_feed]
    ([seen = set(); citations = []; for citation in all_citations: ...]). *)
Definition dedupe_step (st : gset string * list string) (citation : string)
  : gset string * list string :=
  let '(seen, citations) := st in
  if bool_decide (citation ∈ seen) then st
  else (seen ∪ {[ citation ]}, (citations ++ [citation])%list).

Definition dedupe_citations (all_citations : list string) : list string :=
  snd (fold_left dedupe_step all_citations (∅, [])).

(** ** Configuration files and their loaders *)

(** One category of the taxonomy file; a missing [iab_code] reads as the
    empty string. *)
Record Category : Type := mkCategory {
  iab_code : string;
  iab_description : string;
  iab_keywords : list string;
  freshness : bool;
  top_sources_only : bool
}.

(** One entry of the ["clusters"] array of the taxonomy file. *)
Record ClusterEntry : Type := mkClusterEntry {
  entry_cluster_id : option Z;
  entry_cluster_name : string;
  entry_cluster_description : string;
  entry_categories : list Category
}.

(** The value [load_iab_taxonomy] stores under a cluster id. *)
Record ClusterInfo : Type := mkClusterInfo {
  cluster_name : string;
  cluster_description : string;
  categories : list Category
}.

(** The five dicts [load_iab_taxonomy] returns. *)
Record Taxonomy : Type := mkTaxonomy {
  clusters : gmap Z ClusterInfo;
  keywords : gmap string (list string);
  freshness_filter : gmap string bool;
  top_sources_only_filter : gmap string bool;
  iab_to_cluster : gmap string Z
}.

Definition empty_taxonomy : Taxonomy := mkTaxonomy ∅ ∅ ∅ ∅ ∅.

Definition load_category (cluster_id : Z) (t : Taxonomy) (category : Category) : Taxonomy :=
  let code := iab_code category in
  if String.eqb code "" then t
  else
    mkTaxonomy (clusters t)
               (<[code := iab_keywords category]> (keywords t))
               (<[code := freshness category]> (freshness_filter t))
               (<[code := top_sources_only category]> (top_sources_only_filter t))
               (<[code := cluster_id]> (iab_to_cluster t)).

Definition load_cluster (t : Taxonomy) (cluster : ClusterEntry) : Taxonomy :=
  match entry_cluster_id cluster with
  | None => t
  | Some cluster_id =>
      let info := mkClusterInfo (entry_cluster_name cluster)
                                (entry_cluster_description cluster)
                                (entry_categories cluster) in
      let t := mkTaxonomy (<[cluster_id := info]> (clusters t)) (keywords t)
                          (freshness_filter t) (top_sources_only_filter t)
                          (iab_to_cluster t) in
      fold_left (load_category cluster_id) (entry_categories cluster) t
  end.

(** The top-sources file: the sites per category and the blocked domains. *)
Record TopSourcesFile : Type := mkTopSourcesFile {
  file_categories : list (string * list string);
  file_blocked_domains : list string
}.

Definition load_sites (sources : gmap string (list string)) (category : string * list string)
  : gmap string (list string) :=
  let '(code, sites) := category in
  if andb (negb (String.eqb code "")) (negb (Nat.eqb (length sites) 0))
  then <[code := sites]> sources else sources.

(** The dict the summary service answers with. *)
Definition SummaryResponse : Type := list (string * Json).

(** Everything outside the process: the clock, the two configuration
    files, and the network collaborators. *)
Record World : Type := mkWorld {
  today : Date.date;
    (* date.today() and datetime.now() *)
  taxonomy_file : string -> option (list ClusterEntry);
    (* the decoded iab_taxonomy_<locale>.json; None when the file is
       missing or is not JSON *)
  top_sources_file : string -> option TopSourcesFile;
    (* the decoded top_sources_<locale>.json, likewise *)
  search_api : string -> string -> string -> Z -> outcome string;
    (* the chat completion search_news requests for a locale, category
       code, description and result count: the content of the first
       choice, or the exception of the client or of the indexing *)
  extract_news_from_page : string -> option string -> bool -> bool -> list NewsItem;
    (* extract_news_from_page(url, base_domain, must_be_fresh, is_citation) *)
  set_order : list string -> list string;
    (* list(set(l)): the distinct elements in the order the set yields *)
  http_get : string -> outcome HttpResponse;
  format_content_as_html : string -> string;
  call_feed_summary_api : list Article -> Z -> string -> option SummaryResponse
    (* None when the call fails or the status is not 200 *)
}.

(** [load_iab_taxonomy(locale)]. *)
Definition load_iab_taxonomy (w : World) (locale : string) : Taxonomy :=
  match taxonomy_file w (Py.lower locale) with
  | Some data => fold_left load_cluster data empty_taxonomy
  | None => empty_taxonomy
  end.

(** [load_top_sources(locale)]: the pair [(sources, blocked_domains)]. *)
Definition load_top_sources (w : World) (locale : string)
  : gmap string (list string) * list string :=
  match top_sources_file w (Py.lower locale) with
  | Some data => (fold_left load_sites (file_categories data) ∅, file_blocked_domains data)
  | None => (∅, [])
  end.

(** ** Search *)

(** [extract_citations_from_home_pages(preferred_sites, iab_code)] with
    [max_per_site = 5]. *)
Definition extract_citations_from_home_pages (w : World) (preferred_sites : list string)
  : list string :=
  flat_map
    (fun site =>
       let home_url := if Py.startswith "http" site then site else "https://" ++ site in
       let news_items := extract_news_from_page w home_url (Some site) false false in
       map item_link (firstn 5 news_items))
    (firstn 8 preferred_sites).

(** [search_news(iab_code, iab_description, max_results, geo, locale)]: the
    ["citations"] entry of its result.  The response of the client is a
    dict, so [getattr(response, 'citations', [])] is the empty list. *)
Definition search_news (w : World) (code description : string) (max_results : Z)
    (locale : string) : outcome (list string) :=
  let '(top_sources, blocked_domains) := load_top_sources w locale in
  let preferred_sites := default [] (top_sources !! code) in
  match search_api w locale code description max_results with
  | Raise e => Raise e
  | Ok _ =>
      let raw_citations : list string := [] in
      let home_citations := extract_citations_from_home_pages w preferred_sites in
      let all_raw_citations := set_order w (raw_citations ++ home_citations)%list in
      let '(citations, _) := filter_citations all_raw_citations blocked_domains in
      Ok citations
  end.

(** ** Source selection *)

(** [select_best_source(cluster, iab_code, top_sources)]: [None] for an
    empty cluster. *)
Definition select_best_source (cluster : list NewsItem) (code : string)
    (top_sources : gmap string (list string)) : option NewsItem :=
  match cluster with
  | [] => None
  | first_item :: _ =>
      let preferred_domains := default [] (top_sources !! code) in
      match List.find
              (fun item =>
                 existsb (fun preferred =>
                            orb (Py.contains preferred (item_source_domain item))
                                (Py.contains (item_source_domain item) preferred))
                         preferred_domains)
              cluster with
      | Some item => Some item
      | None => Some first_item
      end
  end.

(** ** The pipeline *)

Definition GEO : string := "IT".
Definition LOCALE : string := "IT".

(** [value or default] for an optional string argument. *)
Definition or_else (value : option string) (default_value : string) : string :=
  match value with
  | Some v => if String.eqb v "" then default_value else v
  | None => default_value
  end.

(** The final output unit; the fields copied from the summary response
    keep its JSON values. *)
Record FeedItem : Type := mkFeedItem {
  feed_title : Json;
  feed_subtitle : Json;
  feed_content : Json;
  feed_image : string;
  feed_published_date : string;
  feed_author : string;
  feed_cluster_size : Z;
  feed_source_domain : list string;
  feed_link : list string;
  feed_iab_code : Json;
  feed_products : Json;
  feed_brands : Json
}.

(** What a [return] statement of [generate_feed] hands back: the bare
    empty list of the early exits, or the pair of the last line. *)
Inductive PyReturn : Type :=
| ReturnEmptyList
| ReturnPair (final_feed : list FeedItem) (clusters : list (list NewsItem)).

(** The home-page URL built for an allowed site. *)
Definition home_url_of (site : string) : string :=
  let clean_site := Py.strip (Py.lower site) in
  if negb (Py.startswith "http" clean_site)
  then (if negb (Py.startswith "www." clean_site)
        then "https://www." ++ clean_site else "https://" ++ clean_site)
  else clean_site.

(** [any(site.lower() in domain or domain in site.lower() for site in allowed_sites)]. *)
Definition is_top_source (allowed_sites : list string) (url : string) : bool :=
  let domain := Py.lower (get_domain url) in
  existsb (fun site => orb (Py.contains (Py.lower site) domain)
                           (Py.contains domain (Py.lower site)))
          allowed_sites.

(** Step 1, the loop [for category in categories]; a search that raises
    ends the run with that exception. *)
Fixpoint search_categories (w : World) (locale : string) (max_results : Z)
    (n_categories : Z) (must_be_fresh : bool) (tax : Taxonomy)
    (top_sources : gmap string (list string))
    (cats : list Category) (all_citations : list string) : outcome (list string) :=
  match cats with
  | [] => Ok all_citations
  | category :: cats' =>
      let code := iab_code category in
      let description := iab_description category in
      let only_top := default false (top_sources_only_filter tax !! code) in
      match search_news w code description (max_results / n_categories + 1) locale with
      | Raise e => Raise e
      | Ok category_citations =>
          match (if must_be_fresh then Ok []
                 else search_news w code (description ++ " news last 3 days") 3 locale) with
          | Raise e => Raise e
          | Ok hist_citations =>
              let category_citations := (category_citations ++ hist_citations)%list in
              let category_citations :=
                if only_top
                then
                  let allowed_sites := default [] (top_sources !! code) in
                  let home_urls := map home_url_of allowed_sites in
                  List.filter (is_top_source allowed_sites) (home_urls ++ category_citations)%list
                else category_citations in
              search_categories w locale max_results n_categories must_be_fresh tax
                                top_sources cats' (all_citations ++ category_citations)%list
          end
      end
  end.

(** Step 2, one iteration of [for i, url in enumerate(citations[:10])]. *)
Definition extract_from_citation (w : World) (must_be_fresh : bool) (url : string)
  : list NewsItem :=
  let news_items := extract_news_from_page w url None must_be_fresh true in
  if Z.of_nat (length news_items) <? 10
  then
    match get_parent_url url with
    | Some parent_url =>
        if andb (negb (String.eqb parent_url "")) (negb (String.eqb parent_url url))
        then
          let parent_items := extract_news_from_page w parent_url None must_be_fresh false in
          let existing_links : gset string := list_to_set (map item_link news_items) in
          let new_items :=
            List.filter (fun item => negb (bool_decide (item_link item ∈ existing_links)))
                        parent_items in
          (news_items ++ new_items)%list
        else news_items
    | None => news_items
    end
  else news_items.

(** Deduplication of the extracted items by link. *)
Definition dedupe_news_step (st : gset string * list NewsItem) (item : NewsItem)
  : gset string * list NewsItem :=
  let '(seen_urls, all_news) := st in
  let url := item_link item in
  if andb (negb (String.eqb url "")) (negb (bool_decide (url ∈ seen_urls)))
  then (seen_urls ∪ {[ url ]}, (all_news ++ [item])%list)
  else st.

(** ** Step 4: selection and validation *)

(** [discard_stats] and [discarded_samples]. *)
Definition DiscardLog : Type := (gmap string Z * list (string * string * string))%type.

Definition empty_log : DiscardLog :=
  (<["length" := 0]> (<["no_date" := 0]> (<["old_date" := 0]> ∅)), []).

Definition track_discard (log : DiscardLog) (title_ domain reason : string) : DiscardLog :=
  let '(discard_stats, discarded_samples) := log in
  (<[reason := default 0 (discard_stats !! reason) + 1]> discard_stats,
   if Z.of_nat (length discarded_samples) <? 3
   then (discarded_samples ++ [(title_, domain, reason)])%list
   else discarded_samples).

(** The state of the loop over the members of one cluster. *)
Record Validation : Type := mkValidation {
  validated_articles : list Article;
  first_valid_image : option string;
  discard_log : DiscardLog
}.

(** [article.get('content_text_length', len(article.get('content', '')))]. *)
Definition content_length (article : Article) : Z :=
  match content_text_length article with
  | Some n => n
  | None => Py.len (content article)
  end.

(** One iteration of [for item in sorted_cluster] (pass 1) and of
    [for candidate in enriched_cluster] (pass 2), which have the same body
    up to the length threshold.  Once five articles are validated the loop
    breaks, so the remaining iterations do nothing. *)
Definition validate_step (w : World) (must_be_fresh : bool) (min_len : Z)
    (st : Validation) (item : NewsItem) : Validation :=
  if 5 <=? Z.of_nat (length (validated_articles st)) then st
  else
    let article :=
      fetch_article_content (format_content_as_html w) (http_get w) (item_link item) in
    let article :=
      if String.eqb (title article) "" then set_title (item_title item) article
      else article in
    let article :=
      if String.eqb (content article) "" then set_content (item_snippet item) article
      else article in
    if content_length article <? min_len
    then mkValidation (validated_articles st) (first_valid_image st)
           (track_discard (discard_log st) (title article) (source_domain article) "length")
    else
      let pub_date := published_date article in
      if String.eqb pub_date ""
      then mkValidation (validated_articles st) (first_valid_image st)
             (track_discard (discard_log st) (title article) (source_domain article) "no_date")
      else
        let max_days := if must_be_fresh then 0 else 10 in
        let '(date_is_recent, _) := is_date_recent (today w) pub_date max_days in
        if negb date_is_recent
        then mkValidation (validated_articles st) (first_valid_image st)
               (track_discard (discard_log st) (title article) (source_domain article) "old_date")
        else
          let img :=
            match first_valid_image st with
            | Some i => Some i
            | None =>
                if andb (negb (String.eqb (image article) ""))
                        (negb (Py.contains "placeholder" (Py.lower (image article))))
                then Some (image article) else None
            end in
          mkValidation (validated_articles st ++ [article])%list img (discard_log st).

Definition json_get (key : string) (default_value : Json) (d : SummaryResponse) : Json :=
  match members_get key d with Some v => v | None => default_value end.

(** The [if validated_articles: ...] block that ends an iteration of
    either pass. *)
Definition summarize (w : World) (cluster_id : Z) (locale : string)
    (v : Validation) (final_feed : list FeedItem) : list FeedItem :=
  match validated_articles v with
  | [] => final_feed
  | arts =>
      match call_feed_summary_api w arts cluster_id locale with
      | Some summary_response =>
          match summary_response with
          | [] => final_feed
          | _ =>
              (final_feed ++
               [mkFeedItem (json_get "title" (JStr "") summary_response)
                           (json_get "subtitle" (JStr "") summary_response)
                           (json_get "summary" (JStr "") summary_response)
                           (match first_valid_image v with
                            | Some i => i
                            | None => placeholder_image
                            end)
                           (Date.isoformat (today w))
                           ""
                           (Z.of_nat (length arts))
                           (map source_domain arts)
                           (map link arts)
                           (json_get "keywords" (JArr []) summary_response)
                           (json_get "products" (JArr []) summary_response)
                           (json_get "brands" (JArr []) summary_response)])%list
          end
      | None => final_feed
      end
  end.

(** [get_priority(item)] is 0 for an item of a preferred domain. *)
Definition is_preferred (preferred_domains : list string) (item : NewsItem) : bool :=
  let domain := item_source_domain item in
  existsb (fun pref => orb (Py.contains pref domain) (Py.contains domain pref))
          preferred_domains.

(** [sorted(cluster, key=get_priority)]: stable, priority 0 first. *)
Definition sort_by_priority (preferred_domains : list string) (cluster : list NewsItem)
  : list NewsItem :=
  (List.filter (is_preferred preferred_domains) cluster
   ++ List.filter (fun item => negb (is_preferred preferred_domains item)) cluster)%list.

(** One iteration of pass 1; the loop breaks once [max_results] items are
    in the feed. *)
Definition pass1_step (w : World) (cluster_id max_results : Z) (locale : string)
    (must_be_fresh : bool) (min_len_multi : Z) (preferred_domains : list string)
    (st : list FeedItem * DiscardLog) (cluster : list NewsItem)
  : list FeedItem * DiscardLog :=
  let '(final_feed, log) := st in
  if max_results <=? Z.of_nat (length final_feed) then st
  else
    let sorted_cluster := sort_by_priority preferred_domains cluster in
    let v := fold_left (validate_step w must_be_fresh min_len_multi) sorted_cluster
                       (mkValidation [] None log) in
    (summarize w cluster_id locale v final_feed, discard_log v).

(** The literal [0.15] as the binary64 value Python reads it as. *)
Definition fuzzy_threshold : float := 0x1.3333333333333p-3%float.

(** The fuzzy enrichment of a single-article cluster. *)
Definition enrich (single_article_clusters : list (list NewsItem)) (item : NewsItem)
  : list NewsItem :=
  let ref_text := item_text item in
  (item ::
   flat_map
     (fun other_cluster =>
        match other_cluster with
        | other_item :: _ =>
            if String.eqb (item_link other_item) (item_link item) then []
            else if PrimFloat.leb fuzzy_threshold
                      (calculate_similarity ref_text (item_text other_item) true)
            then [other_item] else []
        | [] => []
        end)
     single_article_clusters)%list.

(** One iteration of pass 2. *)
Definition pass2_step (w : World) (cluster_id max_results : Z) (locale : string)
    (must_be_fresh : bool) (min_len_multi min_len_single : Z)
    (single_article_clusters : list (list NewsItem))
    (st : list FeedItem * DiscardLog) (cluster : list NewsItem)
  : list FeedItem * DiscardLog :=
  let '(final_feed, log) := st in
  if max_results <=? Z.of_nat (length final_feed) then st
  else
    match cluster with
    | [] => st
    | item :: _ =>
        let enriched_cluster := enrich single_article_clusters item in
        let current_min_len :=
          if 1 <? Z.of_nat (length enriched_cluster) then min_len_multi else min_len_single in
        let v := fold_left (validate_step w must_be_fresh current_min_len) enriched_cluster
                           (mkValidation [] None log) in
        (summarize w cluster_id locale v final_feed, discard_log v)
    end.

(** [generate_feed(cluster_id, max_results, geo, locale, upto_step,
    min_len_multi, min_len_single)]. *)
Definition generate_feed (w : World) (cluster_id max_results : Z)
    (geo locale : option string) (upto_step : option Z)
    (min_len_multi min_len_single : Z) : outcome PyReturn :=
  let locale := or_else locale LOCALE in
  let tax := load_iab_taxonomy w locale in
  let '(top_sources, blocked_domains) := load_top_sources w locale in
  match clusters tax !! cluster_id with
  | None => Ok ReturnEmptyList
  | Some cluster_info =>
      let cats := categories cluster_info in
      let must_be_fresh :=
        existsb (fun cat => default false (freshness_filter tax !! iab_code cat)) cats in
      (* Step 1 *)
      match search_categories w locale max_results (Z.of_nat (length cats)) must_be_fresh
                              tax top_sources cats [] with
      | Raise e => Raise e
      | Ok all_citations =>
          let citations := dedupe_citations all_citations in
          if bool_decide (upto_step = Some 1) then Ok ReturnEmptyList
          else
            match citations with
            | [] => Ok ReturnEmptyList
            | _ =>
                (* Step 2 *)
                let all_news_raw :=
                  flat_map (extract_from_citation w must_be_fresh) (firstn 10 citations) in
                let all_news := snd (fold_left dedupe_news_step all_news_raw (∅, [])) in
                if bool_decide (upto_step = Some 2) then Ok ReturnEmptyList
                else
                  match all_news with
                  | [] => Ok ReturnEmptyList
                  | _ =>
                      (* Step 3 *)
                      let news_clusters := cluster_news_by_similarity all_news 0.25%float in
                      if bool_decide (upto_step = Some 3) then Ok ReturnEmptyList
                      else
                        (* Step 4 *)
                        let multi_article_clusters :=
                          List.filter (fun c => 2 <=? Z.of_nat (length c)) news_clusters in
                        let single_article_clusters :=
                          List.filter (fun c => Z.of_nat (length c) =? 1) news_clusters in
                        let preferred_domains :=
                          match cats with
                          | c0 :: _ => default [] (top_sources !! iab_code c0)
                          | [] => []
                          end in
                        let st1 :=
                          fold_left (pass1_step w cluster_id max_results locale must_be_fresh
                                                min_len_multi preferred_domains)
                                    multi_article_clusters ([], empty_log) in
                        let st2 :=
                          if andb (Z.of_nat (length (fst st1)) <? max_results)
                                  (negb (Nat.eqb (length single_article_clusters) 0))
                          then
                            fold_left (pass2_step w cluster_id max_results locale must_be_fresh
                                                  min_len_multi min_len_single
                                                  single_article_clusters)
                                      single_article_clusters st1
                          else st1 in
                        Ok (ReturnPair (fst st2) news_clusters)
                  end
            end
      end
  end.

End NewsSearch.

(* ===================================================================== *)
(** * news_search_lambda.py                                               *)
(* ===================================================================== *)

Module NewsSearchLambda.

Import NewsSearch.

(** [feed, _ = generate_feed(...)]: unpacking a pair succeeds, unpacking
    the empty list raises [ValueError]. *)
Definition unpack_pair (r : PyReturn) : outcome (list FeedItem * list (list NewsItem)) :=
  match r with
  | ReturnPair feed news_clusters => Ok (feed, news_clusters)
  | ReturnEmptyList => Raise (ValueError "not enough values to unpack (expected 2, got 0)")
  end.

(** [process_cluster(cluster_id, max_results, geo, locale, s3_destination)]
    up to the upload, which is guarded and leaves the result as it is. *)
Definition process_cluster (w : World) (cluster_id max_results : Z) (geo locale : string)
  : outcome (list FeedItem) :=
  match generate_feed w cluster_id max_results (Some geo) (Some locale) None 1000 1000 with
  | Raise e => Raise e
  | Ok r =>
      match unpack_pair r with
      | Raise e => Raise e
      | Ok (feed, _) => Ok feed
      end
  end.

End NewsSearchLambda.


(* ===================================================================== *)
(** * scheduler_lambda.py                                                 *)
(* ===================================================================== *)

Module SchedulerLambda.

(** The payload [_parse_event] hands to the handler, read with the
    defaults of the four [payload.get] calls, for payloads whose
    ["clusters"] is a list and whose ["locales"] is a list of strings. *)
Record Payload : Type := mkPayload {
  payload_clusters : list Json;      (* payload.get("clusters", []) *)
  payload_locales : list string;     (* payload.get("locales", []) *)
  payload_max_results : Json;        (* payload.get("max_results", 10) *)
  payload_model : Json               (* payload.get("model", None) *)
}.

(** The body of one asynchronous invocation; [body_model] is present only
    for a truthy model. *)
Record Body : Type := mkBody {
  body_cluster_id : Json;
  body_geo : string;
  body_locale : string;
  body_max_results : Json;
  body_model : option Json
}.

(** The dict the handler returns; [body] is the value given to
    [json.dumps]. *)
Record Response : Type := mkResponse {
  statusCode : Z;
  body : Json
}.

Definition supported_locales : list string := ["it"; "en"; "es"; "fr"].

(** The first locale the check loop rejects. *)
Definition first_bad_locale (locales : list string) : option string :=
  List.find (fun locale => negb (existsb (String.eqb (Py.lower locale)) supported_locales))
            locales.

(** The bodies of the two nested loops, in the order of the calls. *)
Definition bodies (p : Payload) : list Body :=
  flat_map
    (fun cluster_id =>
       map (fun locale =>
              mkBody cluster_id locale locale (payload_max_results p)
                     (if truthy (payload_model p) then Some (payload_model p) else None))
           (payload_locales p))
    (payload_clusters p).

(** The calls of [lambda_client.invoke], which may raise: the bodies it
    was called with, and whether all calls returned. *)
Fixpoint invoke_all (invoke : Body -> outcome unit) (l : list Body)
  : list Body * outcome unit :=
  match l with
  | [] => ([], Ok tt)
  | b :: l' =>
      match invoke b with
      | Raise e => ([b], Raise e)
      | Ok _ => let '(sent, r) := invoke_all invoke l' in (b :: sent, r)
      end
  end.

(** [handler(event, context)] after [_parse_event]: the invocations made
    and the response, or the exception of an invocation. *)
Definition handler (invoke : Body -> outcome unit) (p : Payload)
  : list Body * outcome Response :=
  match payload_clusters p, payload_locales p with
  | [], _ | _, [] =>
      ([], Ok (mkResponse 400 (JObj [("error", JStr "clusters and locales are required")])))
  | _, _ =>
      match first_bad_locale (payload_locales p) with
      | Some locale =>
          ([], Ok (mkResponse 400
                     (JObj [("error",
                             JStr ("locales must be it,en,es,fr - received: " ++ locale))])))
      | None =>
          match invoke_all invoke (bodies p) with
          | (sent, Raise e) => (sent, Raise e)
          | (sent, Ok _) =>
              (sent,
               Ok (mkResponse 202
                     (JObj [("invoked",
                             JNum (Z.of_nat (length (payload_clusters p))
                                   * Z.of_nat (length (payload_locales p))))])))
          end
      end
  end.

End SchedulerLambda.

(* ===================================================================== *)
(** * news_correlator.py                                                  *)
(* ===================================================================== *)

Module NewsCorrelator.

Import NewsUtils NewsSearch.

(** The dict [get_summary_cached] builds and caches. *)
Record Summary : Type := mkSummary {
  summary_id : string;
  summary_title : Json;
  summary_subtitle : Json;
  summary_content : Json;
  summary_image : string;
  summary_published_date : string;
  summary_source_domain : string;
  summary_link : string
}.

Section Cache.

(** [hashlib.md5(url.encode()).hexdigest()]. *)
Variable md5_hexdigest : string -> string.

(** [get_summary_cached(article, cluster_id, locale)] for an article whose
    [link] is [url]: the module-level dict [summary_cache] is threaded
    through, and [None] is Python's [None]. *)
Definition get_summary_cached (w : World) (summary_cache : gmap string Summary)
    (url : string) (cluster_id : Z) (locale : string)
  : gmap string Summary * option Summary :=
  match summary_cache !! url with
  | Some cached => (summary_cache, Some cached)
  | None =>
      let full_article :=
        fetch_article_content (format_content_as_html w) (http_get w) url in
      if String.eqb (content full_article) "" then (summary_cache, None)
      else
        match call_feed_summary_api w [full_article] cluster_id locale with
        | Some summary_response =>
            match summary_response with
            | [] => (summary_cache, None)
            | _ =>
                let result :=
                  mkSummary (md5_hexdigest url)
                            (json_get "title" (JStr (title full_article)) summary_response)
                            (json_get "subtitle" (JStr "") summary_response)
                            (json_get "summary" (JStr (content full_article))
                                      summary_response)
                            (image full_article)
                            (published_date full_article)
                            (source_domain full_article)
                            url in
                (<[url := result]> summary_cache, Some result)
            end
        | None => (summary_cache, None)
        end
  end.

End Cache.

End NewsCorrelator.
(* ===================================================================== *)
(** * Specification-side definitions                                      *)
(* ===================================================================== *)

Import Date NewsUtils NewsSearch NewsSearchLambda OpenRouter.

(** The elements of [l] that are not in [seen], each kept at its first
    occurrence only. *)
Fixpoint fresh_in_order (seen : gset string) (l : list string) : list string :=
  match l with
  | [] => []
  | x :: l' =>
      if bool_decide (x ∈ seen) then fresh_in_order seen l'
      else x :: fresh_in_order (seen ∪ {[ x ]}) l'
  end.

(** The reason [filter_citations] records for a URL it removes, [None] for
    a URL it keeps. *)
Definition removal_reason (blocked_domains : list string) (url : string) : option string :=
  if is_video_or_live url then Some "video/live"
  else match matched_blocked url blocked_domains with
       | Some blocked => Some ("blocked domain (" ++ blocked ++ ")")
       | None => None
       end.

Definition is_removed (blocked_domains : list string) (url : string) : bool :=
  match removal_reason blocked_domains url with Some _ => true | None => false end.

(** The removed entries, in input order. *)
Definition removed_of (blocked_domains : list string) (citations : list string)
  : list (string * string) :=
  flat_map (fun url => match removal_reason blocked_domains url with
                       | Some reason => [(url, reason)]
                       | None => []
                       end) citations.


(** The fields no statement of the [try] block assigns, and the two the
    last statements assign. *)
Definition untouched (url : string) (a : Article) : Prop :=
  link a = url /\ source_domain a = get_domain url /\ author a = "".

(** A world without configuration files and without network. *)
Definition offline_world : World :=
  mkWorld (Date.mkdate 2026 11 4)
          (fun _ => None)
          (fun _ => None)
          (fun _ _ _ _ => Raise (OtherException "URLError"))
          (fun _ _ _ _ => [])
          (fun l => l)
          (fun _ => Raise (OtherException "ConnectionError"))
          (fun s => s)
          (fun _ _ _ => None).

(** [members] lists, cluster by cluster, the entries of
    [enumerate valid_items] the clusters were built from; [used] holds
    their indices, and no index occurs twice. *)
Definition built_from (valid_items : list NewsItem)
    (members : list (list (nat * NewsItem)))
    (news_clusters : list (list NewsItem)) (used : gset nat) : Prop :=
  news_clusters = map (map snd) members
  /\ NoDup (map fst (concat members))
  /\ (forall p, In p (concat members) -> In p (enumerate valid_items))
  /\ (forall j, j ∈ used <-> In j (map fst (concat members)))
  /\ Forall (fun ms => ms <> []) members.

(** The part of an ISO date after the year. *)
Definition iso_tail (m dd : Z) : string :=
  "-" ++ Py.pad0 2 m ++ "-" ++ Py.pad0 2 dd.

(** The year is printed as four digits that read back as the year. *)
Definition year_digits_ok (y : Z) : bool :=
  match Py.pad0 4 y with
  | String a (String b (String c (String d EmptyString))) =>
      andb (andb (andb (Py.is_digit a) (Py.is_digit b))
                 (andb (Py.is_digit c) (Py.is_digit d)))
           (1000 * digit_val a + 100 * digit_val b + 10 * digit_val c + digit_val d =? y)
  | _ => false
  end.

(** The format after its year directive. *)
Definition tail_format : list directive :=
  [Dlit "-"%char; Dm; Dlit "-"%char; Dd].

(** The tail is six characters that parse back as the month and the day. *)
Definition iso_tail_ok (m dd : Z) : bool :=
  andb (match matches tail_format (0, 1, 1) (iso_tail m dd) with
        | ((_, m', d'), EmptyString) :: _ => andb (m' =? m) (d' =? dd)
        | _ => false
        end)
       (String.eqb (Py.take 6 (iso_tail m dd)) (iso_tail m dd)).

Definition set_year (y : Z) (p : fields * string) : fields * string :=
  let '((_, m, d), rest) := p in ((y, m, d), rest).

Fixpoint no_year (fmt : list directive) : bool :=
  match fmt with
  | [] => true
  | DY :: _ => false
  | _ :: fmt' => no_year fmt'
  end.



(** A line of the stream that the reader neither takes as a blank line nor
    as a data line. *)
Definition ignored_line (bline : string) : Prop :=
  bline <> ""
  /\ Py.rstrip_char (ascii_of_nat 10) bline <> ""
  /\ Py.startswith "data:" (Py.rstrip_char (ascii_of_nat 10) bline) = false.

(** A line of the stream that is not taken as a blank line. *)
Definition not_blank (bline : string) : Prop :=
  Py.rstrip_char (ascii_of_nat 10) bline <> "".

(** The JSON object has no truthy [error] member, so the stream reader
    yields it. *)
Definition no_error (obj : Json) : Prop :=
  match obj with
  | JObj m => match members_get "error" m with
              | Some e => truthy e = false
              | None => True
              end
  | _ => True
  end.

(** The data line [bline], followed by a blank line, delivers [obj]. *)
Definition delivers (json_loads : string -> option Json) (bline : string) (obj : Json)
  : Prop :=
  let line := Py.rstrip_char (ascii_of_nat 10) bline in
  let chunk := Py.strip (Py.strip (Py.drop 5 line)) in
  bline <> "" /\ line <> ""
  /\ Py.startswith "data:" line = true
  /\ chunk <> "[DONE]"
  /\ json_loads chunk = Some obj
  /\ no_error obj.

(** The line feed that ends a frame. *)
Definition blank_line : string := String (ascii_of_nat 10) EmptyString.

(* ===================================================================== *)
(** An item of a preferred domain, as [select_best_source] tests it. *)
Definition from_preferred (preferred_domains : list string) (item : NewsItem) : bool :=
  existsb (fun preferred =>
             orb (Py.contains preferred (item_source_domain item))
                 (Py.contains (item_source_domain item) preferred))
          preferred_domains.

(** The four dicts keyed by category code have the same keys, none of them
    empty, and every code is mapped to a cluster that is loaded. *)
Definition taxonomy_consistent (t : Taxonomy) : Prop :=
  dom (freshness_filter t) = dom (keywords t)
  /\ dom (top_sources_only_filter t) = dom (keywords t)
  /\ dom (iab_to_cluster t) = dom (keywords t)
  /\ ("" ∉ dom (keywords t))
  /\ forall code cluster_id,
       iab_to_cluster t !! code = Some cluster_id -> is_Some (clusters t !! cluster_id).

(** Every category of a loaded cluster that has a code has its entries. *)
Definition categories_indexed (t : Taxonomy) : Prop :=
  forall cluster_id info category,
    clusters t !! cluster_id = Some info ->
    In category (categories info) ->
    iab_code category <> "" ->
    iab_code category ∈ dom (keywords t).

(** Larger clusters first. *)
Definition larger_first {A : Type} (c d : list A) : Prop := (length d <= length c)%nat.

(** A cluster is a seed followed by items similar to the seed. *)
Definition seeded (similarity_threshold : float) (cluster : list NewsItem) : Prop :=
  exists seed members,
    cluster = seed :: members
    /\ Forall (fun other =>
                 PrimFloat.leb similarity_threshold
                   (calculate_similarity (item_text seed) (item_text other) true) = true)
              members.

(** The items with a link that is neither empty nor in [seen], each link
    kept at its first item only. *)
Fixpoint fresh_items (seen : gset string) (l : list NewsItem) : list NewsItem :=
  match l with
  | [] => []
  | item :: l' =>
      if andb (negb (String.eqb (item_link item) ""))
              (negb (bool_decide (item_link item ∈ seen)))
      then item :: fresh_items (seen ∪ {[ item_link item ]}) l'
      else fresh_items seen l'
  end.

(** What [validate_step] requires of an article it keeps. *)
Definition passes (w : World) (must_be_fresh : bool) (min_len : Z) (article : Article)
  : Prop :=
  min_len <= content_length article
  /\ published_date article <> ""
  /\ fst (is_date_recent (today w) (published_date article)
                         (if must_be_fresh then 0 else 10)) = true.

(** The invariant of the validation loop. *)
Definition validation_ok (w : World) (must_be_fresh : bool) (min_len : Z)
    (v : Validation) : Prop :=
  (length (validated_articles v) <= 5)%nat
  /\ Forall (passes w must_be_fresh min_len) (validated_articles v)
  /\ (length (snd (discard_log v)) <= 3)%nat
  /\ forall img, first_valid_image v = Some img ->
                 Py.contains "placeholder" (Py.lower img) = false
                 /\ In img (map image (validated_articles v)).

(** What every item of the feed satisfies. *)
Definition feed_item_ok (w : World) (item : FeedItem) : Prop :=
  1 <= feed_cluster_size item <= 5
  /\ Z.of_nat (length (feed_source_domain item)) = feed_cluster_size item
  /\ Z.of_nat (length (feed_link item)) = feed_cluster_size item
  /\ feed_published_date item = Date.isoformat (today w)
  /\ (feed_image item = placeholder_image
      \/ Py.contains "placeholder" (Py.lower (feed_image item)) = false).

(** The invariant of the two passes. *)
Definition feed_ok (w : World) (max_results : Z) (st : list FeedItem * DiscardLog) : Prop :=
  Z.of_nat (length (fst st)) <= Z.max 0 max_results
  /\ Forall (feed_item_ok w) (fst st)
  /\ (length (snd (snd st)) <= 3)%nat.

(** The characters of an ISO date. *)
Definition iso_chars : list ascii := list_ascii_of_string "0123456789-".

Definition iso_char (c : ascii) : bool := existsb (Ascii.eqb c) iso_chars.

Fixpoint iso_string (s : string) : bool :=
  match s with
  | EmptyString => true
  | String c s' => andb (iso_char c) (iso_string s')
  end.

(** Every string the expression matches holds a character that is no
    digit and no dash. *)
Fixpoint needs_other (r : Re.regex) : bool :=
  match r with
  | Re.Void => true
  | Re.Eps => false
  | Re.Class p => forallb (fun c => negb (p c)) iso_chars
  | Re.Cat r1 r2 => orb (needs_other r1) (needs_other r2)
  | Re.Alt r1 r2 => andb (needs_other r1) (needs_other r2)
  | Re.Star _ => false
  end.

(** The keyword starts with a character that is no digit and no dash. *)
Definition starts_with_other (kw : string) : bool :=
  match kw with
  | EmptyString => false
  | String k _ => negb (iso_char k)
  end.

(** What the fields of a fetched article satisfy, whatever was fetched. *)
Definition article_shape (a : Article) : Prop :=
  subtitle a = title a
  /\ (published_date a = "" \/ Py.len (published_date a) = 10)
  /\ (forall n, content_text_length a = Some n -> 0 <= n <= 6000).


(** Every cached summary is filed under its own link. *)
Definition cache_ok (md5_hexdigest : string -> string)
    (summary_cache : gmap string NewsCorrelator.Summary) : Prop :=
  forall url r, summary_cache !! url = Some r ->
                NewsCorrelator.summary_link r = url
                /\ NewsCorrelator.summary_id r = md5_hexdigest url.

(** The scheduler refuses the payload. *)
Definition refused (p : SchedulerLambda.Payload) : Prop :=
  SchedulerLambda.payload_clusters p = []
  \/ SchedulerLambda.payload_locales p = []
  \/ Exists (fun locale => ~ In (Py.lower locale) SchedulerLambda.supported_locales)
            (SchedulerLambda.payload_locales p).


(** A page with a title, an image, a date and one paragraph. *)
Definition story_page : Soup :=
  mkSoup (Ok (Some "Derby won in the last minute"))
         (Ok (Some "https://a.it/img/derby.jpg"))
         (Ok ["2026-11-04T09:30:00"])
         (Ok None)
         (Ok ["The home side scored in the last minute and won the derby by two goals to one."]).

(** A world with one cluster of one category, one preferred site whose
    pages all list the same story, and a summary service that answers. *)
Definition one_story_world : World :=
  mkWorld (Date.mkdate 2026 11 4)
          (fun _ => Some [mkClusterEntry (Some 1) "Sport" ""
                            [mkCategory "IAB17" "Sports" [] false false]])
          (fun _ => Some (mkTopSourcesFile [("IAB17", ["a.it"])] []))
          (fun _ _ _ _ => Ok "text")
          (fun _ _ _ _ => [mkNewsItem "Derby won in the last minute"
                                      "https://a.it/news/derby" "" "a.it"])
          (fun l => l)
          (fun _ => Ok (mkHttpResponse 200 (Ok story_page)))
          (fun s => s)
          (fun _ _ _ => Some [("title", JStr "Derby")]).

(** * Similarity                                                          *)
(* ===================================================================== *)


(* ===================================================================== *)
(** * Citation deduplication                                              *)
(* ===================================================================== *)

Lemma dedupe_fold (l : list string) :
  forall (seen : gset string) (acc : list string),
    fold_left dedupe_step l (seen, acc)
    = (seen ∪ list_to_set l, (acc ++ fresh_in_order seen l)%list).
Proof.
  induction l as [|x l IH]; intros seen acc; simpl.
  - f_equal; [set_solver | now rewrite app_nil_r].
  - case_bool_decide as Hx.
    + rewrite IH. f_equal. set_solver.
    + rewrite IH. f_equal; [set_solver | now rewrite <- app_assoc].
Qed.

Lemma dedupe_citations_fresh (l : list string) :
  dedupe_citations l = fresh_in_order ∅ l.
Proof. unfold dedupe_citations. now rewrite dedupe_fold. Qed.

Lemma elem_of_fresh_in_order (l : list string) :
  forall (seen : gset string) (x : string),
    x ∈ fresh_in_order seen l <-> x ∈ l /\ x ∉ seen.
Proof.
  induction l as [|y l IH]; intros seen x; simpl.
  - split; [intros H; inversion H | intros [H _]; inversion H].
  - case_bool_decide as Hy.
    + rewrite IH, elem_of_cons. split.
      * intros [H1 H2]. split; [now right | exact H2].
      * intros [[-> | H1] H2]; [contradiction | now split].
    + rewrite !elem_of_cons, IH, elem_of_union, elem_of_singleton. split.
      * intros [-> | [H1 H2]]; [split; [now left | exact Hy]|].
        split; [now right | intros H; apply H2; now left].
      * intros [[-> | H1] H2]; [now left|].
        destruct (decide (x = y)) as [-> | Hne]; [now left|].
        right. split; [exact H1 | intros [H | H]; contradiction].
Qed.

Lemma NoDup_fresh_in_order (l : list string) :
  forall seen : gset string, NoDup (fresh_in_order seen l).
Proof.
  induction l as [|y l IH]; intros seen; simpl.
  - constructor.
  - case_bool_decide as Hy; [apply IH|].
    constructor; [|apply IH].
    rewrite elem_of_fresh_in_order, elem_of_union, elem_of_singleton.
    intros [_ H]. apply H. now right.
Qed.

Lemma fresh_in_order_app (l1 l2 : list string) :
  forall seen : gset string,
    fresh_in_order seen (l1 ++ l2)
    = (fresh_in_order seen l1 ++ fresh_in_order (seen ∪ list_to_set l1) l2)%list.
Proof.
  induction l1 as [|y l1 IH]; intros seen; simpl.
  - f_equal. set_solver.
  - case_bool_decide as Hy.
    + rewrite IH. do 2 f_equal. set_solver.
    + rewrite IH. simpl. do 3 f_equal. set_solver.
Qed.

(** C7. The deduplication of the citations in [generate_feed] keeps exactly
    one occurrence of each distinct URL, at the place of its first
    occurrence: a URL that first occurs after the prefix [before] comes
    right after the deduplicated prefix.  On the input of the spec it
    yields the two URLs in their order. *)
Theorem dedupe_citations_first_seen_order (all_citations : list string) :
  NoDup (dedupe_citations all_citations)
  /\ (forall url, url ∈ dedupe_citations all_citations <-> url ∈ all_citations)
  /\ (forall before url after,
         all_citations = (before ++ url :: after)%list -> url ∉ before ->
         exists rest,
           dedupe_citations all_citations
           = (dedupe_citations before ++ url :: rest)%list
           /\ forall u, u ∈ rest -> u ∈ after)
  /\ dedupe_citations ["https://a.it/x"; "https://a.it/x"; "https://b.it/y"]
     = ["https://a.it/x"; "https://b.it/y"].
Proof.
  split; [|split; [|split]].
  - rewrite dedupe_citations_fresh. apply NoDup_fresh_in_order.
  - intros url. rewrite dedupe_citations_fresh, elem_of_fresh_in_order.
    split; [tauto|].
    intros H. split; [exact H | apply not_elem_of_empty].
  - intros before url after -> Hfresh.
    rewrite !dedupe_citations_fresh, fresh_in_order_app. simpl.
    case_bool_decide as Hin.
    { apply elem_of_union in Hin as [Hin | Hin];
        [now apply not_elem_of_empty in Hin | now apply elem_of_list_to_set in Hin]. }
    eexists. split; [reflexivity|].
    intros u Hu. apply elem_of_fresh_in_order in Hu. tauto.
  - vm_compute. reflexivity.
Qed.

(* ===================================================================== *)
(** * Citation filtering                                                  *)
(* ===================================================================== *)

Lemma filter_citations_fold (blocked_domains : list string) (l : list string) :
  forall (filtered : list string) (removed : list (string * string)),
    fold_left (filter_step blocked_domains) l (filtered, removed)
    = ((filtered ++ List.filter (fun u => negb (is_removed blocked_domains u)) l)%list,
       (removed ++ removed_of blocked_domains l)%list).
Proof.
  induction l as [|url l IH]; intros filtered removed; simpl.
  - now rewrite !app_nil_r.
  - unfold is_removed, removal_reason.
    destruct (is_video_or_live url) eqn:Hv; simpl.
    + rewrite IH. now rewrite <- app_assoc.
    + destruct (matched_blocked url blocked_domains) eqn:Hb; simpl;
        rewrite IH; now rewrite <- !app_assoc.
Qed.

Lemma filter_citations_eq (citations blocked_domains : list string) :
  filter_citations citations blocked_domains
  = (List.filter (fun u => negb (is_removed blocked_domains u)) citations,
     removed_of blocked_domains citations).
Proof. unfold filter_citations. now rewrite filter_citations_fold. Qed.

Lemma removed_of_urls (blocked_domains : list string) (l : list string) :
  map fst (removed_of blocked_domains l) = List.filter (is_removed blocked_domains) l.
Proof.
  induction l as [|url l IH]; simpl; [reflexivity|].
  unfold is_removed at 1.
  destruct (removal_reason blocked_domains url); simpl; now rewrite IH.
Qed.

Lemma filter_complement_length {A : Type} (f : A -> bool) (l : list A) :
  (length (List.filter (fun x => negb (f x)) l) + length (List.filter f l))%nat = length l.
Proof.
  induction l as [|x l IH]; simpl; [reflexivity|].
  destruct (f x); simpl; lia.
Qed.

(** C10. [filter_citations] partitions its input: [filtered] is the
    sub-list of the URLs that are kept and the URLs of [removed] are the
    sub-list of those that are not, both in input order, each removed URL
    carries a reason, and the two lengths add up to the input length. *)
Theorem filter_citations_partition (citations blocked_domains : list string) :
  let filtered := fst (filter_citations citations blocked_domains) in
  let removed := snd (filter_citations citations blocked_domains) in
  filtered = List.filter (fun u => negb (is_removed blocked_domains u)) citations
  /\ map fst removed = List.filter (is_removed blocked_domains) citations
  /\ Forall (fun ur => removal_reason blocked_domains (fst ur) = Some (snd ur)) removed
  /\ Permutation (filtered ++ map fst removed) citations
  /\ (length filtered + length removed)%nat = length citations.
Proof.
  rewrite filter_citations_eq. simpl.
  split; [reflexivity|].
  split; [apply removed_of_urls|].
  split.
  { induction citations as [|url l IH]; simpl; [constructor|].
    destruct (removal_reason blocked_domains url) eqn:Hr; simpl; [|exact IH].
    constructor; [exact Hr | exact IH]. }
  split.
  { rewrite removed_of_urls.
    induction citations as [|url l IH]; simpl; [constructor|].
    destruct (is_removed blocked_domains url); simpl.
    - rewrite <- Permutation_middle. now constructor.
    - now constructor. }
  rewrite <- (length_map fst), removed_of_urls.
  apply filter_complement_length.
Qed.

Lemma find_first {A : Type} (f : A -> bool) (l : list A) (m : A) :
  List.find f l = Some m ->
  exists before after,
    l = (before ++ m :: after)%list
    /\ Forall (fun b => f b = false) before
    /\ f m = true.
Proof.
  induction l as [|x l IH]; simpl; [discriminate|].
  destruct (f x) eqn:Hx.
  - intros [= ->]. exists [], l. repeat split; [constructor | exact Hx].
  - intros H. destruct (IH H) as (before & after & -> & Hb & Hm).
    exists (x :: before), after. repeat split; [now constructor | exact Hm].
Qed.

Lemma find_exists {A : Type} (f : A -> bool) (l : list A) (b : A) :
  In b l -> f b = true -> exists m, List.find f l = Some m.
Proof.
  induction l as [|x l IH]; simpl; [tauto|].
  intros [-> | Hin] Hb.
  - rewrite Hb. now eexists.
  - destruct (f x); [now eexists | now apply IH].
Qed.

Lemma in_removed_of (blocked_domains citations : list string) (url reason : string) :
  In (url, reason) (removed_of blocked_domains citations)
  <-> In url citations /\ removal_reason blocked_domains url = Some reason.
Proof.
  unfold removed_of. rewrite in_flat_map. split.
  - intros (u & Hu & Hin).
    destruct (removal_reason blocked_domains u) eqn:Hr; simpl in Hin; [|tauto].
    destruct Hin as [[= -> ->] | []]. now split.
  - intros [Hin Hr]. exists url. rewrite Hr. split; [exact Hin | now left].
Qed.

Lemma video_segment_is_video_or_live (url : string) :
  Py.contains "/video/" (Py.lower url) = true -> is_video_or_live url = true.
Proof.
  intros H. unfold is_video_or_live, Py.any_contains, all_patterns, video_patterns.
  cbn [app existsb]. now rewrite H.
Qed.

Lemma blocked_matches_equal (domain blocked : string) :
  domain = Py.lower blocked -> blocked_matches domain blocked = true.
Proof.
  intros ->. unfold blocked_matches. now rewrite String.eqb_refl.
Qed.

(** C8, the claim as stated fails: a URL without [/video/] whose domain
    equals a blocked domain is removed with the reason ["video/live"], not
    with a blocked-domain reason, when it matches another video or live
    pattern (here [/live/]). *)
Lemma filter_citations_live_blocked_counterexample :
  let url := "https://blocked.it/live/x" in
  let removed := snd (filter_citations [url] ["blocked.it"]) in
  Py.contains "/video/" (Py.lower url) = false
  /\ Py.lower (get_domain url) = Py.lower "blocked.it"
  /\ removed = [(url, "video/live")]
  /\ ~ In (url, "blocked domain (blocked.it)") removed.
Proof.
  cbv zeta. split; [vm_compute; reflexivity|]. split; [vm_compute; reflexivity|].
  assert (Hremoved : snd (filter_citations ["https://blocked.it/live/x"] ["blocked.it"])
                     = [("https://blocked.it/live/x", "video/live")])
    by (vm_compute; reflexivity).
  rewrite Hremoved. split; [reflexivity|].
  intros [H | []]. discriminate H.
Qed.

(** C8, amended. For every input URL: if its lower-case form contains
    [/video/] it is removed with the reason ["video/live"] and with no
    other reason, whatever its domain; if it matches none of the video and
    live patterns and its lower-cased domain equals a (lower-cased) blocked
    domain, it is removed with the reason ["blocked domain (m)"], where [m]
    is the first configured entry that matches the domain (by equality, as
    a parent domain, or as a substring). *)
Theorem filter_citations_reasons (citations blocked_domains : list string) (url : string) :
  In url citations ->
  let filtered := fst (filter_citations citations blocked_domains) in
  let removed := snd (filter_citations citations blocked_domains) in
  (Py.contains "/video/" (Py.lower url) = true ->
     In (url, "video/live") removed
     /\ ~ In url filtered
     /\ forall reason, In (url, reason) removed -> reason = "video/live")
  /\ (is_video_or_live url = false ->
      forall blocked,
        In blocked blocked_domains ->
        Py.lower (get_domain url) = Py.lower blocked ->
        exists before m after,
          blocked_domains = (before ++ m :: after)%list
          /\ Forall (fun b => blocked_matches (Py.lower (get_domain url)) b = false) before
          /\ blocked_matches (Py.lower (get_domain url)) m = true
          /\ In (url, "blocked domain (" ++ m ++ ")") removed
          /\ ~ In url filtered).
Proof.
  intros Hin. rewrite filter_citations_eq. simpl. split.
  - intros Hv. apply video_segment_is_video_or_live in Hv.
    assert (Hr : removal_reason blocked_domains url = Some "video/live")
      by (unfold removal_reason; now rewrite Hv).
    split; [apply in_removed_of; now split|]. split.
    + rewrite filter_In. unfold is_removed. rewrite Hr. intros [_ H]. discriminate H.
    + intros reason H. apply in_removed_of in H as [_ H]. congruence.
  - intros Hv blocked Hb Heq.
    destruct (find_exists (blocked_matches (Py.lower (get_domain url))) blocked_domains
                blocked Hb (blocked_matches_equal _ _ Heq)) as [m Hm].
    destruct (find_first _ _ _ Hm) as (before & after & Hsplit & Hbefore & Hmatch).
    assert (Hr : removal_reason blocked_domains url = Some ("blocked domain (" ++ m ++ ")")).
    { unfold removal_reason, matched_blocked. now rewrite Hv, Hm. }
    exists before, m, after.
    split; [exact Hsplit|]. split; [exact Hbefore|]. split; [exact Hmatch|].
    split; [apply in_removed_of; now split|].
    rewrite filter_In. unfold is_removed. rewrite Hr. intros [_ H]. discriminate H.
Qed.

(** C8, amended: the theorem at a concrete input, a video URL of a blocked
    domain. *)
Lemma filter_citations_reasons_witness :
  In ("https://blocked.it/video/1", "video/live")
     (snd (filter_citations ["https://ok.it/a"; "https://blocked.it/video/1"] ["blocked.it"])).
Proof.
  pose proof (filter_citations_reasons
                ["https://ok.it/a"; "https://blocked.it/video/1"] ["blocked.it"]
                "https://blocked.it/video/1") as H.
  cbv zeta in H.
  destruct H as [H _]; [right; left; reflexivity|].
  destruct H as [H _]; [reflexivity | exact H].
Defined.

(* ===================================================================== *)
(** * The OpenRouter client                                               *)
(* ===================================================================== *)



(** One iteration of the loop. *)
Lemma attempts_from_S (backend : Backend) (max_retries : Z) (remaining : nat)
    (attempt : Z) (last_err : option exn) :
  attempts_from backend max_retries (S remaining) attempt last_err
  = match backend attempt with
    | HttpSuccess status raw => ([Request attempt], read_response status raw)
    | HTTPError code err_payload text =>
        let err := mkOpenRouterError (_error_message err_payload text)
                                     (Some code) err_payload in
        if andb (attempt <? max_retries) (retryable_status code)
        then
          let '(evs, r) := attempts_from backend max_retries remaining
                                         (attempt + 1) (Some err) in
          (Request attempt :: Sleep attempt :: evs, r)
        else ([Request attempt], Raise err)
    | URLError text =>
        let err := mkOpenRouterError (JStr ("Network error: " ++ text)) None JNull in
        if attempt <? max_retries
        then
          let '(evs, r) := attempts_from backend max_retries remaining
                                         (attempt + 1) (Some err) in
          (Request attempt :: Sleep attempt :: evs, r)
        else ([Request attempt], Raise err)
    | Uncaught e => ([Request attempt], Raise e)
    end.
Proof. reflexivity. Qed.






(** C6, the claim as stated fails: a 200 response whose body is
    [{"error": {}}] holds an [error] object, and [_post_json] returns the
    body instead of raising. *)
Lemma post_json_empty_error_object_counterexample :
  let body := JObj [("error", JObj [])] in
  _post_json (fun _ => HttpSuccess (Some 200) (Decoded body)) 2
  = ([Request 0], Ok body).
Proof. reflexivity. Qed.

(** C6, amended. A successful HTTP response, whatever its status, whose
    JSON body holds a non-empty [error] object makes the loop stop at
    that request and raise an [OpenRouterError] that carries the status
    and the whole body as payload, with the [message] member of the error
    object (or the default text) as message; nothing is returned.  In
    particular [_post_json] raises it when the first response is one. *)
Theorem post_json_error_body_raises (backend : Backend) (max_retries : Z)
    (attempt : Z) (status : option Z) (members err : list (string * Json)) :
  backend attempt = HttpSuccess status (Decoded (JObj members)) ->
  members_get "error" members = Some (JObj err) ->
  err <> [] ->
  let raised :=
    Raise (OpenRouterError (match members_get "message" err with
                            | Some message => message
                            | None => JStr "OpenRouter error"
                            end) status (JObj members)) in
  (forall remaining last_err,
      attempts_from backend max_retries (S remaining) attempt last_err
      = ([Request attempt], raised))
  /\ (attempt = 0 -> 0 <= max_retries ->
      _post_json backend max_retries = ([Request 0], raised)).
Proof.
  intros Hb Herr Hne. cbv zeta.
  assert (Hloop : forall remaining last_err,
             attempts_from backend max_retries (S remaining) attempt last_err
             = ([Request attempt],
                Raise (OpenRouterError (match members_get "message" err with
                                        | Some message => message
                                        | None => JStr "OpenRouter error"
                                        end) status (JObj members)))).
  { intros remaining last_err. rewrite attempts_from_S, Hb.
    unfold read_response. rewrite Herr.
    destruct err as [|e0 err']; [contradiction|].
    destruct members as [|m0 members']; [discriminate Herr|].
    reflexivity. }
  split; [exact Hloop|].
  intros -> Hmr. unfold _post_json.
  replace (Z.to_nat (max_retries + 1)) with (S (Z.to_nat max_retries)) by lia.
  apply Hloop.
Qed.

(** C6, amended: the theorem at a concrete response, status 200 with the
    body [{"error": {"message": "bad"}}]. *)
Lemma post_json_error_body_raises_witness :
  _post_json (fun _ => HttpSuccess (Some 200)
                         (Decoded (JObj [("error", JObj [("message", JStr "bad")])]))) 2
  = ([Request 0],
     Raise (OpenRouterError (JStr "bad") (Some 200)
                            (JObj [("error", JObj [("message", JStr "bad")])]))).
Proof.
  pose proof (post_json_error_body_raises
                (fun _ => HttpSuccess (Some 200)
                            (Decoded (JObj [("error", JObj [("message", JStr "bad")])])))
                2 0 (Some 200) [("error", JObj [("message", JStr "bad")])]
                [("message", JStr "bad")] eq_refl eq_refl ltac:(discriminate)) as H.
  cbv zeta in H. destruct H as [_ H]. apply H; [reflexivity | lia].
Defined.

(* ===================================================================== *)
(** * Article fetching                                                    *)
(* ===================================================================== *)

Ltac step_try :=
  cbn [bind call update current ret fst snd
       set_title set_subtitle set_image set_published_date set_content
       set_content_text_length default_article
       title subtitle content image link published_date source_domain author
       content_text_length soup title_elem og_image date_vals og_description
       body_blocks].

Ltac try_raised := step_try; repeat split; intros; congruence.

Lemma parse_into_article_fields (fmt : string -> string) (resp : HttpResponse)
    (url : string) :
  let st := parse_into_article fmt resp (default_article url) in
  untouched url (fst st)
  /\ (snd st = Ok tt -> content_text_length (fst st) <> None)
  /\ (forall e, snd st = Raise e ->
                content (fst st) = "" /\ content_text_length (fst st) = None).
Proof.
  destruct resp as [code [[t img dv desc blocks] | e0]];
    unfold parse_into_article, untouched; [|try_raised].
  destruct t as [[t|] | et]; [| |try_raised];
    (destruct img as [[img|] | ei]; [| |try_raised];
     (destruct dv as [dv | ed]; [step_try; destruct (first_date dv) | try_raised];
      (destruct desc as [[desc|] | ede]; [| |try_raised];
       (destruct blocks as [blocks | eb]; try_raised)))).
Qed.

(** C9, the claim as stated fails: when the exception occurs after the
    title has been assigned (here the content extraction raises on a page
    that answered 200), the record returned is not the default one; it
    keeps the title parsed so far. *)
Lemma fetch_article_content_partial_record_counterexample :
  let url := "https://a.it/x" in
  let page :=
    mkHttpResponse 200
      (Ok (mkSoup (Ok (Some "Breaking news")) (Ok None) (Ok []) (Ok None)
                  (Raise (OtherException "RecursionError")))) in
  let article := fetch_article_content (fun s => s) (fun _ => Ok page) url in
  snd (parse_into_article (fun s => s) page (default_article url))
  = Raise (OtherException "RecursionError")
  /\ title article = "Breaking news"
  /\ article <> default_article url.
Proof.
  cbv zeta. split; [reflexivity|]. split; [reflexivity|].
  intros H. apply (f_equal title) in H. discriminate H.
Qed.

(** C9, amended. [fetch_article_content] returns a record for every URL
    (its result is a value, never an exception), with [link] the URL,
    [source_domain] its domain and an empty author.  When the HTTP fetch
    raises or answers a status other than 200 the record is the default
    one.  When an exception occurs after a 200 answer the record keeps the
    fields assigned before it, its content is empty and it has no
    [content_text_length]; that key is present exactly when fetch and
    parse complete.  Without the key, the length the callers compare is
    the length of [content]. *)
Theorem fetch_article_content_failure_record (fmt : string -> string)
    (http_get : string -> outcome HttpResponse) (url : string) :
  let article := fetch_article_content fmt http_get url in
  untouched url article
  /\ ((exists e, http_get url = Raise e)
      \/ (exists r, http_get url = Ok r /\ status_code r <> 200) ->
      article = default_article url)
  /\ (forall r e, http_get url = Ok r -> status_code r = 200 ->
                  snd (parse_into_article fmt r (default_article url)) = Raise e ->
                  content article = "" /\ content_text_length article = None)
  /\ (content_text_length article <> None <->
      exists r, http_get url = Ok r /\ status_code r = 200
                /\ snd (parse_into_article fmt r (default_article url)) = Ok tt)
  /\ (content_text_length article = None ->
      content_length article = Py.len (content article)).
Proof.
  cbv zeta. unfold fetch_article_content.
  destruct (http_get url) as [r | e0] eqn:Hget.
  - destruct (status_code r =? 200) eqn:Hst; cbn [negb].
    + apply Z.eqb_eq in Hst.
      pose proof (parse_into_article_fields fmt r url) as H. cbv zeta in H.
      destruct H as (Hu & Hok & Hraise).
      split; [exact Hu|]. split.
      { intros [[e H] | (r' & [= <-] & H)]; [discriminate H | contradiction]. }
      split.
      { intros r' e [= <-] _ H. exact (Hraise e H). }
      split.
      { split.
        - intros Hctl. exists r. split; [reflexivity|]. split; [exact Hst|].
          destruct (snd (parse_into_article fmt r (default_article url)))
            as [[] | e] eqn:Hs; [reflexivity|].
          destruct (Hraise e eq_refl) as [_ H]. contradiction.
        - intros (r' & [= <-] & _ & H). exact (Hok H). }
      intros H. unfold content_length. now rewrite H.
    + apply Z.eqb_neq in Hst.
      split; [repeat split|]. split; [reflexivity|]. split.
      { intros r' e [= <-] H. contradiction. }
      split.
      { split; [intros H; now contradiction H|].
        intros (r' & [= <-] & H & _). contradiction. }
      reflexivity.
  - split; [repeat split|]. split; [reflexivity|]. split.
    { intros r e H. discriminate H. }
    split.
    { split; [intros H; now contradiction H|].
      intros (r & H & _). discriminate H. }
    reflexivity.
Qed.

(* ===================================================================== *)
(** * The pipeline entry point                                            *)
(* ===================================================================== *)


(** C1, what the code does at its early exits.  For an unknown cluster id
    [generate_feed] returns the bare empty list, not a pair; with a
    checkpoint 1, 2 or 3 it never returns a pair either; and the caller
    [process_cluster], which unpacks the result into two names, raises
    [ValueError] on the bare list. *)
Theorem generate_feed_early_exit_not_a_pair (w : World) (cluster_id max_results : Z)
    (geo locale : string) :
  clusters (load_iab_taxonomy w (or_else (Some locale) LOCALE)) !! cluster_id = None ->
  (forall upto_step min_len_multi min_len_single,
      generate_feed w cluster_id max_results (Some geo) (Some locale) upto_step
                    min_len_multi min_len_single
      = Ok ReturnEmptyList)
  /\ process_cluster w cluster_id max_results geo locale
     = Raise (ValueError "not enough values to unpack (expected 2, got 0)").
Proof.
  intros Hunknown. split.
  - intros upto_step m1 m2. unfold generate_feed.
    destruct (load_top_sources w (or_else (Some locale) LOCALE)) as [ts bd].
    now rewrite Hunknown.
  - unfold process_cluster, generate_feed.
    destruct (load_top_sources w (or_else (Some locale) LOCALE)) as [ts bd].
    now rewrite Hunknown.
Qed.

(** C1: the theorem at a concrete input, cluster 99 with no taxonomy file
    for the locale. *)
Lemma generate_feed_early_exit_not_a_pair_witness :
  generate_feed offline_world 99 10 (Some "IT") (Some "IT") None 1000 1000
  = Ok ReturnEmptyList
  /\ process_cluster offline_world 99 10 "IT" "IT"
     = Raise (ValueError "not enough values to unpack (expected 2, got 0)").
Proof.
  destruct (generate_feed_early_exit_not_a_pair offline_world 99 10 "IT" "IT" eq_refl)
    as [H1 H2].
  split; [apply H1 | exact H2].
Defined.

(** With a checkpoint set, a run that does not raise returns the bare
    empty list. *)
Lemma generate_feed_checkpoint_not_a_pair (w : World) (cluster_id max_results : Z)
    (geo locale : option string) (step min_len_multi min_len_single : Z) :
  1 <= step <= 3 ->
  forall final_feed news_clusters,
    generate_feed w cluster_id max_results geo locale (Some step)
                  min_len_multi min_len_single
    <> Ok (ReturnPair final_feed news_clusters).
Proof.
  intros Hstep final_feed news_clusters. unfold generate_feed.
  destruct (load_top_sources w (or_else locale LOCALE)) as [ts bd].
  destruct (clusters (load_iab_taxonomy w (or_else locale LOCALE)) !! cluster_id)
    as [info|]; [|discriminate].
  destruct (search_categories _ _ _ _ _ _ _ _ _) as [all_citations | e]; [|discriminate].
  case_bool_decide as H1; [discriminate|].
  destruct (dedupe_citations all_citations); [discriminate|].
  case_bool_decide as H2; [discriminate|].
  destruct (snd (fold_left dedupe_news_step _ _)); [discriminate|].
  case_bool_decide as H3; [discriminate|].
  exfalso.
  assert (step = 1 \/ step = 2 \/ step = 3) as [-> | [-> | ->]] by lia; congruence.
Qed.

(* ===================================================================== *)
(** * Date recency                                                        *)
(* ===================================================================== *)

(** Three evaluations with today 2026-11-04 and [max_days = 0]: tomorrow's
    date is reported recent, because the day difference -1 passes the test
    [days_diff <= max_days]; today's date is recent and yesterday's is
    not. *)
Example is_date_recent_around_today :
  is_date_recent (Date.mkdate 2026 11 4) "2026-11-05" 0
  = (true, "within 0 days (2026-11-05, -1 days ago)")
  /\ is_date_recent (Date.mkdate 2026 11 4) "2026-11-04" 0
     = (true, "exact match (2026-11-04)")
  /\ is_date_recent (Date.mkdate 2026 11 4) "2026-11-03" 0
     = (false, "too old (2026-11-03, 1 days ago > 0)").
Proof. repeat split; vm_compute; reflexivity. Qed.

(* ===================================================================== *)
(** * Clustering                                                          *)
(* ===================================================================== *)

Lemma map_snd_enumerate_from {A : Type} (l : list A) :
  forall k, map snd (enumerate_from k l) = l.
Proof. induction l as [|x l IH]; intros k; simpl; [reflexivity | now rewrite IH]. Qed.

Lemma map_fst_enumerate_from {A : Type} (l : list A) :
  forall k, map fst (enumerate_from k l) = seq k (length l).
Proof. induction l as [|x l IH]; intros k; simpl; [reflexivity | now rewrite IH]. Qed.

Lemma NoDup_enumerate {A : Type} (l : list A) : NoDup (enumerate l).
Proof.
  apply (NoDup_fmap_1 fst). change (NoDup (map fst (enumerate l))).
  unfold enumerate. rewrite map_fst_enumerate_from. apply NoDup_seq.
Qed.

(** An index occurs with one item only. *)
Lemma enumerate_from_functional {A : Type} (l : list A) :
  forall k i (x y : A),
    In (i, x) (enumerate_from k l) -> In (i, y) (enumerate_from k l) -> x = y.
Proof.
  induction l as [|z l IH]; intros k i x y; simpl; [tauto|].
  assert (Hlater : forall w, In (i, w) (enumerate_from (S k) l) -> (S k <= i)%nat).
  { intros w Hw. apply (in_map fst) in Hw. rewrite map_fst_enumerate_from in Hw.
    apply in_seq in Hw. simpl in Hw. lia. }
  intros [Hx | Hx] [Hy | Hy].
  - congruence.
  - apply Hlater in Hy. injection Hx as Hi _. lia.
  - apply Hlater in Hx. injection Hy as Hi _. lia.
  - exact (IH _ _ _ _ Hx Hy).
Qed.

Lemma NoDup_app_intro {A : Type} (l k : list A) :
  NoDup l -> NoDup k -> (forall x, In x l -> ~ In x k) -> NoDup (l ++ k).
Proof.
  intros Hl Hk Hd. apply NoDup_app. split; [exact Hl|]. split; [|exact Hk].
  intros x Hx Hx'. apply list_elem_of_In in Hx, Hx'. exact (Hd x Hx Hx').
Qed.

Lemma Permutation_concat {A : Type} (l l' : list (list A)) :
  Permutation l l' -> Permutation (concat l) (concat l').
Proof.
  induction 1 as [| x l l' _ IH | x y l | l l' l'' _ IH1 _ IH2]; simpl.
  - constructor.
  - now apply Permutation_app_head.
  - rewrite !app_assoc. apply Permutation_app_tail, Permutation_app_comm.
  - now transitivity (concat l').
Qed.

(** ** The sort *)

Lemma insert_by_len_Permutation {A : Type} (c : list A) (l : list (list A)) :
  Permutation (insert_by_len c l) (c :: l).
Proof.
  induction l as [|d l IH]; simpl; [reflexivity|].
  destruct (Nat.ltb (length c) (length d)); [|reflexivity].
  rewrite IH. apply perm_swap.
Qed.

Lemma sort_by_len_desc_Permutation {A : Type} (l : list (list A)) :
  Permutation (sort_by_len_desc l) l.
Proof.
  induction l as [|c l IH]; simpl; [reflexivity|].
  rewrite insert_by_len_Permutation. now constructor.
Qed.

Lemma insert_by_len_map {A B : Type} (f : A -> B) (c : list A) (l : list (list A)) :
  insert_by_len (map f c) (map (map f) l) = map (map f) (insert_by_len c l).
Proof.
  induction l as [|d l IH]; simpl; [reflexivity|].
  rewrite !length_map. destruct (Nat.ltb (length c) (length d)); simpl; [now rewrite IH|].
  reflexivity.
Qed.

Lemma sort_by_len_desc_map {A B : Type} (f : A -> B) (l : list (list A)) :
  sort_by_len_desc (map (map f) l) = map (map f) (sort_by_len_desc l).
Proof.
  induction l as [|c l IH]; simpl; [reflexivity|].
  now rewrite IH, insert_by_len_map.
Qed.

(** ** The two loops *)

Section Clustering.

Variable similarity_threshold : float.
Variable valid_items : list NewsItem.

(** The inner loop appends to the cluster the items of some entries
    [added] of the list it scans, none of which was used, and marks them
    used. *)
Lemma absorb_fold (item : NewsItem) (entries : list (nat * NewsItem)) :
  forall (cluster : list NewsItem) (used : gset nat),
  exists added : list (nat * NewsItem),
    fold_left (absorb_step similarity_threshold item) entries (cluster, used)
    = ((cluster ++ map snd added)%list, used ∪ list_to_set (map fst added))
    /\ (forall p, In p added -> In p entries /\ fst p ∉ used)
    /\ NoDup (map fst added).
Proof.
  induction entries as [|[j other] entries IH]; intros cluster used.
  - exists []. simpl. rewrite app_nil_r, (right_id_L ∅ (∪)).
    split; [reflexivity|]. split; [intros p []|constructor].
  - cbn [fold_left]. unfold absorb_step at 2.
    case_bool_decide as Hj.
    { destruct (IH cluster used) as (added & Heq & Hin & Hnd).
      exists added. split; [exact Heq|]. split; [|exact Hnd].
      intros p Hp. destruct (Hin p Hp). split; [now right | assumption]. }
    destruct (PrimFloat.leb similarity_threshold _).
    + destruct (IH (cluster ++ [other])%list (used ∪ {[ j ]})) as (added & Heq & Hin & Hnd).
      exists ((j, other) :: added). rewrite Heq. split.
      { cbn [map fst snd list_to_set]. rewrite <- app_assoc.
        now rewrite (assoc_L (∪)). }
      split.
      { intros p [<- | Hp]; [split; [now left | exact Hj]|].
        destruct (Hin p Hp) as [H1 H2]. split; [now right|].
        intros H. apply H2, elem_of_union. now left. }
      cbn [map fst]. constructor; [|exact Hnd].
      intros H. apply list_elem_of_In, in_map_iff in H as (p & Hfst & Hp).
      destruct (Hin p Hp) as [_ H2]. apply H2, elem_of_union. right.
      apply elem_of_singleton. exact Hfst.
    + destruct (IH cluster used) as (added & Heq & Hin & Hnd).
      exists added. split; [exact Heq|]. split; [|exact Hnd].
      intros p Hp. destruct (Hin p Hp). split; [now right | assumption].
Qed.

(** One iteration of the outer loop keeps the invariant, keeps what was
    used, and uses the index it is given. *)
Lemma seed_step_built_from (i : nat) (item : NewsItem)
    (members : list (list (nat * NewsItem)))
    (news_clusters : list (list NewsItem)) (used : gset nat) :
  In (i, item) (enumerate valid_items) ->
  built_from valid_items members news_clusters used ->
  exists members',
    built_from valid_items members'
      (fst (seed_step similarity_threshold valid_items (news_clusters, used) (i, item)))
      (snd (seed_step similarity_threshold valid_items (news_clusters, used) (i, item)))
    /\ (forall j, j ∈ used ->
                  j ∈ snd (seed_step similarity_threshold valid_items
                                     (news_clusters, used) (i, item)))
    /\ i ∈ snd (seed_step similarity_threshold valid_items (news_clusters, used) (i, item)).
Proof.
  intros Hentry Hb. unfold seed_step.
  case_bool_decide as Hi.
  { exists members. cbn [fst snd]. split; [exact Hb|]. split; [tauto | exact Hi]. }
  destruct (absorb_fold item (enumerate valid_items) [item] (used ∪ {[ i ]}))
    as (added & Heq & Hin & Hnd).
  rewrite Heq. cbn [fst snd].
  destruct Hb as (Hcl & Hnodup & Hfrom & Hused & Hne).
  exists (members ++ [(i, item) :: added])%list. split.
  { unfold built_from. rewrite concat_app, !map_app. cbn [concat map fst snd].
    rewrite !app_nil_r. split; [now rewrite Hcl|]. split.
    { apply NoDup_app_intro; [exact Hnodup| |].
      - constructor; [|exact Hnd].
        intros H. apply list_elem_of_In, in_map_iff in H as (p & Hfst & Hp).
        destruct (Hin p Hp) as [_ H2]. apply H2, elem_of_union. right.
        now apply elem_of_singleton.
      - intros j Hj [<- | Hj'].
        + apply Hi, Hused, Hj.
        + apply in_map_iff in Hj' as (p & Hfst & Hp).
          destruct (Hin p Hp) as [_ H2]. apply H2, elem_of_union. left.
          apply Hused. now rewrite Hfst. }
    split.
    { intros p Hp. apply in_app_iff in Hp as [Hp | [<- | Hp]].
      - now apply Hfrom.
      - exact Hentry.
      - now apply Hin. }
    split.
    { intros j. rewrite !elem_of_union, elem_of_singleton, elem_of_list_to_set,
        list_elem_of_In, in_app_iff, Hused. cbn [map fst In]. intuition congruence. }
    apply Forall_app. split; [exact Hne|]. constructor; [discriminate | constructor]. }
  split.
  - intros j Hj. apply elem_of_union. left. apply elem_of_union. now left.
  - apply elem_of_union. left. apply elem_of_union. right. now apply elem_of_singleton.
Qed.

Lemma seed_fold (entries : list (nat * NewsItem)) :
  (forall p, In p entries -> In p (enumerate valid_items)) ->
  forall members st,
    built_from valid_items members (fst st) (snd st) ->
    exists members',
      built_from valid_items members'
        (fst (fold_left (seed_step similarity_threshold valid_items) entries st))
        (snd (fold_left (seed_step similarity_threshold valid_items) entries st))
      /\ (forall j, j ∈ snd st ->
                    j ∈ snd (fold_left (seed_step similarity_threshold valid_items)
                                       entries st))
      /\ (forall p, In p entries ->
                    fst p ∈ snd (fold_left (seed_step similarity_threshold valid_items)
                                           entries st)).
Proof.
  induction entries as [|[i item] entries IH]; intros Hsub members st Hb.
  - exists members. simpl. split; [exact Hb|]. split; [tauto | intros p []].
  - cbn [fold_left]. destruct st as [news_clusters used]. cbn [fst snd] in Hb.
    destruct (seed_step_built_from i item members news_clusters used
                (Hsub _ (or_introl eq_refl)) Hb) as (members1 & Hb1 & Hmono1 & Hi1).
    destruct (IH (fun p Hp => Hsub p (or_intror Hp)) members1 _ Hb1)
      as (members' & Hb' & Hmono & Hall).
    exists members'. split; [exact Hb'|]. split.
    + intros j Hj. apply Hmono, Hmono1, Hj.
    + intros p [<- | Hp]; [apply Hmono, Hi1 | now apply Hall].
Qed.

(** Once every entry has been seen, the members are the entries. *)
Lemma built_from_all (members : list (list (nat * NewsItem)))
    (news_clusters : list (list NewsItem)) (used : gset nat) :
  built_from valid_items members news_clusters used ->
  (forall p, In p (enumerate valid_items) -> fst p ∈ used) ->
  Permutation (concat members) (enumerate valid_items).
Proof.
  intros (Hcl & Hnodup & Hfrom & Hused & Hne) Hall.
  apply NoDup_Permutation.
  - exact (NoDup_fmap_1 fst _ Hnodup).
  - apply NoDup_enumerate.
  - intros [i x]. rewrite !list_elem_of_In. split; [apply Hfrom|].
    intros Hp. pose proof (Hall _ Hp) as Hi. cbn [fst] in Hi.
    apply Hused, in_map_iff in Hi as ([i' y] & Hfst & Hq). cbn [fst] in Hfst. subst i'.
    now rewrite (enumerate_from_functional _ _ _ _ _ Hp (Hfrom _ Hq)).
Qed.

End Clustering.

(** C2. [cluster_news_by_similarity] partitions the items whose title
    passes [is_valid_news_title]: the clusters put end to end are a
    permutation of the valid items, every cluster is non-empty, and the
    clusters are built from the numbered valid items so that every
    position of the valid list lies in exactly one cluster, once. *)
Theorem cluster_news_by_similarity_partition (news_items : list NewsItem)
    (similarity_threshold : float) :
  let valid_items :=
    List.filter (fun item => is_valid_news_title (item_title item)) news_items in
  let news_clusters := cluster_news_by_similarity news_items similarity_threshold in
  Permutation (concat news_clusters) valid_items
  /\ Forall (fun cluster => cluster <> []) news_clusters
  /\ exists members : list (list (nat * NewsItem)),
       news_clusters = map (map snd) members
       /\ Permutation (concat members) (enumerate valid_items).
Proof.
  cbv zeta. unfold cluster_news_by_similarity.
  set (valid_items := List.filter _ news_items).
  assert (Hempty : valid_items = [] ->
                   Permutation (concat (@nil (list NewsItem))) valid_items
                   /\ Forall (fun cluster : list NewsItem => cluster <> []) []
                   /\ exists members : list (list (nat * NewsItem)),
                        [] = map (map snd) members
                        /\ Permutation (concat members) (enumerate valid_items)).
  { intros ->. split; [constructor|]. split; [constructor|].
    exists []. split; [reflexivity | constructor]. }
  destruct news_items as [|n0 news_items']; [now apply Hempty|].
  destruct valid_items as [|v0 valid_items'] eqn:Hv; [now apply Hempty|].
  rewrite <- Hv. clear Hempty.
  destruct (seed_fold similarity_threshold valid_items (enumerate valid_items)
              (fun p Hp => Hp) [] ([], ∅)) as (members & Hb & _ & Hall).
  { unfold built_from. simpl. split; [reflexivity|]. split; [constructor|].
    split; [tauto|]. split; [|constructor].
    intros j. split; [intros H; now apply not_elem_of_empty in H | intros []]. }
  destruct (fold_left _ _ _) as [news_clusters used]. cbn [fst snd] in Hb, Hall.
  pose proof (built_from_all valid_items members news_clusters used Hb Hall) as Hperm.
  destruct Hb as (Hcl & _ & _ & _ & Hne).
  assert (Hconcat : concat news_clusters = map snd (concat members))
    by (rewrite Hcl; symmetry; apply concat_map).
  split.
  { rewrite (Permutation_concat _ _ (sort_by_len_desc_Permutation news_clusters)).
    rewrite Hconcat, (Permutation_map snd Hperm).
    unfold enumerate. now rewrite map_snd_enumerate_from. }
  split.
  { rewrite (sort_by_len_desc_Permutation news_clusters), Hcl.
    apply Forall_forall. intros c Hc.
    apply list_elem_of_In, in_map_iff in Hc as (ms & <- & Hms).
    rewrite Forall_forall in Hne. apply list_elem_of_In in Hms. specialize (Hne ms Hms).
    destruct ms; [contradiction | discriminate]. }
  exists (sort_by_len_desc members). split.
  - now rewrite Hcl, sort_by_len_desc_map.
  - now rewrite (Permutation_concat _ _ (sort_by_len_desc_Permutation members)).
Qed.

(* ===================================================================== *)
(** * Dates in ISO form                                                   *)
(* ===================================================================== *)


Lemma flat_map_map {A B C : Type} (f : B -> C) (g : A -> list C) (g' : A -> list B)
    (l : list A) :
  (forall a, g a = map f (g' a)) -> flat_map g l = map f (flat_map g' l).
Proof.
  intros H. induction l as [|a l IH]; simpl; [reflexivity|].
  now rewrite map_app, IH, H.
Qed.

(** Without a year directive the year found so far is only carried along. *)
Lemma matches_set_year (fmt : list directive) :
  no_year fmt = true ->
  forall y y' m d s,
    matches fmt (y, m, d) s = map (set_year y) (matches fmt (y', m, d) s).
Proof.
  induction fmt as [|dir fmt IH]; intros Hn y y' m d s; [reflexivity|].
  destruct dir; cbn [no_year] in Hn; [discriminate| | |]; cbn [matches].
  - apply flat_map_map. intros [v rest]. now apply IH.
  - apply flat_map_map. intros [v rest]. now apply IH.
  - destruct s as [|c' rest]; [reflexivity|].
    destruct (Ascii.eqb c c'); [now apply IH | reflexivity].
Qed.

Lemma years_ok :
  forallb year_digits_ok (map Z.of_nat (seq 1 (Z.to_nat 9999))) = true.
Proof. vm_compute. reflexivity. Qed.

Lemma tails_ok :
  forallb (fun m => forallb (iso_tail_ok (Z.of_nat m)) (map Z.of_nat (seq 1 31)))
          (seq 1 12) = true.
Proof. vm_compute. reflexivity. Qed.

Lemma year_digits (y : Z) : 1 <= y <= 9999 -> year_digits_ok y = true.
Proof.
  intros Hy. pose proof years_ok as H. rewrite forallb_forall in H. apply H.
  apply in_map_iff. exists (Z.to_nat y). split; [lia|]. apply in_seq. lia.
Qed.

Lemma iso_tail_parses (m dd : Z) : 1 <= m <= 12 -> 1 <= dd <= 31 -> iso_tail_ok m dd = true.
Proof.
  intros Hm Hd. pose proof tails_ok as H. rewrite forallb_forall in H.
  specialize (H (Z.to_nat m) ltac:(apply in_seq; lia)).
  rewrite forallb_forall in H. rewrite Z2Nat.id in H by lia. apply H.
  apply in_map_iff. exists (Z.to_nat dd). split; [lia|]. apply in_seq. lia.
Qed.

Lemma days_in_month_le_31 (y m : Z) : days_in_month y m <= 31.
Proof.
  unfold days_in_month.
  destruct (m =? 2); [destruct (is_leap y); lia|].
  destruct (orb _ _); lia.
Qed.

Lemma matches_year_first (fmt : list directive) (f : fields) (a b c e : ascii)
    (rest : string) :
  andb (andb (Py.is_digit a) (Py.is_digit b)) (andb (Py.is_digit c) (Py.is_digit e)) = true ->
  matches (DY :: fmt) f (String a (String b (String c (String e rest))))
  = matches fmt (1000 * digit_val a + 100 * digit_val b + 10 * digit_val c + digit_val e,
                 snd (fst f), snd f) rest.
Proof.
  intros Hdig. destruct f as [[y0 m0] d0].
  cbn [matches four_digits fst snd]. rewrite Hdig. cbn [flat_map]. apply app_nil_r.
Qed.

(** A valid date printed by [isoformat] is ten characters long and is
    read back by the first format. *)
Lemma first_parse_isoformat (d : date) :
  valid (year d) (month d) (day d) = true ->
  first_parse (Py.take 10 (isoformat d)) date_formats = Some d
  /\ isoformat d <> "".
Proof.
  destruct d as [y m dd]. cbn [year month day]. intros Hv.
  assert (Hv' := Hv). unfold valid in Hv'.
  repeat (apply andb_true_iff in Hv' as [Hv' ?]).
  rewrite ?andb_true_iff in *.
  assert (Hy : 1 <= y <= 9999) by lia.
  assert (Hm : 1 <= m <= 12) by lia.
  assert (Hd : 1 <= dd <= 31) by (pose proof (days_in_month_le_31 y m); lia).
  pose proof (year_digits y Hy) as Hyear.
  pose proof (iso_tail_parses m dd Hm Hd) as Htail.
  unfold year_digits_ok in Hyear. unfold iso_tail_ok in Htail.
  change (isoformat (mkdate y m dd)) with (Py.pad0 4 y ++ iso_tail m dd).
  destruct (Py.pad0 4 y) as [|a [|b [|c [|e [|? ?]]]]]; try discriminate Hyear.
  apply andb_true_iff in Hyear as [Hdig Hval]. apply Z.eqb_eq in Hval.
  apply andb_true_iff in Htail as [Hparse Htake]. apply String.eqb_eq in Htake.
  split; [|discriminate].
  change (String a (String b (String c (String e ""))) ++ iso_tail m dd)
    with (String a (String b (String c (String e (iso_tail m dd))))).
  change (Py.take 10 (String a (String b (String c (String e (iso_tail m dd))))))
    with (String a (String b (String c (String e (Py.take 6 (iso_tail m dd)))))).
  rewrite Htake.
  change date_formats
    with ((DY :: tail_format) :: tl date_formats).
  cbn [first_parse]. unfold strptime at 1.
  rewrite (matches_year_first tail_format _ a b c e _ Hdig), Hval. cbn [fst snd].
  rewrite (matches_set_year tail_format eq_refl y 0 1 1).
  destruct (matches tail_format (0, 1, 1) (iso_tail m dd)) as [|[[[y0 m'] d'] rest] l];
    [discriminate Hparse|].
  destruct rest; [|discriminate Hparse].
  apply andb_true_iff in Hparse as [Hm' Hd']. apply Z.eqb_eq in Hm', Hd'. subst m' d'.
  cbn [map set_year]. now rewrite Hv.
Qed.

(** C4, the general form of the divergence: with [max_days = 0], every
    valid date that is not before today, written in ISO form, is reported
    recent; in particular every future date is. *)
Theorem is_date_recent_accepts_dates_after_today (today d : date) :
  valid (year d) (month d) (day d) = true ->
  toordinal today <= toordinal d ->
  fst (is_date_recent today (isoformat d) 0) = true.
Proof.
  intros Hv Hle. destruct (first_parse_isoformat d Hv) as [Hparse Hne].
  unfold is_date_recent.
  destruct (String.eqb (isoformat d) "") eqn:He;
    [apply String.eqb_eq in He; contradiction|].
  destruct (String.eqb _ (isoformat today)); [reflexivity|].
  destruct (Py.any_contains _ _); [reflexivity|].
  destruct (existsb _ time_patterns); [reflexivity|].
  rewrite Hparse. unfold days_between.
  replace (toordinal today - toordinal d <=? 0) with true; [reflexivity|].
  symmetry. apply Z.leb_le. lia.
Qed.

(** C4: the theorem at a concrete input, tomorrow seen from 2026-11-04. *)
Lemma is_date_recent_accepts_dates_after_today_witness :
  fst (is_date_recent (mkdate 2026 11 4) "2026-11-05" 0) = true.
Proof.
  apply (is_date_recent_accepts_dates_after_today (mkdate 2026 11 4) (mkdate 2026 11 5));
    [reflexivity | vm_compute; discriminate].
Defined.

(* ===================================================================== *)
(** * The OpenRouter client: complete behaviour of the retry loop         *)
(* ===================================================================== *)





(** X2. A client configured with a negative [max_retries] contacts the
    backend not even once: it raises the ["Unknown error"] error without
    status. *)
Theorem post_json_negative_retries_sends_nothing (backend : Backend) (max_retries : Z) :
  max_retries < 0 ->
  _post_json backend max_retries
  = ([], Raise (OpenRouterError (JStr "Unknown error") None (JObj []))).
Proof.
  intros Hneg. unfold _post_json.
  replace (Z.to_nat (max_retries + 1)) with O by lia. reflexivity.
Qed.

(** X2: with [max_retries = -1]. *)
Lemma post_json_negative_retries_sends_nothing_witness :
  _post_json (fun _ => HttpSuccess (Some 200) EmptyBody) (-1)
  = ([], Raise (OpenRouterError (JStr "Unknown error") None (JObj []))).
Proof.
  apply (post_json_negative_retries_sends_nothing
           (fun _ => HttpSuccess (Some 200) EmptyBody) (-1)). lia.
Defined.

(* ===================================================================== *)
(** * The OpenRouter client: the event stream                             *)
(* ===================================================================== *)

Section StreamProperties.

Variable json_loads : string -> option Json.

(** X3. A stream that closes before any blank line yields nothing, whatever
    data lines it carried: a frame is only delivered by the blank line
    that follows it. *)
Theorem read_stream_without_blank_line_yields_nothing (status : option Z)
    (lines : list string) :
  Forall not_blank lines ->
  forall data_lines, read_stream json_loads status lines data_lines = ([], Ok tt).
Proof.
  induction 1 as [|bline lines Hb _ IH]; intros data_lines; cbn [read_stream];
    [reflexivity|].
  destruct (String.eqb bline ""); [reflexivity|].
  unfold not_blank in Hb. apply String.eqb_neq in Hb. rewrite Hb.
  destruct (Py.startswith "data:" _); apply IH.
Qed.

(** X4. Lines that are neither blank nor data lines (comments, [event:]
    and [id:] fields, keep-alives) do not change what the stream yields,
    wherever they occur. *)
Theorem read_stream_skips_other_lines (status : option Z) (bline : string)
    (before after : list string) :
  ignored_line bline ->
  forall data_lines,
    read_stream json_loads status (before ++ bline :: after) data_lines
    = read_stream json_loads status (before ++ after) data_lines.
Proof.
  intros Hignored.
  induction before as [|b before IH]; intros data_lines.
  - destruct Hignored as (Hne & Hnb & Hnd). cbn [app read_stream].
    apply String.eqb_neq in Hne, Hnb. now rewrite Hne, Hnb, Hnd.
  - cbn [app read_stream].
    destruct (String.eqb b ""); [reflexivity|].
    destruct (String.eqb (Py.rstrip_char _ b) "").
    + destruct data_lines as [|d ds]; [apply IH|].
      destruct (String.eqb _ "[DONE]"); [reflexivity|].
      destruct (json_loads _) as [obj|]; [|apply IH].
      destruct (match obj with JObj m => _ | _ => None end) as [[]|];
        try reflexivity.
      now rewrite IH.
    + destruct (Py.startswith "data:" (Py.rstrip_char (ascii_of_nat 10) b)); apply IH.
Qed.

(** One iteration of the reading loop. *)
Lemma read_stream_cons (status : option Z) (bline : string) (rest data_lines : list string) :
  read_stream json_loads status (bline :: rest) data_lines
  = if String.eqb bline "" then ([], Ok tt)
    else
      let line := Py.rstrip_char (ascii_of_nat 10) bline in
      if String.eqb line ""
      then
        match data_lines with
        | [] => read_stream json_loads status rest []
        | _ =>
            let chunk :=
              Py.strip (Py.join (String (ascii_of_nat 10) EmptyString) data_lines) in
            if String.eqb chunk "[DONE]" then ([], Ok tt)
            else
              match json_loads chunk with
              | None => read_stream json_loads status rest []
              | Some obj =>
                  let err :=
                    match obj with
                    | JObj m => match members_get "error" m with
                                | Some e => if truthy e then Some e else None
                                | None => None
                                end
                    | _ => None
                    end in
                  match err with
                  | Some (JObj e) =>
                      ([], Raise (mkOpenRouterError
                                    (match members_get "message" e with
                                     | Some msg => msg
                                     | None => JStr "OpenRouter stream error"
                                     end)
                                    status obj))
                  | Some _ => ([], Raise AttributeError)
                  | None =>
                      let '(objs, r) := read_stream json_loads status rest [] in
                      (obj :: objs, r)
                  end
              end
        end
      else if Py.startswith "data:" line
      then read_stream json_loads status rest
                       (data_lines ++ [Py.strip (Py.drop 5 line)])%list
      else read_stream json_loads status rest data_lines.
Proof. reflexivity. Qed.



(** X6. Frames are delivered in order: a run of data lines, each followed
    by a blank line and each decoding to an object without error, yields
    exactly these objects, and reading goes on with the rest of the
    stream. *)
Theorem read_stream_delivers_frames (status : option Z) (data : list string)
    (objs : list Json) (rest : list string) :
  Forall2 (delivers json_loads) data objs ->
  read_stream json_loads status
              (flat_map (fun bline => [bline; blank_line]) data ++ rest) []
  = ((objs ++ fst (read_stream json_loads status rest []))%list,
     snd (read_stream json_loads status rest [])).
Proof.
  induction 1 as [|bline obj data objs Hd _ IH]; cbn [flat_map app].
  - now destruct (read_stream json_loads status rest []).
  - destruct Hd as (Hne & Hline & Hdata & Hdone & Hload & Hok).
    rewrite read_stream_cons. cbv zeta.
    apply String.eqb_neq in Hne, Hline, Hdone. rewrite Hne, Hline, Hdata.
    cbn [app]. rewrite read_stream_cons. cbv zeta.
    change (String.eqb blank_line "") with false. cbv iota.
    change (Py.rstrip_char (ascii_of_nat 10) blank_line) with "".
    change (String.eqb "" "") with true. cbv iota.
    cbn [Py.join]. rewrite Hdone, Hload.
    replace (match obj with
             | JObj m => match members_get "error" m with
                         | Some e => if truthy e then Some e else None
                         | None => None
                         end
             | _ => None
             end) with (@None Json).
    + rewrite IH. reflexivity.
    + destruct obj as [| | | | |m]; try reflexivity. cbn [no_error] in Hok.
      destruct (members_get "error" m) as [e|]; [now rewrite Hok | reflexivity].
Qed.

End StreamProperties.

(** X3: a stream with CR LF line ends never has a blank line for the
    reader, so its frame is not delivered. *)
Lemma read_stream_without_blank_line_yields_nothing_witness :
  let cr := String (ascii_of_nat 13) (String (ascii_of_nat 10) EmptyString) in
  read_stream (fun _ => Some (JObj [])) (Some 200) [("data: {}" ++ cr)%string; cr] []
  = ([], Ok tt).
Proof.
  cbv zeta.
  apply (read_stream_without_blank_line_yields_nothing (fun _ => Some (JObj [])) (Some 200)).
  repeat constructor; unfold not_blank; vm_compute; discriminate.
Defined.

(** X4: a comment line inside a frame. *)
Lemma read_stream_skips_other_lines_witness :
  read_stream (fun _ => Some (JObj [])) (Some 200)
              ["data: {}"; ": keep-alive"; blank_line] []
  = read_stream (fun _ => Some (JObj [])) (Some 200) ["data: {}"; blank_line] [].
Proof.
  apply (read_stream_skips_other_lines (fun _ => Some (JObj [])) (Some 200)
           ": keep-alive" ["data: {}"] [blank_line]).
  unfold ignored_line. repeat split; vm_compute; discriminate.
Defined.


(** X6: two frames and the end marker. *)
Lemma read_stream_delivers_frames_witness :
  read_stream (fun chunk => if String.eqb chunk "1" then Some (JNum 1) else Some (JNum 2))
              (Some 200)
              ["data: 1"; blank_line; "data: 2"; blank_line; "data: [DONE]"; blank_line] []
  = ([JNum 1; JNum 2], Ok tt).
Proof.
  apply (read_stream_delivers_frames
           (fun chunk => if String.eqb chunk "1" then Some (JNum 1) else Some (JNum 2))
           (Some 200) ["data: 1"; "data: 2"] [JNum 1; JNum 2]
           ["data: [DONE]"; blank_line]).
  repeat constructor; vm_compute; discriminate.
Defined.


(* ===================================================================== *)
(** * Citation filtering, continued                                       *)
(* ===================================================================== *)

Lemma filter_filter_same {A : Type} (f : A -> bool) (l : list A) :
  List.filter f (List.filter f l) = List.filter f l.
Proof.
  induction l as [|x l IH]; simpl; [reflexivity|].
  destruct (f x) eqn:Hx; simpl; [now rewrite Hx, IH | exact IH].
Qed.

Lemma removed_of_kept (blocked_domains : list string) (l : list string) :
  Forall (fun u => is_removed blocked_domains u = false) l ->
  removed_of blocked_domains l = [].
Proof.
  induction 1 as [|u l Hu _ IH]; simpl; [reflexivity|].
  unfold is_removed in Hu.
  destruct (removal_reason blocked_domains u); [discriminate Hu | exact IH].
Qed.

Lemma is_removed_false (blocked_domains : list string) (url : string) :
  is_removed blocked_domains url = false ->
  is_video_or_live url = false /\ matched_blocked url blocked_domains = None.
Proof.
  unfold is_removed, removal_reason.
  destruct (is_video_or_live url); [discriminate|].
  destruct (matched_blocked url blocked_domains); [discriminate | now split].
Qed.

(** X7. What [filter_citations] keeps is clean and stays as it is when
    filtered again: no kept URL matches a video or live pattern or a
    blocked domain, and a second pass over the kept URLs removes
    nothing. *)
Theorem filter_citations_idempotent (citations blocked_domains : list string) :
  let filtered := fst (filter_citations citations blocked_domains) in
  Forall (fun url => is_video_or_live url = false
                     /\ matched_blocked url blocked_domains = None) filtered
  /\ filter_citations filtered blocked_domains = (filtered, []).
Proof.
  cbv zeta. rewrite !filter_citations_eq. cbn [fst].
  assert (Hkept : Forall (fun u => is_removed blocked_domains u = false)
                         (List.filter (fun u => negb (is_removed blocked_domains u))
                                      citations)).
  { apply Forall_forall. intros u Hu.
    apply list_elem_of_In, filter_In in Hu as [_ Hu]. now apply negb_true_iff in Hu. }
  split.
  - eapply Forall_impl; [exact Hkept|]. intros u. apply is_removed_false.
  - now rewrite filter_filter_same, (removed_of_kept _ _ Hkept).
Qed.

Lemma flat_map_length_bound {A B : Type} (f : A -> list B) (n : nat) (l : list A) :
  (forall a, (length (f a) <= n)%nat) ->
  (length (flat_map f l) <= n * length l)%nat.
Proof.
  intros Hf. induction l as [|a l IH]; cbn [flat_map length]; [lia|].
  rewrite length_app. specialize (Hf a). lia.
Qed.

(** X8. [extract_citations_from_home_pages] returns at most 40 URLs: at
    most five from each of the first eight preferred sites. *)
Theorem extract_citations_from_home_pages_bound (w : World) (preferred_sites : list string) :
  (length (extract_citations_from_home_pages w preferred_sites) <= 40)%nat.
Proof.
  unfold extract_citations_from_home_pages.
  assert (Hsites : (length (firstn 8 preferred_sites) <= 8)%nat)
    by (rewrite length_firstn; lia).
  etransitivity; [apply (flat_map_length_bound _ 5)|lia].
  intros site. rewrite length_map, length_firstn. lia.
Qed.



(* ===================================================================== *)
(** * Source selection                                                    *)
(* ===================================================================== *)

(** X10. [select_best_source] returns nothing exactly for the empty
    cluster; otherwise it returns a member of the cluster: the first one
    of a preferred domain of the category if there is one, and the first
    member if there is none. *)
Theorem select_best_source_choice (cluster : list NewsItem) (code : string)
    (top_sources : gmap string (list string)) :
  let preferred := default [] (top_sources !! code) in
  (select_best_source cluster code top_sources = None <-> cluster = [])
  /\ forall chosen,
       select_best_source cluster code top_sources = Some chosen ->
       In chosen cluster
       /\ ((exists before after,
               cluster = (before ++ chosen :: after)%list
               /\ Forall (fun item => from_preferred preferred item = false) before
               /\ from_preferred preferred chosen = true)
           \/ (Forall (fun item => from_preferred preferred item = false) cluster
               /\ List.hd_error cluster = Some chosen)).
Proof.
  cbv zeta. unfold select_best_source.
  destruct cluster as [|first_item rest]; [split; [tauto | discriminate]|].
  change (fun item => existsb _ (default [] (top_sources !! code)))
    with (from_preferred (default [] (top_sources !! code))).
  destruct (List.find _ (first_item :: rest)) as [item|] eqn:Hfind.
  - split; [split; discriminate|]. intros chosen [= <-].
    destruct (find_first _ _ _ Hfind) as (before & after & Heq & Hbefore & Hitem).
    split; [apply (find_some _ _ Hfind)|].
    left. exists before, after. repeat split; assumption.
  - split; [split; discriminate|]. intros chosen [= <-].
    split; [now left|]. right. split; [|reflexivity].
    apply Forall_forall. intros x Hx. apply list_elem_of_In in Hx.
    exact (find_none _ _ Hfind x Hx).
Qed.

(* ===================================================================== *)
(** * The taxonomy loader                                                 *)
(* ===================================================================== *)

Lemma load_category_consistent (cluster_id : Z) (t : Taxonomy) (category : Category) :
  taxonomy_consistent t ->
  is_Some (clusters t !! cluster_id) ->
  taxonomy_consistent (load_category cluster_id t category)
  /\ clusters (load_category cluster_id t category) = clusters t
  /\ dom (keywords t) ⊆ dom (keywords (load_category cluster_id t category))
  /\ (iab_code category <> "" ->
      iab_code category ∈ dom (keywords (load_category cluster_id t category))).
Proof.
  intros (Hf & Ht & Hi & He & Hc) Hcid. unfold load_category.
  destruct (String.eqb (iab_code category) "") eqn:Hcode.
  - apply String.eqb_eq in Hcode.
    split; [now repeat split|]. split; [reflexivity|]. split; [reflexivity|].
    intros H. contradiction.
  - apply String.eqb_neq in Hcode. cbn [clusters keywords freshness_filter
      top_sources_only_filter iab_to_cluster].
    split.
    { unfold taxonomy_consistent. cbn [clusters keywords freshness_filter
        top_sources_only_filter iab_to_cluster].
      rewrite !dom_insert_L, Hf, Ht, Hi. repeat split; try reflexivity.
      - rewrite elem_of_union, elem_of_singleton. intros [H | H]; [congruence | contradiction].
      - intros code cid. rewrite lookup_insert.
        case_decide as Heq; [intros [= <-]; exact Hcid | apply Hc]. }
    split; [reflexivity|]. rewrite dom_insert_L.
    split; [apply union_subseteq_r|].
    intros _. apply elem_of_union. left. now apply elem_of_singleton.
Qed.

Lemma load_categories_consistent (cluster_id : Z) (cats : list Category) :
  forall t,
    taxonomy_consistent t ->
    is_Some (clusters t !! cluster_id) ->
    taxonomy_consistent (fold_left (load_category cluster_id) cats t)
    /\ clusters (fold_left (load_category cluster_id) cats t) = clusters t
    /\ dom (keywords t) ⊆ dom (keywords (fold_left (load_category cluster_id) cats t))
    /\ forall category,
         In category cats -> iab_code category <> "" ->
         iab_code category ∈ dom (keywords (fold_left (load_category cluster_id) cats t)).
Proof.
  induction cats as [|c cats IH]; intros t Ht Hcid; cbn [fold_left].
  - split; [exact Ht|]. split; [reflexivity|]. split; [reflexivity|]. intros ? [].
  - destruct (load_category_consistent cluster_id t c Ht Hcid) as (Ht1 & Hcl1 & Hsub1 & Hc1).
    destruct (IH (load_category cluster_id t c) Ht1 ltac:(now rewrite Hcl1))
      as (Ht2 & Hcl2 & Hsub2 & Hc2).
    split; [exact Ht2|]. split; [now rewrite Hcl2|].
    split; [now transitivity (dom (keywords (load_category cluster_id t c)))|].
    intros category [<- | Hin] Hcode; [apply Hsub2, Hc1, Hcode | now apply Hc2].
Qed.

Lemma load_cluster_consistent (t : Taxonomy) (cluster : ClusterEntry) :
  taxonomy_consistent t -> categories_indexed t ->
  taxonomy_consistent (load_cluster t cluster)
  /\ categories_indexed (load_cluster t cluster).
Proof.
  intros Ht Hidx. unfold load_cluster.
  destruct (entry_cluster_id cluster) as [cluster_id|]; [|now split].
  set (info := mkClusterInfo _ _ _).
  set (t1 := mkTaxonomy _ _ _ _ _).
  assert (Ht1 : taxonomy_consistent t1).
  { destruct Ht as (Hf & Htop & Hi & He & Hc).
    unfold taxonomy_consistent, t1. cbn [clusters keywords freshness_filter
      top_sources_only_filter iab_to_cluster].
    repeat split; try assumption.
    intros code cid Hcode. rewrite lookup_insert. case_decide; [now eexists|].
    now apply (Hc code). }
  assert (Hcid : is_Some (clusters t1 !! cluster_id)).
  { unfold t1. cbn [clusters]. rewrite lookup_insert_eq. now eexists. }
  destruct (load_categories_consistent cluster_id (entry_categories cluster) t1 Ht1 Hcid)
    as (Ht2 & Hcl2 & Hsub2 & Hc2).
  split; [exact Ht2|].
  intros cid info' category Hlook Hin Hcode. rewrite Hcl2 in Hlook.
  unfold t1 in Hlook. cbn [clusters] in Hlook. rewrite lookup_insert in Hlook.
  case_decide as Heq.
  - injection Hlook as <-. apply Hc2; assumption.
  - apply Hsub2. unfold t1. cbn [keywords]. exact (Hidx cid info' category Hlook Hin Hcode).
Qed.

(** X11. The dicts [load_iab_taxonomy] returns are consistent, whatever the
    file holds: keywords, freshness flags, top-sources flags and the
    code-to-cluster map have the same keys, the empty code is never a key,
    every code is mapped to a cluster that is loaded, and every category
    with a code of every loaded cluster has its keywords and flags. *)
Theorem load_iab_taxonomy_consistent (w : World) (locale : string) :
  taxonomy_consistent (load_iab_taxonomy w locale)
  /\ categories_indexed (load_iab_taxonomy w locale).
Proof.
  unfold load_iab_taxonomy.
  assert (Hempty : taxonomy_consistent empty_taxonomy /\ categories_indexed empty_taxonomy).
  { split.
    - unfold taxonomy_consistent, empty_taxonomy. cbn. rewrite !dom_empty_L.
      repeat split; try reflexivity; [apply not_elem_of_empty|].
      intros code cid H. now rewrite lookup_empty in H.
    - intros cid info category H. cbn in H. now rewrite lookup_empty in H. }
  destruct (taxonomy_file w (Py.lower locale)) as [data|]; [|exact Hempty].
  revert Hempty. generalize empty_taxonomy as t.
  induction data as [|cluster data IH]; intros t [Ht Hidx]; cbn [fold_left]; [now split|].
  apply IH. now apply load_cluster_consistent.
Qed.

(* ===================================================================== *)
(** * Clustering, continued                                               *)
(* ===================================================================== *)

Lemma insert_by_len_sorted {A : Type} (c : list A) (l : list (list A)) :
  StronglySorted larger_first l -> StronglySorted larger_first (insert_by_len c l).
Proof.
  induction 1 as [|d l Hs IH Hd]; cbn [insert_by_len].
  - constructor; constructor.
  - destruct (Nat.ltb (length c) (length d)) eqn:Hlt.
    + apply Nat.ltb_lt in Hlt. constructor; [exact IH|].
      rewrite (insert_by_len_Permutation c l).
      constructor; [unfold larger_first; lia | exact Hd].
    + apply Nat.ltb_ge in Hlt. constructor; [now constructor|].
      constructor; [exact Hlt|].
      eapply Forall_impl; [exact Hd|]. intros e He. unfold larger_first in *. lia.
Qed.

Lemma sort_by_len_desc_sorted {A : Type} (l : list (list A)) :
  StronglySorted larger_first (sort_by_len_desc l).
Proof.
  induction l as [|c l IH]; cbn [sort_by_len_desc fold_right]; [constructor|].
  now apply insert_by_len_sorted.
Qed.

(** X12. [cluster_news_by_similarity] returns its clusters by decreasing
    size: no cluster is larger than one that comes before it. *)
Theorem cluster_news_by_similarity_sorted (news_items : list NewsItem)
    (similarity_threshold : float) :
  StronglySorted larger_first (cluster_news_by_similarity news_items similarity_threshold).
Proof.
  unfold cluster_news_by_similarity.
  destruct news_items as [|n0 rest]; [constructor|].
  destruct (List.filter _ (n0 :: rest)) as [|v0 valid]; [constructor|].
  destruct (fold_left _ _ _) as [news_clusters used].
  apply sort_by_len_desc_sorted.
Qed.

Lemma absorb_fold_similar (similarity_threshold : float) (item : NewsItem)
    (entries : list (nat * NewsItem)) :
  forall (members : list NewsItem) (used : gset nat),
    Forall (fun other =>
              PrimFloat.leb similarity_threshold
                (calculate_similarity (item_text item) (item_text other) true) = true)
           members ->
    exists members',
      fst (fold_left (absorb_step similarity_threshold item) entries
                     (item :: members, used)) = item :: members'
      /\ Forall (fun other =>
                   PrimFloat.leb similarity_threshold
                     (calculate_similarity (item_text item) (item_text other) true) = true)
                members'.
Proof.
  induction entries as [|[j other] entries IH]; intros members used Hm; cbn [fold_left].
  - exists members. now split.
  - unfold absorb_step at 2. case_bool_decide; [now apply IH|].
    destruct (PrimFloat.leb similarity_threshold _) eqn:Hsim; [|now apply IH].
    change ((item :: members) ++ [other])%list with (item :: (members ++ [other]))%list.
    apply IH. apply Forall_app. split; [exact Hm|]. now constructor.
Qed.

Lemma seed_fold_seeded (similarity_threshold : float) (valid_items : list NewsItem)
    (entries : list (nat * NewsItem)) :
  forall st,
    Forall (seeded similarity_threshold) (fst st) ->
    Forall (seeded similarity_threshold)
           (fst (fold_left (seed_step similarity_threshold valid_items) entries st)).
Proof.
  induction entries as [|[i item] entries IH]; intros [news_clusters used] Hst;
    cbn [fold_left]; [exact Hst|].
  apply IH. unfold seed_step. case_bool_decide; [exact Hst|].
  destruct (absorb_fold_similar similarity_threshold item (enumerate valid_items)
              [] (used ∪ {[ i ]}) ltac:(constructor)) as (members & Heq & Hsim).
  destruct (fold_left _ _ _) as [cluster used'] eqn:Hfold. cbn [fst] in Heq |- *.
  apply Forall_app. split; [exact Hst|]. constructor; [|constructor].
  exists item, members. now split.
Qed.

(** X13. Every cluster [cluster_news_by_similarity] returns starts with its
    seed, and every other member reaches the threshold against the seed
    (on title and snippet, with the entity bonus); members need not be
    similar to each other. *)
Theorem cluster_news_by_similarity_seeded (news_items : list NewsItem)
    (similarity_threshold : float) :
  Forall (seeded similarity_threshold)
         (cluster_news_by_similarity news_items similarity_threshold).
Proof.
  unfold cluster_news_by_similarity.
  destruct news_items as [|n0 rest]; [constructor|].
  destruct (List.filter _ (n0 :: rest)) as [|v0 valid]; [constructor|].
  pose proof (seed_fold_seeded similarity_threshold (v0 :: valid)
                (enumerate (v0 :: valid)) ([], ∅) ltac:(constructor)) as H.
  destruct (fold_left _ _ _) as [news_clusters used]. cbn [fst] in H.
  now rewrite (sort_by_len_desc_Permutation news_clusters).
Qed.

(* ===================================================================== *)
(** * The pipeline: extraction, validation, feed                          *)
(* ===================================================================== *)

Lemma dedupe_news_fold (l : list NewsItem) :
  forall (seen : gset string) (acc : list NewsItem),
    snd (fold_left dedupe_news_step l (seen, acc)) = (acc ++ fresh_items seen l)%list.
Proof.
  induction l as [|item l IH]; intros seen acc; cbn [fold_left fresh_items].
  - now rewrite app_nil_r.
  - unfold dedupe_news_step at 2.
    destruct (andb _ _); rewrite IH; [now rewrite <- app_assoc | reflexivity].
Qed.

Lemma fresh_items_spec (l : list NewsItem) :
  forall seen : gset string,
    NoDup (map item_link (fresh_items seen l))
    /\ Forall (fun item => item_link item <> "" /\ item_link item ∉ seen) (fresh_items seen l)
    /\ sublist (fresh_items seen l) l
    /\ forall item, In item l -> item_link item <> "" -> item_link item ∉ seen ->
                    In (item_link item) (map item_link (fresh_items seen l)).
Proof.
  induction l as [|x l IH]; intros seen; cbn [fresh_items].
  - repeat split; [constructor | constructor | constructor | intros ? []].
  - destruct (andb _ _) eqn:Hc.
    + apply andb_true_iff in Hc as [Hne Hnew].
      apply negb_true_iff, String.eqb_neq in Hne.
      apply negb_true_iff, bool_decide_eq_false in Hnew.
      destruct (IH (seen ∪ {[ item_link x ]})) as (Hnd & Hall & Hsub & Hcov).
      cbn [map]. split.
      { constructor; [|exact Hnd]. intros Hin.
        apply list_elem_of_In, in_map_iff in Hin as (y & Hy & Hyin).
        rewrite Forall_forall in Hall. apply list_elem_of_In in Hyin.
        destruct (Hall y Hyin) as [_ Hy']. apply Hy', elem_of_union. right.
        now apply elem_of_singleton. }
      split.
      { constructor; [now split|]. eapply Forall_impl; [exact Hall|].
        intros y [Hy1 Hy2]. split; [exact Hy1|]. intros H. apply Hy2, elem_of_union.
        now left. }
      split; [now constructor|].
      intros item [<- | Hin] Hi1 Hi2; [now left|].
      destruct (decide (item_link item = item_link x)) as [Heq | Hneq];
        [left; now symmetry|].
      right. apply Hcov; [exact Hin | exact Hi1|].
      rewrite elem_of_union, elem_of_singleton. tauto.
    + destruct (IH seen) as (Hnd & Hall & Hsub & Hcov).
      split; [exact Hnd|]. split; [exact Hall|]. split; [now constructor|].
      intros item [<- | Hin] Hi1 Hi2; [|now apply Hcov].
      apply andb_false_iff in Hc as [Hc | Hc].
      * apply negb_false_iff, String.eqb_eq in Hc. contradiction.
      * apply negb_false_iff, bool_decide_eq_true in Hc. contradiction.
Qed.

Lemma dedupe_news_NoDup (all_news_raw : list NewsItem) :
  NoDup (map item_link (snd (fold_left dedupe_news_step all_news_raw (∅, [])))).
Proof.
  rewrite dedupe_news_fold. cbn [app].
  now destruct (fresh_items_spec all_news_raw ∅) as (Hnd & _).
Qed.

(** X14. The deduplication of the extracted items in [generate_feed] keeps
    a sub-list of the items, in order, in which no link is empty and no
    link occurs twice, and every non-empty link of the input is the link
    of a kept item. *)
Theorem dedupe_news_by_link (all_news_raw : list NewsItem) :
  let all_news := snd (fold_left dedupe_news_step all_news_raw (∅, [])) in
  NoDup (map item_link all_news)
  /\ Forall (fun item => item_link item <> "") all_news
  /\ sublist all_news all_news_raw
  /\ forall item, In item all_news_raw -> item_link item <> "" ->
                  In (item_link item) (map item_link all_news).
Proof.
  cbv zeta. rewrite dedupe_news_fold. cbn [app].
  destruct (fresh_items_spec all_news_raw ∅) as (Hnd & Hall & Hsub & Hcov).
  split; [exact Hnd|]. split.
  { eapply Forall_impl; [exact Hall|]. now intros y [H _]. }
  split; [exact Hsub|].
  intros item Hin Hne. apply Hcov; [exact Hin | exact Hne | apply not_elem_of_empty].
Qed.

Lemma track_discard_samples (log : DiscardLog) (t d r : string) :
  (length (snd log) <= 3)%nat -> (length (snd (track_discard log t d r)) <= 3)%nat.
Proof.
  destruct log as [stats samples]. cbn [snd track_discard]. intros H.
  destruct (Z.of_nat (length samples) <? 3) eqn:Hlt; [|exact H].
  apply Z.ltb_lt in Hlt. rewrite length_app. cbn [length]. lia.
Qed.

Lemma validate_step_ok (w : World) (must_be_fresh : bool) (min_len : Z)
    (v : Validation) (item : NewsItem) :
  validation_ok w must_be_fresh min_len v ->
  validation_ok w must_be_fresh min_len (validate_step w must_be_fresh min_len v item).
Proof.
  intros Hv. destruct Hv as (Hlen & Hall & Hlog & Himg) eqn:Hv'. clear Hv'.
  unfold validate_step.
  destruct (5 <=? Z.of_nat (length (validated_articles v))) eqn:Hfull;
    [exact Hv|].
  apply Z.leb_gt in Hfull.
  set (a0 := fetch_article_content _ _ _).
  set (a1 := if String.eqb (title a0) "" then _ else a0).
  set (a2 := if String.eqb (content a1) "" then _ else a1).
  destruct (content_length a2 <? min_len) eqn:Hshort.
  { repeat split; cbn [validated_articles first_valid_image discard_log];
      try assumption; [now apply track_discard_samples | now apply Himg | now apply Himg]. }
  apply Z.ltb_ge in Hshort.
  destruct (String.eqb (published_date a2) "") eqn:Hdate.
  { repeat split; cbn [validated_articles first_valid_image discard_log];
      try assumption; [now apply track_discard_samples | now apply Himg | now apply Himg]. }
  apply String.eqb_neq in Hdate.
  destruct (is_date_recent (today w) (published_date a2) (if must_be_fresh then 0 else 10))
    as [recent reason] eqn:Hrecent.
  destruct recent; cbn [negb].
  - unfold validation_ok. cbn [validated_articles first_valid_image discard_log].
    rewrite length_app, map_app. cbn [length map]. split; [lia|]. split.
    { apply Forall_app. split; [exact Hall|]. constructor; [|constructor].
      unfold passes. rewrite Hrecent. now repeat split. }
    split; [exact Hlog|].
    intros img. destruct (first_valid_image v) as [i|] eqn:Hi.
    + intros [= <-]. destruct (Himg i eq_refl) as [H1 H2].
      split; [exact H1|]. apply in_app_iff. now left.
    + destruct (andb _ _) eqn:Hc; [|discriminate].
      intros [= <-]. apply andb_true_iff in Hc as [_ Hc]. apply negb_true_iff in Hc.
      split; [exact Hc|]. apply in_app_iff. right. now left.
  - repeat split; cbn [validated_articles first_valid_image discard_log];
      try assumption; [now apply track_discard_samples | now apply Himg | now apply Himg].
Qed.

Lemma validate_fold_ok (w : World) (must_be_fresh : bool) (min_len : Z)
    (items : list NewsItem) (log : DiscardLog) :
  (length (snd log) <= 3)%nat ->
  validation_ok w must_be_fresh min_len
    (fold_left (validate_step w must_be_fresh min_len) items (mkValidation [] None log)).
Proof.
  intros Hlog.
  assert (H0 : validation_ok w must_be_fresh min_len (mkValidation [] None log)).
  { unfold validation_ok. cbn. repeat split; try lia; try constructor; try discriminate;
      try exact Hlog. }
  revert H0. generalize (mkValidation [] None log) as v.
  induction items as [|item items IH]; intros v Hv; cbn [fold_left]; [exact Hv|].
  apply IH. now apply validate_step_ok.
Qed.

(** X15. The validation loop of [generate_feed] keeps at most five
    articles of a cluster, each at least [min_len] long (by
    [content_text_length], or by the length of the content without it),
    with a publication date that [is_date_recent] accepts for the
    freshness of the cluster; the image it picks is that of a kept article
    and is not a placeholder; and at most three discards are kept as
    samples. *)
Theorem validation_loop_invariant (w : World) (must_be_fresh : bool) (min_len : Z)
    (items : list NewsItem) (log : DiscardLog) :
  (length (snd log) <= 3)%nat ->
  validation_ok w must_be_fresh min_len
    (fold_left (validate_step w must_be_fresh min_len) items (mkValidation [] None log)).
Proof. apply validate_fold_ok. Qed.

(** X15: the loop over the one story of [one_story_world], which passes. *)
Lemma validation_loop_invariant_witness :
  (length (snd empty_log) <= 3)%nat
  /\ validation_ok one_story_world false 50
       (fold_left (validate_step one_story_world false 50)
                  [mkNewsItem "Derby won in the last minute" "https://a.it/news/derby" "" "a.it"]
                  (mkValidation [] None empty_log)).
Proof.
  split; [cbn; lia|].
  apply (validation_loop_invariant one_story_world false 50
           [mkNewsItem "Derby won in the last minute" "https://a.it/news/derby" "" "a.it"]
           empty_log).
  cbn; lia.
Defined.

Lemma summarize_ok (w : World) (cluster_id : Z) (locale : string) (must_be_fresh : bool)
    (min_len : Z) (v : Validation) (final_feed : list FeedItem) :
  validation_ok w must_be_fresh min_len v ->
  Forall (feed_item_ok w) final_feed ->
  Forall (feed_item_ok w) (summarize w cluster_id locale v final_feed)
  /\ (length (summarize w cluster_id locale v final_feed) <= length final_feed + 1)%nat.
Proof.
  intros (Hlen & _ & _ & Himg) Hfeed. unfold summarize.
  destruct (validated_articles v) as [|a arts] eqn:Hv; [split; [exact Hfeed | lia]|].
  destruct (call_feed_summary_api w (a :: arts) cluster_id locale) as [[|m ms]|];
    try (split; [exact Hfeed | lia]).
  split; [|rewrite length_app; cbn [length]; lia].
  apply Forall_app. split; [exact Hfeed|]. constructor; [|constructor].
  unfold feed_item_ok. cbn [feed_cluster_size feed_source_domain feed_link
    feed_published_date feed_image].
  rewrite !length_map. split; [cbn [length] in *; lia|].
  split; [reflexivity|]. split; [reflexivity|]. split; [reflexivity|].
  destruct (first_valid_image v) as [img|] eqn:Hi; [|now left].
  right. now destruct (Himg img eq_refl) as [Hp _].
Qed.

Lemma pass1_step_ok (w : World) (cluster_id max_results : Z) (locale : string)
    (must_be_fresh : bool) (min_len_multi : Z) (preferred_domains : list string)
    (st : list FeedItem * DiscardLog) (cluster : list NewsItem) :
  feed_ok w max_results st ->
  feed_ok w max_results
    (pass1_step w cluster_id max_results locale must_be_fresh min_len_multi
                preferred_domains st cluster).
Proof.
  intros Hst. destruct Hst as (Hlen & Hfeed & Hlog) eqn:Hst'. clear Hst'.
  destruct st as [final_feed log]. cbn [fst snd] in *. unfold pass1_step.
  destruct (max_results <=? Z.of_nat (length final_feed)) eqn:Hfull; [exact Hst|].
  apply Z.leb_gt in Hfull.
  pose proof (validate_fold_ok w must_be_fresh min_len_multi
                (sort_by_priority preferred_domains cluster) log Hlog) as Hv.
  destruct (summarize_ok w cluster_id locale must_be_fresh min_len_multi _ final_feed
              Hv Hfeed) as [Hok Hgrow].
  unfold feed_ok. cbn [fst snd]. split; [lia|]. split; [exact Hok|].
  now destruct Hv as (_ & _ & H & _).
Qed.

Lemma pass2_step_ok (w : World) (cluster_id max_results : Z) (locale : string)
    (must_be_fresh : bool) (min_len_multi min_len_single : Z)
    (singles : list (list NewsItem))
    (st : list FeedItem * DiscardLog) (cluster : list NewsItem) :
  feed_ok w max_results st ->
  feed_ok w max_results
    (pass2_step w cluster_id max_results locale must_be_fresh min_len_multi
                min_len_single singles st cluster).
Proof.
  intros Hst. destruct Hst as (Hlen & Hfeed & Hlog) eqn:Hst'. clear Hst'.
  destruct st as [final_feed log]. cbn [fst snd] in *. unfold pass2_step.
  destruct (max_results <=? Z.of_nat (length final_feed)) eqn:Hfull; [exact Hst|].
  apply Z.leb_gt in Hfull.
  destruct cluster as [|item rest]; [exact Hst|].
  set (min_len := if 1 <? Z.of_nat (length (enrich singles item))
                  then min_len_multi else min_len_single).
  pose proof (validate_fold_ok w must_be_fresh min_len
                (enrich singles item) log Hlog) as Hv.
  destruct (summarize_ok w cluster_id locale must_be_fresh min_len _ final_feed
              Hv Hfeed) as [Hok Hgrow].
  unfold feed_ok. cbn [fst snd]. split; [lia|]. split; [exact Hok|].
  now destruct Hv as (_ & _ & H & _).
Qed.

Lemma fold_left_invariant {A B : Type} (P : A -> Prop) (f : A -> B -> A) (l : list B) :
  (forall a b, P a -> P (f a b)) -> forall a, P a -> P (fold_left f l a).
Proof.
  intros Hf. induction l as [|b l IH]; intros a Ha; cbn [fold_left]; [exact Ha|].
  apply IH, Hf, Ha.
Qed.

Lemma generate_feed_pair_ok (w : World) (cluster_id max_results : Z)
    (geo locale : option string) (upto_step : option Z)
    (min_len_multi min_len_single : Z)
    (final_feed : list FeedItem) (news_clusters : list (list NewsItem)) :
  generate_feed w cluster_id max_results geo locale upto_step min_len_multi min_len_single
  = Ok (ReturnPair final_feed news_clusters) ->
  Z.of_nat (length final_feed) <= Z.max 0 max_results
  /\ Forall (feed_item_ok w) final_feed
  /\ exists all_news,
       all_news <> []
       /\ NoDup (map item_link all_news)
       /\ news_clusters = cluster_news_by_similarity all_news 0.25%float.
Proof.
  unfold generate_feed.
  destruct (load_top_sources w (or_else locale LOCALE)) as [top_sources blocked_domains].
  destruct (clusters (load_iab_taxonomy w (or_else locale LOCALE)) !! cluster_id)
    as [info|]; [|discriminate].
  destruct (search_categories _ _ _ _ _ _ _ _ _) as [all_citations | e]; [|discriminate].
  case_bool_decide; [discriminate|].
  destruct (dedupe_citations all_citations) as [|c0 citations] eqn:Hcit; [discriminate|].
  case_bool_decide; [discriminate|].
  set (raw := flat_map _ (firstn 10 (c0 :: citations))).
  pose proof (dedupe_news_NoDup raw) as Hnews.
  destruct (snd (fold_left dedupe_news_step raw (∅, []))) as [|n0 all_news] eqn:Hall;
    [discriminate|].
  case_bool_decide; [discriminate|].
  set (clustered := cluster_news_by_similarity (n0 :: all_news) 0.25%float).
  set (st1 := fold_left _ (List.filter _ clustered) ([], empty_log)).
  assert (Hst1 : feed_ok w max_results st1).
  { apply fold_left_invariant; [intros; now apply pass1_step_ok|].
    unfold feed_ok. cbn. split; [lia|]. split; [constructor | lia]. }
  set (st2 := if andb _ _ then _ else st1).
  assert (Hst2 : feed_ok w max_results st2).
  { unfold st2. destruct (andb _ _); [|exact Hst1].
    apply fold_left_invariant; [intros; now apply pass2_step_ok | exact Hst1]. }
  intros [= <- <-]. destruct Hst2 as (Hlen & Hfeed & _).
  split; [exact Hlen|]. split; [exact Hfeed|].
  exists (n0 :: all_news). split; [discriminate|]. split; [|reflexivity].
  exact Hnews.
Qed.

(** X16. A run of [generate_feed] that reaches its last line returns at
    most [max_results] feed items (none when [max_results] is not
    positive); every item was built from one to five validated articles,
    lists one source domain and one link per article, carries the date of
    the run, and its image is the placeholder image or a URL without the
    word placeholder; and the clusters returned are those of the
    clustering step. *)
Theorem generate_feed_result_bounds (w : World) (cluster_id max_results : Z)
    (geo locale : option string) (upto_step : option Z)
    (min_len_multi min_len_single : Z)
    (final_feed : list FeedItem) (news_clusters : list (list NewsItem)) :
  generate_feed w cluster_id max_results geo locale upto_step min_len_multi min_len_single
  = Ok (ReturnPair final_feed news_clusters) ->
  Z.of_nat (length final_feed) <= Z.max 0 max_results
  /\ Forall (feed_item_ok w) final_feed
  /\ exists all_news,
       all_news <> []
       /\ NoDup (map item_link all_news)
       /\ news_clusters = cluster_news_by_similarity all_news 0.25%float.
Proof. apply generate_feed_pair_ok. Qed.

(** X16: the run for cluster 1 of [one_story_world] returns one feed item. *)
Lemma generate_feed_result_bounds_witness :
  exists final_feed news_clusters,
    generate_feed one_story_world 1 5 None None None 1000 50
    = Ok (ReturnPair final_feed news_clusters)
    /\ length final_feed = 1%nat
    /\ Forall (feed_item_ok one_story_world) final_feed.
Proof.
  eexists. eexists. split; [vm_compute; reflexivity|]. split; [reflexivity|].
  eapply (generate_feed_result_bounds one_story_world 1 5 None None None 1000 50).
  vm_compute. reflexivity.
Defined.

(* ===================================================================== *)
(** * [is_date_recent] on ISO dates                                       *)
(* ===================================================================== *)

Lemma iso_char_lower (c : ascii) : iso_char c = true -> Py.lower_ascii c = c.
Proof.
  destruct c as [[] [] [] [] [] [] [] []]; intros H; try discriminate H; reflexivity.
Qed.

Lemma iso_string_lower (s : string) : iso_string s = true -> Py.lower s = s.
Proof.
  induction s as [|c s IH]; [reflexivity|]. cbn [iso_string Py.lower].
  intros [Hc Hs]%andb_true_iff. now rewrite (iso_char_lower c Hc), IH.
Qed.

Lemma iso_string_lstrip (f : ascii -> bool) (s : string) :
  iso_string s = true -> iso_string (Py.lstrip_with f s) = true.
Proof.
  induction s as [|c s IH]; [reflexivity|]. intros H. cbn [Py.lstrip_with].
  destruct (f c); [|exact H]. apply IH. cbn [iso_string] in H.
  now apply andb_true_iff in H.
Qed.

Lemma iso_string_rev (s : string) :
  forall acc, iso_string acc = true -> iso_string s = true ->
              iso_string (Py.rev_string acc s) = true.
Proof.
  induction s as [|c s IH]; intros acc Hacc Hs; [exact Hacc|].
  cbn [Py.rev_string]. cbn [iso_string] in Hs. apply andb_true_iff in Hs as [Hc Hs].
  apply IH; [|exact Hs]. cbn [iso_string]. now rewrite Hc, Hacc.
Qed.

Lemma iso_string_strip (s : string) : iso_string s = true -> iso_string (Py.strip s) = true.
Proof.
  intros H. unfold Py.strip, Py.rstrip_with.
  apply iso_string_rev; [reflexivity|]. apply iso_string_lstrip.
  apply iso_string_rev; [reflexivity|]. now apply iso_string_lstrip.
Qed.

Lemma iso_string_app (a b : string) :
  iso_string (a ++ b) = andb (iso_string a) (iso_string b).
Proof.
  induction a as [|c a IH]; [reflexivity|].
  change (String c a ++ b)%string with (String c (a ++ b)).
  cbn [iso_string]. now rewrite IH, andb_assoc.
Qed.

Lemma contains_iso_string (kw s : string) :
  starts_with_other kw = true -> iso_string s = true -> Py.contains kw s = false.
Proof.
  destruct kw as [|k kw]; [discriminate|]. cbn [starts_with_other]. intros Hk.
  apply negb_true_iff in Hk.
  induction s as [|c s IH]; [reflexivity|]. cbn [iso_string].
  intros [Hc Hs]%andb_true_iff. cbn [Py.contains Py.startswith].
  rewrite (IH Hs), orb_false_r.
  destruct (Ascii.eqb k c) eqn:Hkc; [|reflexivity].
  apply Ascii.eqb_eq in Hkc. congruence.
Qed.

Lemma needs_other_not_nullable (r : Re.regex) :
  needs_other r = true -> Re.nullable r = false.
Proof.
  induction r as [| |p|r1 IH1 r2 IH2|r1 IH1 r2 IH2|r IH]; cbn [needs_other Re.nullable];
    try discriminate; try reflexivity.
  - intros [H|H]%orb_true_iff; [rewrite (IH1 H) | rewrite (IH2 H)];
      [reflexivity | apply andb_false_r].
  - intros [H1 H2]%andb_true_iff. now rewrite (IH1 H1), (IH2 H2).
Qed.

Lemma needs_other_deriv (c : ascii) (r : Re.regex) :
  iso_char c = true -> needs_other r = true -> needs_other (Re.deriv c r) = true.
Proof.
  intros Hc. induction r as [| |p|r1 IH1 r2 IH2|r1 IH1 r2 IH2|r IH];
    cbn [needs_other Re.deriv]; try discriminate; try reflexivity.
  - intros H. rewrite forallb_forall in H.
    assert (Hin : In c iso_chars).
    { unfold iso_char in Hc. apply existsb_exists in Hc as (x & Hx & Hcx).
      apply Ascii.eqb_eq in Hcx. now subst x. }
    specialize (H c Hin). apply negb_true_iff in H. now rewrite H.
  - intros H. destruct (Re.nullable r1) eqn:Hn.
    + destruct (needs_other r1) eqn:H1.
      * rewrite (needs_other_not_nullable r1 H1) in Hn. discriminate Hn.
      * cbn [orb] in H. cbn [needs_other]. rewrite H, (IH2 H), orb_true_r. reflexivity.
    + cbn [needs_other]. destruct (needs_other r1); [now rewrite IH1 | cbn [orb] in H].
      rewrite H. apply orb_true_r.
  - intros [H1 H2]%andb_true_iff. now rewrite (IH1 H1), (IH2 H2).
Qed.

Lemma match_prefix_iso_string (s : string) :
  forall r, needs_other r = true -> iso_string s = true -> Re.match_prefix r s = false.
Proof.
  induction s as [|c s IH]; intros r Hr Hs; cbn [Re.match_prefix];
    rewrite (needs_other_not_nullable r Hr); [reflexivity|].
  cbn [iso_string] in Hs. apply andb_true_iff in Hs as [Hc Hs]. cbn [orb].
  apply IH; [now apply needs_other_deriv | exact Hs].
Qed.

Lemma search_iso_string (r : Re.regex) (s : string) :
  needs_other r = true -> iso_string s = true -> Re.search r s = false.
Proof.
  intros Hr. induction s as [|c s IH]; intros Hs; cbn [Re.search];
    rewrite (match_prefix_iso_string _ r Hr Hs); [reflexivity|].
  cbn [iso_string] in Hs. apply andb_true_iff in Hs as [_ Hs]. now apply IH.
Qed.

Lemma iso_tails :
  forallb (fun m => forallb (fun dd => iso_string (iso_tail (Z.of_nat m) (Z.of_nat dd)))
                            (seq 1 31))
          (seq 1 12) = true.
Proof. vm_compute. reflexivity. Qed.

(** The ISO form of a valid date is ten digits and dashes. *)
Lemma isoformat_shape (d : date) :
  valid (year d) (month d) (day d) = true ->
  iso_string (isoformat d) = true /\ Py.take 10 (isoformat d) = isoformat d.
Proof.
  destruct d as [y m dd]. cbn [year month day]. intros Hv.
  unfold valid in Hv. repeat (apply andb_true_iff in Hv as [Hv ?]).
  rewrite ?andb_true_iff in *.
  assert (Hy : 1 <= y <= 9999) by lia.
  assert (Hm : 1 <= m <= 12) by lia.
  assert (Hd : 1 <= dd <= 31) by (pose proof (days_in_month_le_31 y m); lia).
  pose proof (year_digits y Hy) as Hyear.
  pose proof (iso_tail_parses m dd Hm Hd) as Htail.
  unfold year_digits_ok in Hyear. unfold iso_tail_ok in Htail.
  assert (Hplain : iso_string (iso_tail m dd) = true).
  { pose proof iso_tails as Ht. rewrite forallb_forall in Ht.
    specialize (Ht (Z.to_nat m) ltac:(apply in_seq; lia)).
    rewrite forallb_forall in Ht.
    specialize (Ht (Z.to_nat dd) ltac:(apply in_seq; lia)).
    now rewrite !Z2Nat.id in Ht by lia. }
  change (isoformat (mkdate y m dd)) with (Py.pad0 4 y ++ iso_tail m dd).
  destruct (Py.pad0 4 y) as [|a [|b [|c [|e [|? ?]]]]]; try discriminate Hyear.
  apply andb_true_iff in Hyear as [Hdig _].
  apply andb_true_iff in Htail as [_ Htake]. apply String.eqb_eq in Htake.
  change (String a (String b (String c (String e ""))) ++ iso_tail m dd)
    with (String a (String b (String c (String e (iso_tail m dd))))).
  split.
  - cbn [iso_string]. rewrite Hplain.
    assert (Hdc : forall x, Py.is_digit x = true -> iso_char x = true).
    { intros x. destruct x as [[] [] [] [] [] [] [] []]; intros Hx;
        try discriminate Hx; reflexivity. }
    rewrite !andb_true_iff in Hdig. destruct Hdig as [[Ha Hb] [Hc He]].
    now rewrite (Hdc a Ha), (Hdc b Hb), (Hdc c Hc), (Hdc e He).
  - change (Py.take 10 (String a (String b (String c (String e (iso_tail m dd))))))
      with (String a (String b (String c (String e (Py.take 6 (iso_tail m dd)))))).
    now rewrite Htake.
Qed.

(** X17. For valid dates, [is_date_recent] reports a date given in ISO
    form recent exactly when it is today or at most [max_days] days back
    (dates after today included): no keyword and no time expression
    matches such a string, and the first format parses it. *)
Theorem is_date_recent_iso_date (today d : date) (max_days : Z) :
  valid (year today) (month today) (day today) = true ->
  valid (year d) (month d) (day d) = true ->
  fst (is_date_recent today (isoformat d) max_days) = true
  <-> d = today \/ days_between today d <= max_days.
Proof.
  intros Hvt Hvd.
  destruct (first_parse_isoformat d Hvd) as [Hparse Hne].
  destruct (first_parse_isoformat today Hvt) as [Hparse_t _].
  destruct (isoformat_shape d Hvd) as [Hiso Htake].
  destruct (isoformat_shape today Hvt) as [_ Htake_t].
  unfold is_date_recent.
  destruct (String.eqb (isoformat d) "") eqn:He;
    [apply String.eqb_eq in He; contradiction|].
  destruct (String.eqb (Py.take 10 (isoformat d)) (isoformat today)) eqn:Hexact.
  { apply String.eqb_eq in Hexact. split; [intros _; left | reflexivity].
    rewrite Htake_t in Hparse_t. rewrite Hexact, Hparse_t in Hparse. congruence. }
  assert (Hlow : iso_string (Py.strip (Py.lower (isoformat d))) = true).
  { apply iso_string_strip. now rewrite (iso_string_lower _ Hiso). }
  replace (Py.any_contains today_keywords (Py.strip (Py.lower (isoformat d)))) with false.
  2:{ symmetry. unfold Py.any_contains. apply not_true_is_false.
      intros (kw & Hin & Hc)%existsb_exists.
      rewrite contains_iso_string in Hc; [discriminate Hc| |exact Hlow].
      assert (Hall : forallb starts_with_other today_keywords = true) by reflexivity.
      rewrite forallb_forall in Hall. now apply Hall. }
  replace (existsb _ time_patterns) with false.
  2:{ symmetry. apply not_true_is_false.
      intros (r & Hin & Hc)%existsb_exists.
      rewrite search_iso_string in Hc; [discriminate Hc| |exact Hlow].
      assert (Hall : forallb needs_other time_patterns = true) by reflexivity.
      rewrite forallb_forall in Hall. now apply Hall. }
  rewrite Hparse.
  destruct (days_between today d <=? max_days) eqn:Hdays; cbn [fst].
  - apply Z.leb_le in Hdays. split; [now right | reflexivity].
  - apply Z.leb_gt in Hdays. split; [discriminate|].
    intros [-> | Hle]; [|lia].
    rewrite Htake_t, String.eqb_refl in Hexact. discriminate Hexact.
Qed.

(** X17: a date twelve days back, seen from 2026-11-04 with ten days allowed. *)
Lemma is_date_recent_iso_date_witness :
  fst (is_date_recent (mkdate 2026 11 4) "2026-10-23" 10) = false.
Proof.
  apply not_true_is_false. intros H.
  apply (is_date_recent_iso_date (mkdate 2026 11 4) (mkdate 2026 10 23) 10) in H;
    [|reflexivity|reflexivity].
  destruct H as [H | H]; [discriminate H | vm_compute in H; now apply H].
Defined.

(** X26. Allowing more days never turns a recent date into an old one:
    whatever the string, if [is_date_recent] accepts it for [max_days] it
    accepts it for every larger bound. *)
Theorem is_date_recent_monotone (today : date) (date_str : string) (max_days max_days' : Z) :
  max_days <= max_days' ->
  fst (is_date_recent today date_str max_days) = true ->
  fst (is_date_recent today date_str max_days') = true.
Proof.
  intros Hle. unfold is_date_recent.
  destruct (String.eqb date_str ""); [exact (fun H => H)|].
  destruct (String.eqb _ (isoformat today)); [reflexivity|].
  destruct (Py.any_contains _ _); [reflexivity|].
  destruct (existsb _ time_patterns); [reflexivity|].
  destruct (first_parse _ date_formats) as [parsed_date|]; [|exact (fun H => H)].
  destruct (days_between today parsed_date <=? max_days) eqn:Hd; [|discriminate].
  intros _. apply Z.leb_le in Hd.
  replace (days_between today parsed_date <=? max_days') with true; [reflexivity|].
  symmetry. apply Z.leb_le. lia.
Qed.

(** X26: five days back, with five and with ten days allowed. *)
Lemma is_date_recent_monotone_witness :
  fst (is_date_recent (mkdate 2026 11 4) "30/10/2026" 10) = true.
Proof.
  apply (is_date_recent_monotone (mkdate 2026 11 4) "30/10/2026" 5 10);
    [lia | vm_compute; reflexivity].
Defined.

(* ===================================================================== *)
(** * The shape of a fetched article                                      *)
(* ===================================================================== *)

Lemma length_take (n : nat) (s : string) :
  String.length (Py.take n s) = Nat.min n (String.length s).
Proof.
  revert s. induction n as [|n IH]; intros [|c s]; cbn [Py.take String.length Nat.min];
    try reflexivity. now rewrite IH.
Qed.

Lemma length_escape_quotes (s : string) :
  (String.length (escape_quotes s) <= 2 * String.length s)%nat.
Proof.
  induction s as [|c s IH]; cbn [escape_quotes String.length]; [lia|].
  destruct (Ascii.eqb c _); cbn [String.length]; lia.
Qed.

Lemma first_date_length (vals : list string) (v : string) :
  first_date vals = Some v -> Py.len v = 10.
Proof.
  unfold first_date. destruct (List.find _ vals) as [v0|] eqn:Hfind; [|discriminate].
  intros Hv. assert (Heq : v = Py.take 10 v0) by congruence. clear Hv.
  apply find_some in Hfind as [_ H].
  apply andb_true_iff in H as [_ H]. apply Z.leb_le in H.
  unfold Py.len in *. rewrite Heq, length_take. lia.
Qed.

Lemma raw_content_length (s : string) :
  0 <= Py.len (escape_quotes (Py.take (Z.to_nat 3000) s)) <= 6000.
Proof.
  unfold Py.len. pose proof (length_escape_quotes (Py.take (Z.to_nat 3000) s)) as H.
  rewrite length_take in H. lia.
Qed.

Ltac shape_leaf :=
  step_try; unfold article_shape; step_try;
  split; [reflexivity|];
  split; [first [now left | right; eapply first_date_length; eassumption]|];
  intros n Hn; first [discriminate Hn | injection Hn as <-; apply raw_content_length].

Lemma parse_into_article_shape (fmt : string -> string) (resp : HttpResponse)
    (url : string) :
  article_shape (fst (parse_into_article fmt resp (default_article url))).
Proof.
  destruct resp as [code [[t img dv desc blocks] | e0]];
    unfold parse_into_article; [|shape_leaf].
  destruct t as [[t|] | et]; [| |shape_leaf];
    (destruct img as [[img|] | ei]; [| |shape_leaf];
     (destruct dv as [dv | ed];
        [step_try; destruct (first_date dv) eqn:Hdate | shape_leaf];
      (destruct desc as [[desc|] | ede]; [| |shape_leaf];
       (destruct blocks as [blocks | eb]; shape_leaf)))).
Qed.

(** X18. Whatever the page and wherever the parsing stops,
    [fetch_article_content] returns an article whose subtitle equals its
    title, whose publication date is empty or exactly ten characters long,
    and whose [content_text_length], when present, is at most 6000: the
    text is cut to 3000 characters before each double quote is escaped
    into two characters. *)
Theorem fetch_article_content_shape (fmt : string -> string)
    (http_get : string -> outcome HttpResponse) (url : string) :
  article_shape (fetch_article_content fmt http_get url).
Proof.
  unfold fetch_article_content.
  destruct (http_get url) as [r | e]; [|shape_leaf].
  destruct (negb (status_code r =? 200)); [shape_leaf|].
  apply parse_into_article_shape.
Qed.

(* ===================================================================== *)
(** * Configuration: the preferred sources                                *)
(* ===================================================================== *)

Lemma load_sites_fold (cats : list (string * list string)) :
  forall (sources : gmap string (list string)) (code : string) (sites : list string),
    fold_left load_sites cats sources !! code = Some sites ->
    sources !! code = Some sites
    \/ (code <> "" /\ sites <> [] /\ In (code, sites) cats).
Proof.
  induction cats as [|[c ss] cats IH]; intros sources code sites H;
    cbn [fold_left] in H; [now left|].
  apply IH in H as [H | (H1 & H2 & H3)]; [|right; repeat split; auto; now right].
  unfold load_sites in H.
  destruct (andb (negb (String.eqb c "")) (negb (Nat.eqb (length ss) 0))) eqn:Hc;
    [|now left].
  apply andb_true_iff in Hc as [Hc1 Hc2].
  apply negb_true_iff in Hc1, Hc2. apply String.eqb_neq in Hc1. apply Nat.eqb_neq in Hc2.
  destruct (decide (c = code)) as [-> | Hne].
  - rewrite lookup_insert_eq in H. injection H as ->. right.
    split; [exact Hc1|]. split; [|now left]. intros ->. now apply Hc2.
  - rewrite lookup_insert_ne in H by exact Hne. now left.
Qed.

(** X19. Every entry of the sources [load_top_sources] returns comes from
    the file of the locale: its code is not empty, its list of sites is not
    empty, and the file has a category with that code and those sites. *)
Theorem load_top_sources_entries (w : World) (locale code : string) (sites : list string) :
  fst (load_top_sources w locale) !! code = Some sites ->
  code <> "" /\ sites <> []
  /\ exists data, top_sources_file w (Py.lower locale) = Some data
                  /\ In (code, sites) (file_categories data).
Proof.
  unfold load_top_sources.
  destruct (top_sources_file w (Py.lower locale)) as [data|]; cbn [fst];
    [|now rewrite lookup_empty].
  intros [H | (H1 & H2 & H3)]%load_sites_fold; [now rewrite lookup_empty in H|].
  split; [exact H1|]. split; [exact H2|]. now exists data.
Qed.

(** X19: the one entry of the sources of [one_story_world]. *)
Lemma load_top_sources_entries_witness :
  fst (load_top_sources one_story_world "IT") !! "IAB17" = Some ["a.it"]
  /\ "IAB17" <> "" /\ ["a.it"] <> [].
Proof.
  assert (H : fst (load_top_sources one_story_world "IT") !! "IAB17" = Some ["a.it"])
    by (vm_compute; reflexivity).
  split; [exact H|].
  destruct (load_top_sources_entries one_story_world "IT" "IAB17" ["a.it"] H)
    as (H1 & H2 & _).
  now split.
Defined.

(* ===================================================================== *)
(** * The OpenRouter client: retries of the streaming call                *)
(* ===================================================================== *)





(* ===================================================================== *)
(** * The scheduler                                                       *)
(* ===================================================================== *)

Lemma invoke_all_sent (invoke : SchedulerLambda.Body -> outcome unit)
    (l : list SchedulerLambda.Body) :
  match SchedulerLambda.invoke_all invoke l with
  | (sent, Ok _) => sent = l
  | (sent, Raise e) =>
      exists before b after,
        l = (before ++ b :: after)%list /\ sent = (before ++ [b])%list
        /\ invoke b = Raise e
  end.
Proof.
  induction l as [|b l IH]; cbn [SchedulerLambda.invoke_all]; [reflexivity|].
  destruct (invoke b) as [u | e] eqn:Hb.
  - destruct (SchedulerLambda.invoke_all invoke l) as [sent [u' | e]].
    + now rewrite IH.
    + destruct IH as (before & b' & after & -> & -> & Hb').
      now exists (b :: before), b', after.
  - now exists [], b, l.
Qed.

Lemma bodies_length (p : SchedulerLambda.Payload) :
  length (SchedulerLambda.bodies p)
  = (length (SchedulerLambda.payload_clusters p)
     * length (SchedulerLambda.payload_locales p))%nat.
Proof.
  unfold SchedulerLambda.bodies. apply flat_map_constant_length.
  intros x _. apply length_map.
Qed.

Lemma bodies_locales (p : SchedulerLambda.Payload) (b : SchedulerLambda.Body) :
  In b (SchedulerLambda.bodies p) ->
  SchedulerLambda.body_geo b = SchedulerLambda.body_locale b
  /\ In (SchedulerLambda.body_locale b) (SchedulerLambda.payload_locales p)
  /\ In (SchedulerLambda.body_cluster_id b) (SchedulerLambda.payload_clusters p).
Proof.
  unfold SchedulerLambda.bodies. intros (c & Hc & Hb)%in_flat_map.
  apply in_map_iff in Hb as (l & <- & Hl). now repeat split.
Qed.

Lemma first_bad_locale_spec (locales : list string) :
  match SchedulerLambda.first_bad_locale locales with
  | Some locale =>
      Exists (fun locale => ~ In (Py.lower locale) SchedulerLambda.supported_locales) locales
  | None =>
      forall locale, In locale locales ->
                     In (Py.lower locale) SchedulerLambda.supported_locales
  end.
Proof.
  unfold SchedulerLambda.first_bad_locale.
  destruct (List.find _ locales) as [bad|] eqn:Hfind.
  - apply find_some in Hfind as [Hin Hbad]. apply negb_true_iff in Hbad.
    apply Exists_exists. exists bad. split; [now apply list_elem_of_In|].
    intros Hsup. apply not_true_iff_false in Hbad. apply Hbad.
    apply existsb_exists. exists (Py.lower bad). split; [exact Hsup|].
    apply String.eqb_refl.
  - intros locale Hin. pose proof (find_none _ _ Hfind locale Hin) as H.
    apply negb_false_iff, existsb_exists in H as (x & Hx & Heq).
    apply String.eqb_eq in Heq. now subst x.
Qed.

(** X21. The scheduler validates before it invokes.  A refused payload (no
    cluster, no locale, or a locale that is not it, en, es or fr in any
    letter case) is answered with status 400 and nothing is invoked, even
    when the bad locale is the last one.  Otherwise one invocation is made
    per cluster and locale, clusters outermost, with [geo] equal to the
    locale; when all of them return the answer is status 202 with
    [invoked] equal to the number of invocations made, and when one raises
    the handler raises that exception right after it. *)
Theorem scheduler_handler_accounting (invoke : SchedulerLambda.Body -> outcome unit)
    (p : SchedulerLambda.Payload) :
  match SchedulerLambda.handler invoke p with
  | (sent, Ok response) =>
      (SchedulerLambda.statusCode response = 400 /\ sent = [] /\ refused p)
      \/ (SchedulerLambda.statusCode response = 202
          /\ ~ refused p
          /\ sent = SchedulerLambda.bodies p
          /\ SchedulerLambda.body response
             = JObj [("invoked", JNum (Z.of_nat (length sent)))]
          /\ Forall (fun b => SchedulerLambda.body_geo b = SchedulerLambda.body_locale b
                              /\ In (Py.lower (SchedulerLambda.body_locale b))
                                    SchedulerLambda.supported_locales)
                    sent)
  | (sent, Raise e) =>
      ~ refused p
      /\ exists before b after,
           SchedulerLambda.bodies p = (before ++ b :: after)%list
           /\ sent = (before ++ [b])%list
           /\ invoke b = Raise e
  end.
Proof.
  unfold SchedulerLambda.handler.
  destruct (SchedulerLambda.payload_clusters p) as [|c cs] eqn:Hcs.
  { left. split; [reflexivity|]. split; [reflexivity|]. left. exact Hcs. }
  destruct (SchedulerLambda.payload_locales p) as [|l ls] eqn:Hls.
  { left. split; [reflexivity|]. split; [reflexivity|]. right. left. exact Hls. }
  pose proof (first_bad_locale_spec (l :: ls)) as Hbad.
  destruct (SchedulerLambda.first_bad_locale (l :: ls)) as [bad|].
  { left. split; [reflexivity|]. split; [reflexivity|]. right. right.
    rewrite Hls. exact Hbad. }
  assert (Hok : ~ refused p).
  { intros [H | [H | H]]; [congruence | congruence |].
    rewrite Hls in H. apply Exists_exists in H as (x & Hx & Hnot).
    apply Hnot, Hbad. now apply list_elem_of_In. }
  pose proof (invoke_all_sent invoke (SchedulerLambda.bodies p)) as Hsent.
  destruct (SchedulerLambda.invoke_all invoke (SchedulerLambda.bodies p))
    as [sent [u | e]].
  - right. subst sent. split; [reflexivity|]. split; [exact Hok|].
    split; [reflexivity|]. split.
    + cbn [SchedulerLambda.body]. rewrite bodies_length, Hcs, Hls.
      now rewrite Nat2Z.inj_mul.
    + apply Forall_forall. intros b Hb. apply list_elem_of_In in Hb.
      destruct (bodies_locales p b Hb) as (Hgeo & Hloc & _).
      split; [exact Hgeo|]. apply Hbad. now rewrite <- Hls.
  - split; [exact Hok | exact Hsent].
Qed.

(* ===================================================================== *)
(** * The summary cache of the correlator                                 *)
(* ===================================================================== *)

(** X22. [get_summary_cached] changes the cache only by filing the summary
    it returns under the URL asked for.  A call that returns nothing
    leaves the cache as it was (failures are not cached); a call that
    returns a summary leaves every other URL as it was, and from then on
    every call for that URL returns the same summary without changing the
    cache, whatever the network, the cluster and the locale; and a cache
    in which every summary is filed under its own link stays so. *)
Theorem get_summary_cached_cache (md5_hexdigest : string -> string) (w : World)
    (summary_cache : gmap string NewsCorrelator.Summary) (url : string)
    (cluster_id : Z) (locale : string) :
  let '(cache', result) :=
    NewsCorrelator.get_summary_cached md5_hexdigest w summary_cache url cluster_id locale in
  match result with
  | None => cache' = summary_cache
  | Some r =>
      cache' !! url = Some r
      /\ (forall other, other <> url -> cache' !! other = summary_cache !! other)
      /\ (forall w' cluster_id' locale',
            NewsCorrelator.get_summary_cached md5_hexdigest w' cache' url cluster_id' locale'
            = (cache', Some r))
      /\ (cache_ok md5_hexdigest summary_cache -> cache_ok md5_hexdigest cache')
  end.
Proof.
  unfold NewsCorrelator.get_summary_cached at 1.
  destruct (summary_cache !! url) as [cached|] eqn:Hhit.
  { split; [exact Hhit|]. split; [reflexivity|]. split; [|tauto].
    intros w' c' l'. unfold NewsCorrelator.get_summary_cached. now rewrite Hhit. }
  destruct (String.eqb _ ""); [reflexivity|].
  destruct (call_feed_summary_api w _ cluster_id locale) as [[|m ms]|];
    try reflexivity.
  set (r := NewsCorrelator.mkSummary _ _ _ _ _ _ _ _).
  split; [apply lookup_insert_eq|].
  split; [intros other Hne; now apply lookup_insert_ne|].
  split.
  - intros w' c' l'. unfold NewsCorrelator.get_summary_cached.
    now rewrite lookup_insert_eq.
  - intros Hok u r' Hr'. destruct (decide (url = u)) as [<- | Hne].
    + rewrite lookup_insert_eq in Hr'. injection Hr' as <-. now split.
    + rewrite lookup_insert_ne in Hr' by exact Hne. now apply Hok.
Qed.

(* ===================================================================== *)
(** * URLs                                                                *)
(* ===================================================================== *)

Lemma string_app_assoc (a b c : string) : ((a ++ b) ++ c = a ++ (b ++ c))%string.
Proof.
  induction a as [|x a IH]; [reflexivity|].
  change (String x a ++ b)%string with (String x (a ++ b)).
  change (String x (a ++ b) ++ c)%string with (String x ((a ++ b) ++ c)).
  change (String x a ++ (b ++ c))%string with (String x (a ++ (b ++ c))).
  now rewrite IH.
Qed.

Lemma endswith_slash (a : string) : Py.endswith "/" (a ++ "/") = true.
Proof.
  unfold Py.endswith.
  assert (Hlen : String.length (a ++ "/") = S (String.length a)).
  { induction a as [|x a IH]; [reflexivity|].
    change (String x a ++ "/")%string with (String x (a ++ "/")).
    cbn [String.length]. now rewrite IH. }
  rewrite Hlen. cbn [String.length Nat.leb].
  replace (S (String.length a) - 1)%nat with (String.length a) by lia.
  clear Hlen. induction a as [|x a IH]; [reflexivity|].
  change (String x a ++ "/")%string with (String x (a ++ "/")).
  cbn [String.length Py.drop]. exact IH.
Qed.

(** X23. A parent URL returned by [get_parent_url] always ends with a
    slash, so it is never empty. *)
Theorem get_parent_url_trailing_slash (url parent_url : string) :
  get_parent_url url = Some parent_url ->
  Py.endswith "/" parent_url = true /\ parent_url <> "".
Proof.
  unfold get_parent_url. destruct (Url.urlparse url) as [parsed|]; [|discriminate].
  destruct (orb _ _); [discriminate|].
  set (parent_path := Py.join "/" _).
  intros H. assert (Hshape : exists a, parent_url = (a ++ "/")%string).
  { destruct (String.eqb parent_path "").
    - exists (Url.scheme parsed ++ "://" ++ Url.netloc parsed)%string.
      injection H as <-. now rewrite !string_app_assoc.
    - exists (Url.scheme parsed ++ "://" ++ Url.netloc parsed ++ parent_path)%string.
      injection H as <-. now rewrite !string_app_assoc. }
  destruct Hshape as [a ->]. split; [apply endswith_slash|].
  destruct a; discriminate.
Qed.

(** X23: the example of the docstring. *)
Lemma get_parent_url_trailing_slash_witness :
  get_parent_url "https://site.com/sport/calcio/article"
  = Some "https://site.com/sport/calcio/"
  /\ Py.endswith "/" "https://site.com/sport/calcio/" = true.
Proof.
  assert (H : get_parent_url "https://site.com/sport/calcio/article"
              = Some "https://site.com/sport/calcio/") by (vm_compute; reflexivity).
  split; [exact H|].
  now destruct (get_parent_url_trailing_slash _ _ H).
Defined.

Lemma rev_string_app (a b acc : string) :
  Py.rev_string acc (a ++ b) = Py.rev_string (Py.rev_string acc a) b.
Proof.
  revert acc. induction a as [|x a IH]; intros acc; [reflexivity|].
  change (String x a ++ b)%string with (String x (a ++ b)).
  cbn [Py.rev_string]. apply IH.
Qed.

Lemma rstrip_char_slash (base : string) :
  Py.rstrip_char "/" (base ++ "/") = Py.rstrip_char "/" base.
Proof.
  unfold Py.rstrip_char, Py.rstrip_with. rewrite rev_string_app.
  cbn [Py.rev_string Py.lstrip_with]. reflexivity.
Qed.

(** X24. [_url] joins the base URL and the path with exactly one slash
    between them: a trailing slash on the base and a leading slash on the
    path make no difference. *)
Theorem url_join_ignores_slashes (base_url path : string) :
  Py.startswith "/" path = false ->
  _url (base_url ++ "/") ("/" ++ path) = _url base_url path
  /\ _url base_url path = (Py.rstrip_char "/" base_url ++ "/" ++ path)%string.
Proof.
  intros Hpath. unfold _url. rewrite rstrip_char_slash, Hpath.
  change (Py.startswith "/" ("/" ++ path)) with true. now split.
Qed.

(** X24: the chat completions endpoint. *)
Lemma url_join_ignores_slashes_witness :
  _url "https://openrouter.ai/api/v1/" "/chat/completions"
  = "https://openrouter.ai/api/v1/chat/completions".
Proof.
  destruct (url_join_ignores_slashes "https://openrouter.ai/api/v1" "chat/completions"
              eq_refl) as [H1 H2].
  change ("https://openrouter.ai/api/v1/")
    with ("https://openrouter.ai/api/v1" ++ "/")%string.
  change ("/chat/completions") with ("/" ++ "chat/completions")%string.
  rewrite H1, H2. reflexivity.
Defined.

(* ===================================================================== *)
(** * The feed a cluster run returns                                      *)
(* ===================================================================== *)

(** X25. When [process_cluster] returns a feed, [generate_feed] ran to its
    last line with the thresholds of 1000 characters, and the feed has at
    most [max_results] items, each built from one to five validated
    articles. *)
Theorem process_cluster_feed_bounds (w : World) (cluster_id max_results : Z)
    (geo locale : string) (feed : list FeedItem) :
  process_cluster w cluster_id max_results geo locale = Ok feed ->
  (exists news_clusters,
      generate_feed w cluster_id max_results (Some geo) (Some locale) None 1000 1000
      = Ok (ReturnPair feed news_clusters))
  /\ Z.of_nat (length feed) <= Z.max 0 max_results
  /\ Forall (feed_item_ok w) feed.
Proof.
  unfold process_cluster.
  destruct (generate_feed w cluster_id max_results (Some geo) (Some locale) None 1000 1000)
    as [[|final_feed news_clusters] | e] eqn:Hgen; cbn [unpack_pair]; try discriminate.
  intros [= <-].
  destruct (generate_feed_pair_ok _ _ _ _ _ _ _ _ _ _ Hgen) as (Hlen & Hfeed & _).
  split; [now exists news_clusters|]. now split.
Qed.

(** X25: the run for cluster 1 of [one_story_world], whose one story is
    shorter than 1000 characters. *)
Lemma process_cluster_feed_bounds_witness :
  process_cluster one_story_world 1 5 "IT" "IT" = Ok []
  /\ Z.of_nat (length (@nil FeedItem)) <= Z.max 0 5.
Proof.
  assert (H : process_cluster one_story_world 1 5 "IT" "IT" = Ok [])
    by (vm_compute; reflexivity).
  split; [exact H|].
  now destruct (process_cluster_feed_bounds one_story_world 1 5 "IT" "IT" [] H)
    as (_ & Hlen & _).
Defined.
